(** * terraform-provider-opencti: the provider's reconcilers, embedded in Rocq

    The provider maps eight OpenCTI entity kinds (role, group, user, marking
    definition, case/task/status template, vocabulary) to the Create / Read /
    Update / Delete hooks of the Terraform plugin framework.  Every hook is a
    straight-line sequence of calls to the gocti API client with two kinds of
    loops over association lists.

    The embedding keeps that shape.  A hook is a computation in a small
    state-and-error monad: the state is the remote system together with the
    journal of client calls issued so far, and a failing hook keeps the state
    it reached (the provider never rolls back).  The gocti client is an
    interface ([OpenCTIAPIClient]); the hooks are written against it and the
    theorems about one hook hold for every implementation.  The theorems
    about sequences of hooks are stated for [Backend], an in-memory
    implementation of that interface. *)

From Stdlib Require Import List String Ascii HexString DecimalString Bool ZArith Lia
  Permutation Sorted.
Import ListNotations.
Local Open Scope string_scope.
Local Open Scope list_scope.

Set Implicit Arguments.
Set Warnings "-register-all".

(** ** Go library functions used by the hooks *)

(** [slices.Contains] on a slice of strings. *)
Definition slices_Contains (s : list string) (v : string) : bool :=
  existsb (String.eqb v) s.

(** [sort.Strings]: ascending byte-wise lexicographic order.  Go's sort is not
    stable, which is unobservable on strings (equal strings are identical), so
    an insertion sort computes the same slice. *)
Fixpoint insert_string (x : string) (l : list string) : list string :=
  match l with
  | [] => [x]
  | y :: l' => if String.leb x y then x :: l else y :: insert_string x l'
  end.

Definition sort_Strings (l : list string) : list string :=
  fold_right insert_string [] l.

(** The order [sort.Strings] sorts by, as a relation. *)
Definition string_le (a b : string) : Prop := String.leb a b = true.

(** [strings.Trim s cutset] for a one-character cutset: all leading and all
    trailing occurrences of the character are removed. *)
Fixpoint TrimLeft (s : string) (c : ascii) : string :=
  match s with
  | EmptyString => EmptyString
  | String a s' => if Ascii.eqb a c then TrimLeft s' c else s
  end.

Fixpoint TrimRight (s : string) (c : ascii) : string :=
  match s with
  | EmptyString => EmptyString
  | String a s' =>
      match TrimRight s' c with
      | EmptyString => if Ascii.eqb a c then EmptyString else String a EmptyString
      | t => String a t
      end
  end.

Definition strings_Trim (s : string) (c : ascii) : string :=
  TrimRight (TrimLeft s c) c.

(** The double-quote character, byte 34. *)
Definition dquote : ascii := Eval cbv in ascii_of_nat 34.

(** Go's narrowing conversion [int32(x)] of an [int]: wrap-around modulo 2^32
    into the signed range. *)
Definition int32_of_int (x : Z) : Z :=
  ((x + 2147483648) mod 4294967296 - 2147483648)%Z.

(** ** Values of the Terraform plugin framework

    A framework value ([types.String], [types.List], [types.Object], ...) is
    null, unknown or known. *)
Inductive tfvalue (A : Type) : Type :=
| TfNull
| TfUnknown
| TfKnown (a : A).
Arguments TfNull {A}.
Arguments TfUnknown {A}.

Definition IsNull {A} (v : tfvalue A) : bool :=
  match v with TfNull => true | _ => false end.

Definition IsUnknown {A} (v : tfvalue A) : bool :=
  match v with TfUnknown => true | _ => false end.

(** [ValueString], [ValueInt64]: the zero value unless known. *)
Definition ValueString (v : tfvalue string) : string :=
  match v with TfKnown s => s | _ => EmptyString end.

Definition ValueInt64 (v : tfvalue Z) : Z :=
  match v with TfKnown z => z | _ => 0%Z end.

(** [Elements] of a list value: no element unless known. *)
Definition Elements {A} (v : tfvalue (list A)) : list A :=
  match v with TfKnown l => l | _ => [] end.

(** A list or set value of the framework ([types.List], [types.Set]) is null,
    unknown or known, and so is each of its elements. *)
Definition tflist (A : Type) : Type := tfvalue (list (tfvalue A)).

(** [types.ListValueFrom], [types.SetValueFrom] and [types.ListValue] on a
    slice of Go values: the known list of the known elements. *)
Definition ListValueFrom {A} (l : list A) : tflist A := TfKnown (map (@TfKnown A) l).

(** [attr.NullValueString] and [attr.UnknownValueString], what [String()]
    renders a null and an unknown value as. *)
Definition NullValueString : string := "<null>".
Definition UnknownValueString : string := "<unknown>".

(** A diagnostic of severity error: [AddAttributeError] carries the attribute
    path, [AddError] does not. *)
Record Diagnostic : Type := mkDiag {
  diag_path : option string;
  diag_summary : string;
  diag_detail : string;
}.

Definition AddError (summary detail : string) : Diagnostic :=
  mkDiag None summary detail.

Definition AddAttributeError (path summary detail : string) : Diagnostic :=
  mkDiag (Some path) summary detail.

(** ** Conversion of a list value to a Go slice

    [v.ElementsAs(ctx, &target, false)] fills a slice of Go values that can
    hold neither null nor unknown ([[]string], a slice of structs).  The
    conversion is the framework's: a null list gives the nil slice; an
    unknown list, and the first element that is null or unknown, give one
    error diagnostic [Value Conversion Error] at the path of the value, and
    the target is not filled.  Of the detail of that diagnostic the leading
    sentence of the reason is kept. *)
Inductive Unset : Type :=
| NullValue
| UnknownValue.

Definition conversionError (path : string) (u : Unset) : Diagnostic :=
  AddAttributeError path "Value Conversion Error"
    match u with
    | NullValue =>
        "Received null value, however the target type cannot handle null values."
    | UnknownValue =>
        "Received unknown value, however the target type cannot handle unknown values."
    end.

(** [strconv.Itoa] of a position. *)
Definition Itoa (n : nat) : string := NilEmpty.string_of_uint (Nat.to_uint n).

(** The path of the element at position [i] of a list value,
    [path.Empty().AtListIndex(i)], and the path of a null or unknown element
    of a set value, [path.Empty().AtSetValue(v)], as [String()] renders
    them. *)
Definition AtListIndex (i : nat) (u : Unset) : string := "[" ++ Itoa i ++ "]".

Definition AtSetValue (i : nat) (u : Unset) : string :=
  "[Value("
  ++ match u with NullValue => NullValueString | UnknownValue => UnknownValueString end
  ++ ")]".

Fixpoint elementsFrom {A} (at_ : nat -> Unset -> string) (i : nat) (l : list (tfvalue A))
  : list A + Diagnostic :=
  match l with
  | [] => inl []
  | TfKnown a :: l' =>
      match elementsFrom at_ (S i) l' with
      | inl target => inl (a :: target)
      | inr d => inr d
      end
  | TfNull :: _ => inr (conversionError (at_ i NullValue) NullValue)
  | TfUnknown :: _ => inr (conversionError (at_ i UnknownValue) UnknownValue)
  end.

Definition ElementsAs {A} (at_ : nat -> Unset -> string) (v : tflist A)
  : list A + Diagnostic :=
  match v with
  | TfNull => inl []
  | TfUnknown => inr (conversionError EmptyString UnknownValue)
  | TfKnown l => elementsFrom at_ 0 l
  end.

(** The slice a conversion fills, empty when the conversion fails. *)
Definition converted {A} (v : tflist A) : list A :=
  match ElementsAs AtListIndex v with
  | inl target => target
  | inr _ => []
  end.

(** ** Entities of the gocti client

    Only the fields the provider reads are kept.  A GraphQL connection is a
    list of edges, each wrapping a node. *)
Record Edge (A : Type) : Type := mkEdge { Node : A }.
Record Connection (A : Type) : Type := mkConnection { Edges : list (Edge A) }.

Definition nodes {A} (c : Connection A) : list A := map (@Node A) (Edges c).
Definition connection_of {A} (l : list A) : Connection A :=
  mkConnection (map (@mkEdge A) l).

Module Capability.
Record t : Type := mk { ID : string; Name : string }.
End Capability.

Module Role.
Record t : Type := mk { ID : string; Name : string; Capabilities : list Capability.t }.
End Role.

Module MarkingDefinition.
Record t : Type := mk {
    ID : string;
    DefinitionType : string;
    Definition_ : string;
    XOpenctiOrder : Z;
    XOpenctiColor : string;
  }.
End MarkingDefinition.

Module ConfidenceLevelOverride.
Record t : Type := mk { EntityType : string; MaxConfidence : Z }.
End ConfidenceLevelOverride.

Module ConfidenceLevel.
Record t : Type := mk {
    MaxConfidence : Z;
    Overrides : list ConfidenceLevelOverride.t;
  }.
End ConfidenceLevel.

Module Group.
Record t : Type := mk {
    ID : string;
    Name : string;
    Description : string;
    Roles : Connection Role.t;
    AllowedMarking : list MarkingDefinition.t;
    DefaultAssignation : bool;
    AutoNewMarking : bool;
    GroupConfidenceLevel : ConfidenceLevel.t;
  }.
End Group.

Module User.
Record t : Type := mk {
    ID : string;
    Name : string;
    UserEmail : string;
    ApiToken : string;
    UserConfidenceLevel : ConfidenceLevel.t;
    Groups : Connection Group.t;
  }.
(** [system.User{}], the zero value. *)
Definition zero : t :=
    mk EmptyString EmptyString EmptyString EmptyString
     (ConfidenceLevel.mk 0 []) (mkConnection []).
End User.

Module TaskTemplate.
Record t : Type := mk { ID : string; Name : string; Description : string }.
End TaskTemplate.

Module CaseTemplate.
Record t : Type := mk {
    ID : string;
    Name : string;
    Description : string;
    Tasks : Connection TaskTemplate.t;
  }.
End CaseTemplate.

Module StatusTemplate.
Record t : Type := mk { ID : string; Name : string; Color : string; Usages : Z }.
End StatusTemplate.

Module Vocabulary.
Record t : Type := mk {
    ID : string;
    Name : string;
    Description : string;
    Category_Key : string;
  }.
End Vocabulary.

(** Inputs of the creation mutations. *)
Record RoleAddInput : Type := { RoleAddInput_Name : string }.

Record GroupAddInput : Type := {
  GroupAddInput_Name : string;
  GroupAddInput_Description : string;
  GroupAddInput_DefaultAssignation : bool;
  GroupAddInput_AutoNewMarking : bool;
  GroupAddInput_GroupConfidenceLevel : ConfidenceLevel.t;
}.

Record UserAddInput : Type := {
  UserAddInput_UserEmail : string;
  UserAddInput_Name : string;
  UserAddInput_Password : string;
  UserAddInput_UserConfidenceLevel : ConfidenceLevel.t;
}.

Record MarkingDefinitionAddInput : Type := {
  MarkingDefinitionAddInput_DefinitionType : string;
  MarkingDefinitionAddInput_Definition : string;
  MarkingDefinitionAddInput_XOpenctiOrder : Z;
  MarkingDefinitionAddInput_XOpenctiColor : string;
}.

Record CaseTemplateAddInput : Type := {
  CaseTemplateAddInput_Name : string;
  CaseTemplateAddInput_Description : string;
  CaseTemplateAddInput_Tasks : list string;
}.

Record StatusTemplateAddInput : Type := {
  StatusTemplateAddInput_Name : string;
  StatusTemplateAddInput_Color : string;
}.

Record TaskTemplateAddInput : Type := {
  TaskTemplateAddInput_Name : string;
  TaskTemplateAddInput_Description : string;
}.

Record VocabularyAddInput : Type := {
  VocabularyAddInput_Name : string;
  VocabularyAddInput_Description : string;
  VocabularyAddInput_Category : string;
}.

(** ** The client interface

    One constructor per client method the provider calls.  The first argument
    of the create, read and list methods is the GraphQL field selection the
    call site passes; the methods Go declares on an entity ([AssignRole] on a
    group, ...) take the entity's identity first. *)
Inductive Call : Type :=
| CreateRole (customAttributes : string) (input : RoleAddInput)
| ReadRole (customAttributes id : string)
| DeleteRole (id : string)
| IDsByNames (names : list string)
| AssignCapability (roleID capabilityID : string)
| UnassignCapability (roleID capabilityID : string)
| ListRoles (customAttributes : string)
| CreateGroup (customAttributes : string) (input : GroupAddInput)
| ReadGroup (customAttributes id : string)
| DeleteGroup (id : string)
| ListGroups (customAttributes : string)
| AssignRole (groupID roleID : string)
| UnassignRole (groupID roleID : string)
| AssignMarkingDefinition (groupID markingID : string)
| UnassignMarkingDefinition (groupID markingID : string)
| ListUsers (customAttributes : string)
| CreateUser (customAttributes : string) (input : UserAddInput)
| ReadUser (customAttributes id : string)
| DeleteUser (id : string)
| AssignGroup (userID groupID : string)
| UnassignGroup (userID groupID : string)
| ListMarkingDefinitions (customAttributes : string)
| CreateMarkingDefinition (customAttributes : string) (input : MarkingDefinitionAddInput)
| ReadMarkingDefinition (customAttributes id : string)
| DeleteMarkingDefinition (id : string)
| CreateCaseTemplate (customAttributes : string) (input : CaseTemplateAddInput)
| ReadCaseTemplate (customAttributes id : string)
| DeleteCaseTemplate (id : string)
| CreateStatusTemplate (customAttributes : string) (input : StatusTemplateAddInput)
| ReadStatusTemplate (customAttributes id : string)
| DeleteStatusTemplate (id : string)
| SetStatusInWorkFlow (entity statusID : string) (order : Z)
| CreateTaskTemplate (customAttributes : string) (input : TaskTemplateAddInput)
| ReadTaskTemplate (customAttributes id : string)
| DeleteTaskTemplate (id : string)
| CreateVocabulary (customAttributes : string) (input : VocabularyAddInput)
| ReadVocabulary (customAttributes id : string)
| DeleteVocabulary (id : string).

(** The type of the value a call returns next to its [error]. *)
Definition Resp (c : Call) : Type :=
  match c with
  | CreateRole _ _ | ReadRole _ _ => Role.t
  | IDsByNames _ => list string
  | ListRoles _ => list Role.t
  | CreateGroup _ _ | ReadGroup _ _ => Group.t
  | ListGroups _ => list Group.t
  | ListUsers _ => list User.t
  | CreateUser _ _ | ReadUser _ _ => User.t
  | ListMarkingDefinitions _ => list MarkingDefinition.t
  | CreateMarkingDefinition _ _ | ReadMarkingDefinition _ _ => MarkingDefinition.t
  | CreateCaseTemplate _ _ | ReadCaseTemplate _ _ => CaseTemplate.t
  | CreateStatusTemplate _ _ | ReadStatusTemplate _ _ => StatusTemplate.t
  | CreateTaskTemplate _ _ | ReadTaskTemplate _ _ => TaskTemplate.t
  | CreateVocabulary _ _ | ReadVocabulary _ _ => Vocabulary.t
  | _ => unit
  end.

(** A Go [(value, error)] pair: the error is kept by its message. *)
Inductive reply (A : Type) : Type :=
| Reply (a : A)
| Failure (err : string).
Arguments Failure {A}.

(** [*gocti.OpenCTIAPIClient] over a remote system of type [W]: a call
    answers and may change the remote system. *)
Class OpenCTIAPIClient (W : Type) : Type := {
  exec : forall c : Call, W -> reply (Resp c) * W;
}.

(** [fmt.Sprintf("%q", s)], the rendering behind [String()] of a known
    framework string: Go's quoting is taken as given. *)
Class Fmt : Type := { Sprintf_q : string -> string }.

(** [v.String()] for a framework string [v]. *)
Definition String_ `{Fmt} (v : tfvalue string) : string :=
  match v with
  | TfNull => NullValueString
  | TfUnknown => UnknownValueString
  | TfKnown s => Sprintf_q s
  end.

(** Quoting of a string without quote, backslash or non-printable character:
    the string between two double quotes. *)
Definition plain_Fmt : Fmt :=
  {| Sprintf_q := fun s => String dquote (String.append s (String dquote EmptyString)) |}.

Definition backslash : ascii := Eval cbv in ascii_of_nat 92.

(** Go's quoting ([strconv.Quote], behind [%q]) of a string of printable
    ASCII characters: a double quote and a backslash are escaped by a
    backslash, every other character stands for itself, and the whole goes
    between two double quotes. *)
Fixpoint escaped (s : string) : string :=
  match s with
  | EmptyString => EmptyString
  | String a s' =>
      if Ascii.eqb a dquote || Ascii.eqb a backslash
      then String backslash (String a (escaped s'))
      else String a (escaped s')
  end.

Definition ascii_Fmt : Fmt :=
  {| Sprintf_q := fun s =>
       String dquote (String.append (escaped s) (String dquote EmptyString)) |}.

(** ** The monad of the hooks *)

(** How a hook ends: it returns, it reports a diagnostic and returns early, or
    the Go runtime panics. *)
Inductive outcome (A : Type) : Type :=
| Done (a : A)
| Errored (d : Diagnostic)
| Panicked (msg : string).
Arguments Errored {A}.
Arguments Panicked {A}.

(** An entry of the journal of a hook: a call the hook issued and what the
    client answered. *)
Record Entry : Type := answered {
  issued : Call;
  answer : reply (Resp issued);
}.

(** The entry of a call that succeeded with [a]. *)
Definition ok (c : Call) (a : Resp c) : Entry := answered c (Reply a).

Section Monad.
Context {W : Type} `{OpenCTIAPIClient W}.

(** The remote system and the journal of the calls issued, oldest first. *)
Definition St : Type := (W * list Entry)%type.

Definition M (A : Type) : Type := St -> outcome A * St.

Definition ret {A} (a : A) : M A := fun s => (Done a, s).

Definition bind {A B} (m : M A) (k : A -> M B) : M B :=
  fun s =>
    match m s with
    | (Done a, s') => k a s'
    | (Errored d, s') => (Errored d, s')
    | (Panicked msg, s') => (Panicked msg, s')
    end.

Definition fail {A} (d : Diagnostic) : M A := fun s => (Errored d, s).

Definition panic {A} (msg : string) : M A := fun s => (Panicked msg, s).

(** [if diags.HasError() { return }] after a conversion: the hook goes on
    with the target, or ends with the diagnostic of the conversion. *)
Definition orReturn {A} (target : A + Diagnostic) : M A :=
  match target with
  | inl a => ret a
  | inr d => fail d
  end.

(** A client call whose error is reported by [onError] and ends the hook. *)
Definition call (c : Call) (onError : string -> Diagnostic) : M (Resp c) :=
  fun s =>
    let (r, w') := exec c (fst s) in
    let journal := snd s ++ [answered c r] in
    match r with
    | Reply a => (Done a, (w', journal))
    | Failure err => (Errored (onError err), (w', journal))
    end.

(** [for _, x := range l { body }] threading the accumulator [acc]. *)
Fixpoint for_range {A B} (l : list A) (body : B -> A -> M B) (acc : B) : M B :=
  match l with
  | [] => ret acc
  | x :: l' => bind (body acc x) (for_range l' body)
  end.
End Monad.

Arguments St W : clear implicits.
Arguments M W A : clear implicits.

Declare Scope hook_scope.
Delimit Scope hook_scope with hook.
Notation "x <- m ;; k" := (bind m (fun x => k))
  (at level 61, m at next level, right associativity) : hook_scope.
Notation "m ;;; k" := (bind m (fun _ => k))
  (at level 61, right associativity) : hook_scope.

Local Open Scope hook_scope.

(** [for i, x := range l]: the elements with their index. *)
Definition indexed {A} (l : list A) : list (nat * A) :=
  combine (seq 0 (List.length l)) l.

(** ** role resource *)
Module roleResource.

(** [roleResourceModel]: a framework string is kept by its [ValueString()],
    the list of capabilities as the list value it is. *)
Record roleResourceModel : Type := {
  ID : string;
  Name : string;
  Capabilities : tflist string;
  LastUpdated : string;
}.

Section Hooks.
Context {W : Type} `{OpenCTIAPIClient W} `{Fmt}.

(** [Create]; [now] is [time.Now().Format(time.RFC850)]. *)
Definition Create (plan : roleResourceModel) (now : string) : M W roleResourceModel :=
  createdRole <- call (CreateRole "id name" {| RoleAddInput_Name := Name plan |})
    (fun err => AddError "Error creating role"
                  ("Could not create role, unexpected error: " ++ err)%string) ;;
  let capabilities :=
    map (fun capability => strings_Trim (String_ capability) dquote)
        (Elements (Capabilities plan)) in
  let capabilitesAssigned := capabilities in
  capabilitiesIDs <- call (IDsByNames capabilities)
    (fun err => AddError "Error retrieving capabilities IDs"
                  ("Could not create role, unexpected error: " ++ err)%string) ;;
  for_range capabilitiesIDs (fun _ capability =>
    call (AssignCapability (Role.ID createdRole) capability)
      (fun err => AddError "Error assigning capabilities"
                    ("Could not create role, unexpected error: " ++ err)%string)) tt ;;;
  ret {| ID := Role.ID createdRole;
         Name := Role.Name createdRole;
         Capabilities := ListValueFrom (sort_Strings capabilitesAssigned);
         LastUpdated := now |}.

Definition Read (state : roleResourceModel) : M W roleResourceModel :=
  role <- call (ReadRole "id name capabilities {id name}" (ID state))
    (fun err => AddError "Error Reading opencti role" err) ;;
  let capabilities := map Capability.Name (Role.Capabilities role) in
  ret {| ID := Role.ID role;
         Name := Role.Name role;
         Capabilities := ListValueFrom (sort_Strings capabilities);
         LastUpdated := LastUpdated state |}.

(** The loop [// Remove capabilities]. *)
Definition removeCapabilities (role : Role.t) (capabilitiesPlan : list string)
  : M W (list string) :=
  for_range (Role.Capabilities role) (fun capabilitiesOfRole capability =>
    if negb (slices_Contains capabilitiesPlan (Capability.Name capability)) then
      call (UnassignCapability (Role.ID role) (Capability.ID capability))
        (fun err => AddError "Error Unassigning OpenCTI Capability from Role" err) ;;;
      ret capabilitiesOfRole
    else ret (capabilitiesOfRole ++ [Capability.Name capability])) [].

(** The loop [// Add capabilities]: the identity to assign is read at the
    position of the name in the plan, [capabilitiesIDs[i]]. *)
Definition addCapabilities (role : Role.t) (capabilitiesPlan capabilitiesIDs : list string)
  : list string -> M W (list string) :=
  for_range (indexed capabilitiesPlan) (fun capabilitiesOfRole ic =>
    let '(i, capability) := ic in
    if negb (slices_Contains capabilitiesOfRole capability) then
      match nth_error capabilitiesIDs i with
      | None => panic "runtime error: index out of range"
      | Some capabilityID =>
          call (AssignCapability (Role.ID role) capabilityID)
            (fun err => AddError "Error assigning capability to role" err) ;;;
          ret (capabilitiesOfRole ++ [capability])
      end
    else ret capabilitiesOfRole).

Definition Update (plan : roleResourceModel) (now : string) : M W roleResourceModel :=
  role <- call (ReadRole "id name capabilities {id name}" (ID plan))
    (fun err => AddError "Error Reading opencti role" err) ;;
  capabilitiesPlan <- orReturn (ElementsAs AtListIndex (Capabilities plan)) ;;
  capabilitiesIDs <- call (IDsByNames capabilitiesPlan)
    (fun err => AddError "Error retrieving capabilities IDs" err) ;;
  capabilitiesOfRole <- removeCapabilities role capabilitiesPlan ;;
  capabilitiesOfRole <- addCapabilities role capabilitiesPlan capabilitiesIDs
                          capabilitiesOfRole ;;
  ret {| ID := ID plan;
         Name := Name plan;
         Capabilities := ListValueFrom (sort_Strings capabilitiesOfRole);
         LastUpdated := now |}.

(** [Delete] writes no state. *)
Definition Delete (state : roleResourceModel) : M W unit :=
  call (DeleteRole (ID state))
    (fun err => AddError "Error Deleting OpenCTI Role"
                  ("Could not delete role, unexpected error: " ++ err)%string).

End Hooks.
End roleResource.

(** ** group resource *)
Module groupResource.

Record groupResourceModel : Type := {
  ID : string;
  Name : string;
  Description : string;
  Roles : tflist string;
  AllowedMarking : tflist string;
  MaxConfidenceLevel : Z;
  AutoNewMarking : bool;
  DefaultAssignation : bool;
  LastUpdated : string;
}.

Section Hooks.
Context {W : Type} `{OpenCTIAPIClient W} `{Fmt}.

(** The inner loop of every assignment scan stops at the first entry of the
    listing that bears the name ([break]): it is a [find]. *)
Definition roleNamed (name : string) (existingRoles : list Role.t) : option Role.t :=
  find (fun remoteRole => String.eqb name (Role.Name remoteRole)) existingRoles.

Definition markingNamed (name : string) (existingMarkings : list MarkingDefinition.t)
  : option MarkingDefinition.t :=
  find (fun remoteMarking => String.eqb name (MarkingDefinition.Definition_ remoteMarking))
       existingMarkings.

Definition Create (plan : groupResourceModel) (now : string) : M W groupResourceModel :=
  createdGroup <- call
    (CreateGroup "id name description default_assignation auto_new_marking group_confidence_level { max_confidence }"
       {| GroupAddInput_Name := Name plan;
          GroupAddInput_Description := Description plan;
          GroupAddInput_DefaultAssignation := DefaultAssignation plan;
          GroupAddInput_AutoNewMarking := AutoNewMarking plan;
          GroupAddInput_GroupConfidenceLevel :=
            ConfidenceLevel.mk (MaxConfidenceLevel plan) [] |})
    (fun err => AddError "Error creating group"
                  ("Could not create group, unexpected error: " ++ err)%string) ;;
  existingRoles <- call (ListRoles EmptyString)
    (fun err => AddError "Error listing roles"
                  ("Could not create group, unexpected error: " ++ err)%string) ;;
  rolesAssigned <- for_range (Elements (Roles plan)) (fun rolesAssigned role =>
    match roleNamed (strings_Trim (String_ role) dquote) existingRoles with
    | Some remoteRole =>
        call (AssignRole (Group.ID createdGroup) (Role.ID remoteRole))
          (fun err => AddError "Error assigning role to group"
                        ("Could not create group, unexpected error: " ++ err)%string) ;;;
        ret (rolesAssigned ++ [Role.Name remoteRole])
    | None => ret rolesAssigned
    end) [] ;;
  existingMarkings <- call
    (ListMarkingDefinitions "id definition_type definition x_opencti_order x_opencti_color")
    (fun err => AddError "Error listing markings"
                  ("Could not create group, unexpected error: " ++ err)%string) ;;
  markingsAssigned <- for_range (Elements (AllowedMarking plan))
                        (fun markingsAssigned marking =>
    match markingNamed (strings_Trim (String_ marking) dquote) existingMarkings with
    | Some remoteMarking =>
        call (AssignMarkingDefinition (Group.ID createdGroup)
                (MarkingDefinition.ID remoteMarking))
          (fun err => AddError "Error assigning marking to group"
                        ("Could not create group, unexpected error: " ++ err)%string) ;;;
        ret (markingsAssigned ++ [MarkingDefinition.Definition_ remoteMarking])
    | None => ret markingsAssigned
    end) [] ;;
  ret {| ID := Group.ID createdGroup;
         Name := Group.Name createdGroup;
         Description := Group.Description createdGroup;
         Roles := ListValueFrom (sort_Strings rolesAssigned);
         AllowedMarking := ListValueFrom (sort_Strings markingsAssigned);
         MaxConfidenceLevel :=
           int32_of_int (ConfidenceLevel.MaxConfidence (Group.GroupConfidenceLevel createdGroup));
         AutoNewMarking := Group.AutoNewMarking createdGroup;
         DefaultAssignation := Group.DefaultAssignation createdGroup;
         LastUpdated := now |}.

Definition readAttributes : string :=
  "id name description roles { edges { node {id name} } } allowed_marking {id definition_type definition} default_assignation auto_new_marking group_confidence_level { max_confidence }".

Definition Read (state : groupResourceModel) : M W groupResourceModel :=
  group <- call (ReadGroup readAttributes (ID state))
    (fun err => AddError "Error Reading opencti group" err) ;;
  let roles := map Role.Name (nodes (Group.Roles group)) in
  let markings := map MarkingDefinition.Definition_ (Group.AllowedMarking group) in
  ret {| ID := Group.ID group;
         Name := Group.Name group;
         Description := Group.Description group;
         Roles := ListValueFrom (sort_Strings roles);
         AllowedMarking := ListValueFrom (sort_Strings markings);
         MaxConfidenceLevel :=
           int32_of_int (ConfidenceLevel.MaxConfidence (Group.GroupConfidenceLevel group));
         AutoNewMarking := Group.AutoNewMarking group;
         DefaultAssignation := Group.DefaultAssignation group;
         LastUpdated := LastUpdated state |}.

(** The loop [// Remove roles]. *)
Definition removeRoles (group : Group.t) (rolesPlan : list string) : M W (list string) :=
  for_range (nodes (Group.Roles group)) (fun rolesOfGroup role =>
    if negb (slices_Contains rolesPlan (Role.Name role)) then
      call (UnassignRole (Group.ID group) (Role.ID role))
        (fun err => AddError "Error Unassigning OpenCTI Role from Group" err) ;;;
      ret rolesOfGroup
    else ret (rolesOfGroup ++ [Role.Name role])) [].

(** The loop [// Add roles]. *)
Definition addRoles (group : Group.t) (rolesPlan : list string) (existingRoles : list Role.t)
  : list string -> M W (list string) :=
  for_range rolesPlan (fun rolesOfGroup role =>
    if negb (slices_Contains rolesOfGroup role) then
      match roleNamed role existingRoles with
      | Some remoteRole =>
          call (AssignRole (Group.ID group) (Role.ID remoteRole))
            (fun err => AddError "Error assigning role to group" err) ;;;
          ret (rolesOfGroup ++ [Role.Name remoteRole])
      | None => ret rolesOfGroup
      end
    else ret rolesOfGroup).

(** The loop [// Remove markings]. *)
Definition removeMarkings (group : Group.t) (markingsPlan : list string) : M W (list string) :=
  for_range (Group.AllowedMarking group) (fun markingsOfGroup marking =>
    if negb (slices_Contains markingsPlan (MarkingDefinition.Definition_ marking)) then
      call (UnassignMarkingDefinition (Group.ID group) (MarkingDefinition.ID marking))
        (fun err => AddError "Error Unassigning OpenCTI Marking Definition from Group" err) ;;;
      ret markingsOfGroup
    else ret (markingsOfGroup ++ [MarkingDefinition.Definition_ marking])) [].

(** The loop [// Add markings]. *)
Definition addMarkings (group : Group.t) (markingsPlan : list string)
    (existingMarkings : list MarkingDefinition.t) : list string -> M W (list string) :=
  for_range markingsPlan (fun markingsOfGroup marking =>
    if negb (slices_Contains markingsOfGroup marking) then
      match markingNamed marking existingMarkings with
      | Some remoteMarking =>
          call (AssignMarkingDefinition (Group.ID group) (MarkingDefinition.ID remoteMarking))
            (fun err => AddError "Error assigning marking definition to group" err) ;;;
          ret (markingsOfGroup ++ [MarkingDefinition.Definition_ remoteMarking])
      | None => ret markingsOfGroup
      end
    else ret markingsOfGroup).

Definition Update (plan : groupResourceModel) (now : string) : M W groupResourceModel :=
  group <- call (ReadGroup readAttributes (ID plan))
    (fun err => AddError "Error Reading opencti group" err) ;;
  rolesPlan <- orReturn (ElementsAs AtListIndex (Roles plan)) ;;
  rolesOfGroup <- removeRoles group rolesPlan ;;
  existingRoles <- call (ListRoles "id name")
    (fun err => AddError "Error listing roles" err) ;;
  rolesOfGroup <- addRoles group rolesPlan existingRoles rolesOfGroup ;;
  markingsPlan <- orReturn (ElementsAs AtListIndex (AllowedMarking plan)) ;;
  markingsOfGroup <- removeMarkings group markingsPlan ;;
  existingMarkings <- call (ListMarkingDefinitions "id definition")
    (fun err => AddError "Error listing marking definitions" err) ;;
  markingsOfGroup <- addMarkings group markingsPlan existingMarkings markingsOfGroup ;;
  ret {| ID := ID plan;
         Name := Name plan;
         Description := Description plan;
         Roles := ListValueFrom (sort_Strings rolesOfGroup);
         AllowedMarking := ListValueFrom (sort_Strings markingsOfGroup);
         MaxConfidenceLevel := MaxConfidenceLevel plan;
         AutoNewMarking := AutoNewMarking plan;
         DefaultAssignation := DefaultAssignation plan;
         LastUpdated := now |}.

Definition Delete (state : groupResourceModel) : M W unit :=
  call (DeleteGroup (ID state))
    (fun err => AddError "Error Deleting OpenCTI Group"
                  ("Could not delete group, unexpected error: " ++ err)%string).

End Hooks.
End groupResource.

(** ** user resource *)
Module userResource.

(** An element of [overrides]; both attributes are required. *)
Record overrideObject : Type := {
  entity_type : string;
  override_max_confidence : Z;
}.

(** The object [user_confidence_level]; both attributes are optional and
    computed. *)
Record userConfidenceLevelObject : Type := {
  max_confidence : tfvalue Z;
  overrides : tfvalue (list overrideObject);
}.

Record userResourceModel : Type := {
  ID : string;
  Name : string;
  UserEmail : string;
  APIToken : string;
  Groups : tflist string;
  UserConfidenceLevel : tfvalue userConfidenceLevelObject;
  LastUpdated : string;
}.

(** [convertUserConfidenceLevel] converts the input for terraform state. *)
Definition convertUserConfidenceLevel (conf : ConfidenceLevel.t)
  : tfvalue userConfidenceLevelObject :=
  let overrideValues :=
    map (fun o => {| entity_type := ConfidenceLevelOverride.EntityType o;
                     override_max_confidence := ConfidenceLevelOverride.MaxConfidence o |})
        (ConfidenceLevel.Overrides conf) in
  TfKnown {| max_confidence := TfKnown (ConfidenceLevel.MaxConfidence conf);
             overrides := TfKnown overrideValues |}.

Section Hooks.
Context {W : Type} `{OpenCTIAPIClient W} `{Fmt}.

Definition groupNamed (name : string) (existingGroups : list Group.t) : option Group.t :=
  find (fun remoteGroup => String.eqb name (Group.Name remoteGroup)) existingGroups.

(** [// Check if the user exist, if so, retrieve it]: the first listed user
    bearing the planned name, else the zero [system.User{}]. *)
Definition existingUser (name : string) (usersRaw : list User.t) : User.t :=
  match find (fun user => String.eqb name (User.Name user)) usersRaw with
  | Some user => user
  | None => User.zero
  end.

(** The confidence level sent with the creation: the planned object, or
    [max_confidence = 100] without overrides when the plan has none. *)
Definition plannedConfidenceLevel (plan : userResourceModel) : ConfidenceLevel.t :=
  let object :=
    match UserConfidenceLevel plan with
    | TfKnown o => o
    | _ => {| max_confidence := TfKnown 100%Z; overrides := TfKnown [] |}
    end in
  let maxConfidence := ValueInt64 (max_confidence object) in
  let overridesObjects := Elements (overrides object) in
  ConfidenceLevel.mk maxConfidence
    (map (fun o => ConfidenceLevelOverride.mk (entity_type o) (override_max_confidence o))
         overridesObjects).

(** [Create]; [uuid] is [uuid.New().String()], the password of a new user. *)
Definition Create (plan : userResourceModel) (uuid now : string) : M W userResourceModel :=
  usersRaw <- call (ListUsers EmptyString)
    (fun err => AddError "Error Reading opencti users"
                  ("Could not read opencti users, unexpected error: " ++ err)%string) ;;
  let createdUser := existingUser (Name plan) usersRaw in
  let conf := plannedConfidenceLevel plan in
  createdUser <-
    (if String.eqb (User.Name createdUser) EmptyString then
       call (CreateUser "id name user_email api_token user_confidence_level { max_confidence overrides { entity_type max_confidence } }"
               {| UserAddInput_UserEmail := UserEmail plan;
                  UserAddInput_Name := Name plan;
                  UserAddInput_Password := uuid;
                  UserAddInput_UserConfidenceLevel := conf |})
         (fun err => AddError "Error creating user"
                       ("Could not create user, unexpected error: " ++ err)%string)
     else ret createdUser) ;;
  existingGroups <- call (ListGroups "id name")
    (fun err => AddError "Error listing groups"
                  ("Could not create user, unexpected error: " ++ err)%string) ;;
  groupsAssigned <- for_range (Elements (Groups plan)) (fun groupsAssigned group =>
    match groupNamed (strings_Trim (String_ group) dquote) existingGroups with
    | Some remoteGroup =>
        call (AssignGroup (User.ID createdUser) (Group.ID remoteGroup))
          (fun err => AddError "Error assigning group to user" err) ;;;
        ret (groupsAssigned ++ [Group.Name remoteGroup])
    | None => ret groupsAssigned
    end) [] ;;
  ret {| ID := User.ID createdUser;
         Name := User.Name createdUser;
         UserEmail := User.UserEmail createdUser;
         APIToken := User.ApiToken createdUser;
         Groups := ListValueFrom (sort_Strings groupsAssigned);
         UserConfidenceLevel :=
           convertUserConfidenceLevel (User.UserConfidenceLevel createdUser);
         LastUpdated := now |}.

Definition Read (state : userResourceModel) : M W userResourceModel :=
  user <- call
    (ReadUser "id name user_email api_token user_confidence_level { max_confidence overrides { entity_type max_confidence } } groups { edges { node {id name} } }"
       (ID state))
    (fun err => AddError "Error Reading opencti user" err) ;;
  let groups := map Group.Name (nodes (User.Groups user)) in
  ret {| ID := User.ID user;
         Name := User.Name user;
         UserEmail := User.UserEmail user;
         APIToken := User.ApiToken user;
         Groups := ListValueFrom (sort_Strings groups);
         UserConfidenceLevel := convertUserConfidenceLevel (User.UserConfidenceLevel user);
         LastUpdated := LastUpdated state |}.

(** The loop [// Remove groups]. *)
Definition removeGroups (user : User.t) (groupsPlan : list string) : M W (list string) :=
  for_range (nodes (User.Groups user)) (fun groupsOfUser group =>
    if negb (slices_Contains groupsPlan (Group.Name group)) then
      call (UnassignGroup (User.ID user) (Group.ID group))
        (fun err => AddError "Error Unassigning OpenCTI Group from User" err) ;;;
      ret groupsOfUser
    else ret (groupsOfUser ++ [Group.Name group])) [].

(** The loop [// Add groups]. *)
Definition addGroups (user : User.t) (groupsPlan : list string) (existingGroups : list Group.t)
  : list string -> M W (list string) :=
  for_range groupsPlan (fun groupsOfUser group =>
    if negb (slices_Contains groupsOfUser group) then
      match groupNamed group existingGroups with
      | Some remoteGroup =>
          call (AssignGroup (User.ID user) (Group.ID remoteGroup))
            (fun err => AddError "Error assigning group to user" err) ;;;
          ret (groupsOfUser ++ [Group.Name remoteGroup])
      | None => ret groupsOfUser
      end
    else ret groupsOfUser).

Definition Update (plan : userResourceModel) (now : string) : M W userResourceModel :=
  user <- call
    (ReadUser "id name user_email api_token groups { edges { node {id name} } }" (ID plan))
    (fun err => AddError "Error Reading opencti user" err) ;;
  groupsPlan <- orReturn (ElementsAs AtListIndex (Groups plan)) ;;
  groupsOfUser <- removeGroups user groupsPlan ;;
  existingGroups <- call (ListGroups "id name")
    (fun err => AddError "Error listing groups" err) ;;
  groupsOfUser <- addGroups user groupsPlan existingGroups groupsOfUser ;;
  ret {| ID := ID plan;
         Name := Name plan;
         UserEmail := UserEmail plan;
         APIToken := APIToken plan;
         Groups := ListValueFrom (sort_Strings groupsOfUser);
         UserConfidenceLevel := UserConfidenceLevel plan;
         LastUpdated := now |}.

Definition Delete (state : userResourceModel) : M W unit :=
  call (DeleteUser (ID state))
    (fun err => AddError "Error Deleting OpenCTI User" err).

End Hooks.
End userResource.

(** ** marking definition resource *)
Module markingDefinitionResource.

Record markingDefinitionResourceModel : Type := {
  ID : string;
  DefinitionType : string;
  Definition_ : string;
  XOpenctiOrder : Z;
  XOpenctiColor : string;
  LastUpdated : string;
}.

Section Hooks.
Context {W : Type} `{OpenCTIAPIClient W}.

Definition addInput (plan : markingDefinitionResourceModel) : MarkingDefinitionAddInput :=
  {| MarkingDefinitionAddInput_DefinitionType := DefinitionType plan;
     MarkingDefinitionAddInput_Definition := Definition_ plan;
     MarkingDefinitionAddInput_XOpenctiOrder := XOpenctiOrder plan;
     MarkingDefinitionAddInput_XOpenctiColor := XOpenctiColor plan |}.

Definition Create (plan : markingDefinitionResourceModel) (now : string)
  : M W markingDefinitionResourceModel :=
  createdMarking <- call (CreateMarkingDefinition EmptyString (addInput plan))
    (fun err => AddError "Error creating marking definition"
                  ("Could not create marking definition, unexpected error: " ++ err)%string) ;;
  ret {| ID := MarkingDefinition.ID createdMarking;
         DefinitionType := MarkingDefinition.DefinitionType createdMarking;
         Definition_ := MarkingDefinition.Definition_ createdMarking;
         XOpenctiOrder := int32_of_int (MarkingDefinition.XOpenctiOrder createdMarking);
         XOpenctiColor := MarkingDefinition.XOpenctiColor createdMarking;
         LastUpdated := now |}.

Definition Read (state : markingDefinitionResourceModel)
  : M W markingDefinitionResourceModel :=
  marking <- call
    (ReadMarkingDefinition "id definition_type definition x_opencti_order x_opencti_color"
       (ID state))
    (fun err => AddError "Error Reading opencti marking definition"
                  ("Could not read opencti marking definition, unexpected error: " ++ err)%string) ;;
  ret {| ID := MarkingDefinition.ID marking;
         DefinitionType := MarkingDefinition.DefinitionType marking;
         Definition_ := MarkingDefinition.Definition_ marking;
         XOpenctiOrder := int32_of_int (MarkingDefinition.XOpenctiOrder marking);
         XOpenctiColor := MarkingDefinition.XOpenctiColor marking;
         LastUpdated := LastUpdated state |}.

(** [Update] issues the creation mutation again (the source's own comment in
    the body reads [// Create new markingDefinition]) and writes the answer's
    identity over the planned one. *)
Definition Update (plan : markingDefinitionResourceModel) (now : string)
  : M W markingDefinitionResourceModel :=
  createdMarking <- call (CreateMarkingDefinition EmptyString (addInput plan))
    (fun err => AddError "Error creating marking definition"
                  ("Could not create marking definition, unexpected error: " ++ err)%string) ;;
  ret {| ID := MarkingDefinition.ID createdMarking;
         DefinitionType := MarkingDefinition.DefinitionType createdMarking;
         Definition_ := MarkingDefinition.Definition_ createdMarking;
         XOpenctiOrder := int32_of_int (MarkingDefinition.XOpenctiOrder createdMarking);
         XOpenctiColor := MarkingDefinition.XOpenctiColor createdMarking;
         LastUpdated := now |}.

Definition Delete (state : markingDefinitionResourceModel) : M W unit :=
  call (DeleteMarkingDefinition (ID state))
    (fun err => AddError "Error Deleting OpenCTI Marking Definition"
                  ("Could not delete marking definition, unexpected error: " ++ err)%string).

End Hooks.
End markingDefinitionResource.

(** ** case template resource *)
Module caseTemplateResource.

(** [Tasks] is a set value of task-template identities, kept in the order of
    the slice the framework value was built from. *)
Record caseTemplateResourceModel : Type := {
  ID : string;
  Name : string;
  Description : string;
  Tasks : tflist string;
  LastUpdated : string;
}.

Section Hooks.
Context {W : Type} `{OpenCTIAPIClient W}.

Definition attributes : string :=
  "id name description tasks { edges { node { id name } } }".

Definition Create (plan : caseTemplateResourceModel) (now : string)
  : M W caseTemplateResourceModel :=
  taskList <- orReturn (ElementsAs AtSetValue (Tasks plan)) ;;
  createdCase <- call
    (CreateCaseTemplate attributes
       {| CaseTemplateAddInput_Name := Name plan;
          CaseTemplateAddInput_Description := Description plan;
          CaseTemplateAddInput_Tasks := taskList |})
    (fun err => AddError "Error creating case template"
                  ("Could not create case template, unexpected error: " ++ err)%string) ;;
  let tasks := map TaskTemplate.ID (nodes (CaseTemplate.Tasks createdCase)) in
  ret {| ID := CaseTemplate.ID createdCase;
         Name := CaseTemplate.Name createdCase;
         Description := CaseTemplate.Description createdCase;
         Tasks := ListValueFrom tasks;
         LastUpdated := now |}.

Definition Read (state : caseTemplateResourceModel) : M W caseTemplateResourceModel :=
  caseTemplate <- call (ReadCaseTemplate attributes (ID state))
    (fun err => AddError "Error Reading opencti case template" err) ;;
  let tasks := map TaskTemplate.ID (nodes (CaseTemplate.Tasks caseTemplate)) in
  ret {| ID := CaseTemplate.ID caseTemplate;
         Name := CaseTemplate.Name caseTemplate;
         Description := CaseTemplate.Description caseTemplate;
         Tasks := ListValueFrom tasks;
         LastUpdated := LastUpdated state |}.

(** [Update] has an empty body.  The framework hands an update hook a
    response whose state is the prior state, so that state is what the hook
    leaves behind. *)
Definition Update (plan state : caseTemplateResourceModel)
  : M W caseTemplateResourceModel :=
  ret state.

Definition Delete (state : caseTemplateResourceModel) : M W unit :=
  call (DeleteCaseTemplate (ID state))
    (fun err => AddError "Error Deleting OpenCTI Case Template"
                  ("Could not delete case template, unexpected error: " ++ err)%string).

End Hooks.
End caseTemplateResource.

(** ** status template resource *)
Module statusTemplateResource.

Record workflowModel : Type := {
  Entity : string;
  Order : Z;
}.

Record statusTemplateResourceModel : Type := {
  ID : string;
  Name : string;
  Color : string;
  Workflows : tflist workflowModel;
  LastUpdated : string;
}.

Section Hooks.
Context {W : Type} `{OpenCTIAPIClient W}.

Definition Create (plan : statusTemplateResourceModel) (now : string)
  : M W statusTemplateResourceModel :=
  workflows <-
    (if negb (IsNull (Workflows plan)) && negb (IsUnknown (Workflows plan))
     then orReturn (ElementsAs AtListIndex (Workflows plan))
     else ret []) ;;
  createdStatus <- call
    (CreateStatusTemplate "id name color"
       {| StatusTemplateAddInput_Name := Name plan;
          StatusTemplateAddInput_Color := Color plan |})
    (fun err => AddError "Error creating status template"
                  ("Could not create status template, unexpected error: " ++ err)%string) ;;
  let planID := StatusTemplate.ID createdStatus in
  workflowsValues <- for_range workflows (fun workflowsValues workflow =>
    call (SetStatusInWorkFlow (Entity workflow) planID (Order workflow))
      (fun err => AddError "Error setting status in workflow"
                    ("Could not create status in workflow, unexpected error: " ++ err)%string) ;;;
    ret (workflowsValues ++ [{| Entity := Entity workflow; Order := Order workflow |}])) [] ;;
  ret {| ID := planID;
         Name := Name plan;
         Color := Color plan;
         Workflows := ListValueFrom workflowsValues;
         LastUpdated := now |}.

(** [Read]: the workflows are not read back ([// It is not simple to retrieve
    the workflow of all the entities, compare only the number of usages]). *)
Definition Read (state : statusTemplateResourceModel) : M W statusTemplateResourceModel :=
  statusTemplate <- call (ReadStatusTemplate "id name color usages" (ID state))
    (fun err => AddError "Error Reading opencti status template" err) ;;
  let workflows :=
    if negb (Z.of_nat (List.length (Elements (Workflows state)))
             =? StatusTemplate.Usages statusTemplate)%Z
    then ListValueFrom [] else Workflows state in
  ret {| ID := StatusTemplate.ID statusTemplate;
         Name := StatusTemplate.Name statusTemplate;
         Color := StatusTemplate.Color statusTemplate;
         Workflows := workflows;
         LastUpdated := LastUpdated state |}.

(** [Update] has an empty body; see [caseTemplateResource.Update]. *)
Definition Update (plan state : statusTemplateResourceModel)
  : M W statusTemplateResourceModel :=
  ret state.

Definition Delete (state : statusTemplateResourceModel) : M W unit :=
  call (DeleteStatusTemplate (ID state))
    (fun err => AddError "Error Deleting OpenCTI Status Template"
                  ("Could not delete status template, unexpected error: " ++ err)%string).

End Hooks.
End statusTemplateResource.

(** ** task template resource *)
Module taskTemplateResource.

Record taskTemplateResourceModel : Type := {
  ID : string;
  Name : string;
  Description : string;
  LastUpdated : string;
}.

Section Hooks.
Context {W : Type} `{OpenCTIAPIClient W}.

Definition addInput (plan : taskTemplateResourceModel) : TaskTemplateAddInput :=
  {| TaskTemplateAddInput_Name := Name plan;
     TaskTemplateAddInput_Description := Description plan |}.

Definition Create (plan : taskTemplateResourceModel) (now : string)
  : M W taskTemplateResourceModel :=
  createdTask <- call (CreateTaskTemplate "id name description" (addInput plan))
    (fun err => AddError "Error creating task template"
                  ("Could not create task template, unexpected error: " ++ err)%string) ;;
  ret {| ID := TaskTemplate.ID createdTask;
         Name := Name plan;
         Description := Description plan;
         LastUpdated := now |}.

Definition Read (state : taskTemplateResourceModel) : M W taskTemplateResourceModel :=
  task <- call (ReadTaskTemplate "id name description" (ID state))
    (fun err => AddError "Error Reading opencti task template" err) ;;
  ret {| ID := TaskTemplate.ID task;
         Name := TaskTemplate.Name task;
         Description := TaskTemplate.Description task;
         LastUpdated := LastUpdated state |}.

(** [Update] issues the creation mutation again. *)
Definition Update (plan : taskTemplateResourceModel) (now : string)
  : M W taskTemplateResourceModel :=
  createdTask <- call (CreateTaskTemplate "id name description" (addInput plan))
    (fun err => AddError "Error updating task template"
                  ("Could not update task template, unexpected error: " ++ err)%string) ;;
  ret {| ID := TaskTemplate.ID createdTask;
         Name := Name plan;
         Description := Description plan;
         LastUpdated := now |}.

Definition Delete (state : taskTemplateResourceModel) : M W unit :=
  call (DeleteTaskTemplate (ID state))
    (fun err => AddError "Error Deleting OpenCTI Task Template"
                  ("Could not delete task template, unexpected error: " ++ err)%string).

End Hooks.
End taskTemplateResource.

(** ** vocabulary resource *)
Module vocabularyResource.

Record vocabularyResourceModel : Type := {
  ID : string;
  Name : string;
  Description : string;
  Category : string;
  LastUpdated : string;
}.

Section Hooks.
Context {W : Type} `{OpenCTIAPIClient W}.

Definition addInput (plan : vocabularyResourceModel) : VocabularyAddInput :=
  {| VocabularyAddInput_Name := Name plan;
     VocabularyAddInput_Description := Description plan;
     VocabularyAddInput_Category := Category plan |}.

Definition Create (plan : vocabularyResourceModel) (now : string)
  : M W vocabularyResourceModel :=
  createdVoc <- call (CreateVocabulary "id name description category { key }" (addInput plan))
    (fun err => AddError "Error creating vocabulary"
                  ("Could not create vocabulary, unexpected error: " ++ err)%string) ;;
  ret {| ID := Vocabulary.ID createdVoc;
         Name := Vocabulary.Name createdVoc;
         Description := Vocabulary.Description createdVoc;
         Category := Vocabulary.Category_Key createdVoc;
         LastUpdated := now |}.

Definition Read (state : vocabularyResourceModel) : M W vocabularyResourceModel :=
  voc <- call (ReadVocabulary "id name description category { key }" (ID state))
    (fun err => AddError "Error Reading opencti vocabulary" err) ;;
  ret {| ID := Vocabulary.ID voc;
         Name := Vocabulary.Name voc;
         Description := Vocabulary.Description voc;
         Category := Vocabulary.Category_Key voc;
         LastUpdated := LastUpdated state |}.

(** [Update] issues the creation mutation again ([// Create vocabulary with
    new values]). *)
Definition Update (plan : vocabularyResourceModel) (now : string)
  : M W vocabularyResourceModel :=
  createdVoc <- call (CreateVocabulary EmptyString (addInput plan))
    (fun err => AddError "Error creating vocabulary"
                  ("Could not create vocabulary, unexpected error: " ++ err)%string) ;;
  ret {| ID := Vocabulary.ID createdVoc;
         Name := Vocabulary.Name createdVoc;
         Description := Vocabulary.Description createdVoc;
         Category := Vocabulary.Category_Key createdVoc;
         LastUpdated := now |}.

Definition Delete (state : vocabularyResourceModel) : M W unit :=
  call (DeleteVocabulary (ID state))
    (fun err => AddError "Error Deleting OpenCTI Vocabulary"
                  ("Could not delete vocabulary, unexpected error: " ++ err)%string).

End Hooks.
End vocabularyResource.

(** ** Provider bootstrap *)
Module openctiProvider.

(** [openctiProviderModel] maps provider schema data to a Go type. *)
Record openctiProviderModel : Type := {
  URL : tfvalue string;
  Token : tfvalue string;
}.

(** What [Configure] leaves behind: the diagnostics, the client published to
    data sources and resources, and the arguments of every invocation of the
    client constructor. *)
Record ConfigureResponse (C : Type) : Type := {
  Diagnostics : list Diagnostic;
  DataSourceData : option C;
  ResourceData : option C;
  constructed : list (string * string);
}.

(** [Diagnostics.HasError]: every diagnostic of this model is an error. *)
Definition HasError (diags : list Diagnostic) : bool :=
  match diags with [] => false | _ => true end.

Definition LF : string := Eval cbv in String (ascii_of_nat 10) EmptyString.

Section Configure.
(** The client handle, [os.Getenv] and [gocti.NewOpenCTIAPIClient] with the
    options of the source (health check, log level). *)
Variable C : Type.
Variable Getenv : string -> string.
Variable NewOpenCTIAPIClient : string -> string -> reply C.

Definition unknownDiagnostics (config : openctiProviderModel) : list Diagnostic :=
  (if IsUnknown (URL config) then
     [AddAttributeError "url" "Unknown opencti URL"
        ("The provider cannot create the opencti API client as there is an unknown configuration value for the opencti URL. "
         ++ "Either target apply the source of the value first, set the value statically in the configuration, or use the OPENCTI_URL environment variable.")%string]
   else [])
  ++
  (if IsUnknown (Token config) then
     [AddAttributeError "token" "Unknown opencti token"
        ("The provider cannot create the opencti API client as there is an unknown configuration value for the opencti token. "
         ++ "Either target apply the source of the value first, set the value statically in the configuration, or use the OPENCTI_TOKEN environment variable.")%string]
   else []).

(** [// Default values to environment variables, but override with Terraform
    configuration value if set.] *)
Definition resolvedURL (config : openctiProviderModel) : string :=
  let url := Getenv "OPENCTI_URL" in
  if negb (IsNull (URL config)) then ValueString (URL config) else url.

Definition resolvedToken (config : openctiProviderModel) : string :=
  let token := Getenv "OPENCTI_TOKEN" in
  if negb (IsNull (Token config)) then ValueString (Token config) else token.

Definition missingDiagnostics (url token : string) : list Diagnostic :=
  (if String.eqb url EmptyString then
     [AddAttributeError "url" "Missing opencti URL"
        ("The provider cannot create the opencti API client as there is a missing or empty value for the opencti URL. "
         ++ "Set the url value in the configuration or use the OPENCTI_URL environment variable. "
         ++ "If either is already set, ensure the value is not empty.")%string]
   else [])
  ++
  (if String.eqb token EmptyString then
     [AddAttributeError "token " "Missing opencti token"
        ("The provider cannot create the opencti API client as there is a missing or empty value for the opencti token. "
         ++ "Set the token value in the configuration or use the OPENCTI_TOKEN environment variable. "
         ++ "If either is already set, ensure the value is not empty.")%string]
   else []).

(** [Configure] prepares a opencti API client for data sources and resources. *)
Definition Configure (config : openctiProviderModel) : ConfigureResponse C :=
  let diags := unknownDiagnostics config in
  if HasError diags then
    {| Diagnostics := diags; DataSourceData := None; ResourceData := None;
       constructed := [] |}
  else
    let url := resolvedURL config in
    let token := resolvedToken config in
    let diags := diags ++ missingDiagnostics url token in
    if HasError diags then
      {| Diagnostics := diags; DataSourceData := None; ResourceData := None;
         constructed := [] |}
    else
      match NewOpenCTIAPIClient url token with
      | Failure err =>
          {| Diagnostics :=
               diags ++
               [AddError "Unable to Create opencti API Client"
                  ("An unexpected error occurred when creating the opencti API client. "
                   ++ "If the error is not clear, please contact the provider developers."
                   ++ LF ++ LF ++ "opencti Client Error: " ++ err)%string];
             DataSourceData := None; ResourceData := None;
             constructed := [(url, token)] |}
      | Reply client =>
          {| Diagnostics := diags;
             DataSourceData := Some client; ResourceData := Some client;
             constructed := [(url, token)] |}
      end.

End Configure.

(** A configuration error of the provider: a diagnostic attached to one of
    the two settings (the source attaches the missing-token one to the path
    [token ] with a trailing blank). *)
Definition isConfigurationError (d : Diagnostic) : bool :=
  match diag_path d with
  | Some _ => true
  | None => false
  end.

Definition reportsConfigurationError {C} (resp : ConfigureResponse C) : bool :=
  existsb isConfigurationError (Diagnostics resp).

(** The resolution of a setting as the configuration surface describes it:
    the explicit value when the configuration sets one, the environment
    variable otherwise; nothing while the value is unknown. *)
Definition resolve (explicit : tfvalue string) (environment : string) : option string :=
  match explicit with
  | TfKnown v => Some v
  | TfNull => Some environment
  | TfUnknown => None
  end.

(** A setting that cannot be used: unknown at plan time, or resolved to the
    empty string. *)
Definition unusable (setting : option string) : bool :=
  match setting with
  | None => true
  | Some v => String.eqb v EmptyString
  end.

(** Sample environments and a constructor that always succeeds. *)
Definition noEnvironment (name : string) : string := EmptyString.

Definition sampleEnvironment (name : string) : string :=
  if String.eqb name "OPENCTI_TOKEN" then "secret"
  else if String.eqb name "OPENCTI_URL" then "http://env.example:8080"
  else EmptyString.

Definition sampleClient (url token : string) : reply (string * string) :=
  Reply (url, token).

End openctiProvider.

(** ** Resource schemas *)

Inductive PlanModifier : Type :=
| UseStateForUnknown
| RequiresReplace.

(** A schema attribute: its flags, its plan modifiers and, for a nested
    attribute, the attributes of the nested object. *)
Inductive Attribute : Type :=
| mkAttribute (Required Optional Computed Sensitive : bool)
    (PlanModifiers : list PlanModifier) (Attributes : list (string * Attribute)).

Definition Schema : Type := list (string * Attribute).

Definition required : Attribute := mkAttribute true false false false [] [].
Definition computed : Attribute := mkAttribute false false true false [] [].
Definition computedId : Attribute :=
  mkAttribute false false true false [UseStateForUnknown] [].
Definition requiredReplace : Attribute :=
  mkAttribute true false false false [RequiresReplace] [].

Definition PlanModifiers (a : Attribute) : list PlanModifier :=
  match a with mkAttribute _ _ _ _ pm _ => pm end.

Definition isRequiresReplace (m : PlanModifier) : bool :=
  match m with RequiresReplace => true | UseStateForUnknown => false end.

Definition roleResource_Schema : Schema :=
  [("last_updated", computed); ("id", computedId); ("name", required);
   ("capabilities", required)].

Definition groupResource_Schema : Schema :=
  [("last_updated", computed); ("id", computedId); ("name", required);
   ("description", required); ("roles", required); ("allowed_marking", required);
   ("max_confidence_level", required); ("auto_new_marking", required);
   ("default_assignation", required)].

Definition userResource_Schema : Schema :=
  [("last_updated", computed); ("id", computedId); ("name", required);
   ("user_email", required);
   ("api_token", mkAttribute false false true true [UseStateForUnknown] []);
   ("groups", required);
   ("user_confidence_level",
    mkAttribute false true true false []
      [("max_confidence", mkAttribute false true true false [] []);
       ("overrides",
        mkAttribute false true true false []
          [("entity_type", required); ("max_confidence", required)])])].

Definition markingDefinitionResource_Schema : Schema :=
  [("last_updated", computed); ("id", computedId); ("definition_type", required);
   ("definition", required); ("x_opencti_order", required);
   ("x_opencti_color", required)].

Definition caseTemplateResource_Schema : Schema :=
  [("last_updated", computed); ("id", computedId); ("name", requiredReplace);
   ("description", requiredReplace); ("tasks", requiredReplace)].

Definition statusTemplateResource_Schema : Schema :=
  [("last_updated", computed); ("id", computedId); ("name", required);
   ("color", required);
   ("workflows",
    mkAttribute false true false false [RequiresReplace]
      [("entity", required); ("order", required)])].

Definition taskTemplateResource_Schema : Schema :=
  [("last_updated", computed); ("id", computedId); ("name", required);
   ("description", required)].

Definition vocabularyResource_Schema : Schema :=
  [("last_updated", computed); ("id", computedId); ("name", required);
   ("description", required); ("category", required)].

(** How the framework routes a planned change of an existing resource: the
    resource is replaced (deleted and created again) when an attribute that
    changes carries [RequiresReplace]; otherwise the update hook runs. *)
Inductive Route : Type :=
| Replace
| UpdateInPlace.

Definition requiresReplace (schema : Schema) (changed : list string) : bool :=
  existsb (fun na =>
             slices_Contains changed (fst na)
             && existsb isRequiresReplace (PlanModifiers (snd na)))
          schema.

Definition route (schema : Schema) (changed : list string) : Route :=
  if requiresReplace schema changed then Replace else UpdateInPlace.

(** ** Running a hook and reading its journal *)

(** A hook run on the remote system [w] with an empty journal: what remains
    is the outcome, the remote system it leaves and the journal of that run. *)
Definition run {W : Type} `{OpenCTIAPIClient W} {A : Type} (m : M W A) (w : W)
  : outcome A * (W * list Entry) :=
  m (w, []).

(** The calls of a journal, without the answers. *)
Definition calls (journal : list Entry) : list Call := map issued journal.

(** What an entry shows of the remote associations: the related entities a
    read returned ... *)
Definition capabilitiesRead (e : Entry) : list Capability.t :=
  match e with
  | answered c r =>
      match c return reply (Resp c) -> list Capability.t with
      | ReadRole _ _ => fun r => match r with Reply role => Role.Capabilities role | _ => [] end
      | _ => fun _ => []
      end r
  end.

Definition rolesRead (e : Entry) : list Role.t :=
  match e with
  | answered c r =>
      match c return reply (Resp c) -> list Role.t with
      | ReadGroup _ _ => fun r => match r with Reply group => nodes (Group.Roles group) | _ => [] end
      | _ => fun _ => []
      end r
  end.

Definition markingsRead (e : Entry) : list MarkingDefinition.t :=
  match e with
  | answered c r =>
      match c return reply (Resp c) -> list MarkingDefinition.t with
      | ReadGroup _ _ => fun r => match r with Reply group => Group.AllowedMarking group | _ => [] end
      | _ => fun _ => []
      end r
  end.

Definition groupsRead (e : Entry) : list Group.t :=
  match e with
  | answered c r =>
      match c return reply (Resp c) -> list Group.t with
      | ReadUser _ _ => fun r => match r with Reply user => nodes (User.Groups user) | _ => [] end
      | _ => fun _ => []
      end r
  end.

(** ... and the entities a listing returned. *)
Definition rolesListed (e : Entry) : list Role.t :=
  match e with
  | answered c r =>
      match c return reply (Resp c) -> list Role.t with
      | ListRoles _ => fun r => match r with Reply l => l | _ => [] end
      | _ => fun _ => []
      end r
  end.

Definition markingsListed (e : Entry) : list MarkingDefinition.t :=
  match e with
  | answered c r =>
      match c return reply (Resp c) -> list MarkingDefinition.t with
      | ListMarkingDefinitions _ => fun r => match r with Reply l => l | _ => [] end
      | _ => fun _ => []
      end r
  end.

Definition groupsListed (e : Entry) : list Group.t :=
  match e with
  | answered c r =>
      match c return reply (Resp c) -> list Group.t with
      | ListGroups _ => fun r => match r with Reply l => l | _ => [] end
      | _ => fun _ => []
      end r
  end.


(** The identities [IDsByNames] answered, [None] when it failed or was not
    the call. *)
Definition idsResolved (e : Entry) : option (list string) :=
  match e with
  | answered c r =>
      match c return reply (Resp c) -> option (list string) with
      | IDsByNames _ => fun r => match r with Reply l => Some l | _ => None end
      | _ => fun _ => None
      end r
  end.

(** The association kinds the provider reconciles. *)
Inductive Relation : Type :=
| RoleCapability
| GroupRole
| GroupMarking
| UserGroup.


Definition assignOf (c : Call) : option Relation :=
  match c with
  | AssignCapability _ _ => Some RoleCapability
  | AssignRole _ _ => Some GroupRole
  | AssignMarkingDefinition _ _ => Some GroupMarking
  | AssignGroup _ _ => Some UserGroup
  | _ => None
  end.

Definition unassignOf (c : Call) : option Relation :=
  match c with
  | UnassignCapability _ _ => Some RoleCapability
  | UnassignRole _ _ => Some GroupRole
  | UnassignMarkingDefinition _ _ => Some GroupMarking
  | UnassignGroup _ _ => Some UserGroup
  | _ => None
  end.

Definition isAssign (c : Call) : bool :=
  match assignOf c with Some _ => true | None => false end.

Definition isUnassign (c : Call) : bool :=
  match unassignOf c with Some _ => true | None => false end.



(** The creation mutations. *)
Definition isCreate (c : Call) : bool :=
  match c with
  | CreateRole _ _ | CreateGroup _ _ | CreateUser _ _ | CreateMarkingDefinition _ _
  | CreateCaseTemplate _ _ | CreateStatusTemplate _ _ | CreateTaskTemplate _ _
  | CreateVocabulary _ _ => true
  | _ => false
  end.

(** The calls that only look things up. *)
Definition isLookup (c : Call) : bool :=
  match c with
  | ReadRole _ _ | ReadGroup _ _ | ReadUser _ _ | ReadMarkingDefinition _ _
  | ReadCaseTemplate _ _ | ReadStatusTemplate _ _ | ReadTaskTemplate _ _
  | ReadVocabulary _ _
  | ListRoles _ | ListGroups _ | ListUsers _ | ListMarkingDefinitions _
  | IDsByNames _ => true
  | _ => false
  end.

(** An entry whose call returned no error. *)
Definition succeeded (e : Entry) : bool :=
  match answer e with Reply _ => true | Failure _ => false end.




(** ** The reconciliation, as the specification words it *)

(** The set difference [a \ b] on slices of names. *)
Definition difference (a b : list string) : list string :=
  filter (fun x => negb (slices_Contains b x)) a.

(** With current names [C], desired names [D] and listed names [L]:
    [removed] is [C \ D], [added] is the part of [D \ C] that resolves against
    the listing. *)
Definition removed (C D : list string) : list string := difference C D.

Definition added (C D L : list string) : list string :=
  filter (slices_Contains L) (difference D C).

(** [result] is the reconciled list: sorted by [sort.Strings], with the
    elements of [(C \ removed) U added]. *)
Definition Reconciled (C D L result : list string) : Prop :=
  StronglySorted string_le result /\
  forall x, In x result <-> (In x C /\ ~ In x (removed C D)) \/ In x (added C D L).

(** ** The reconciliation, as the loops compute it *)

(** The names the removal loop keeps, in the order of the read. *)
Definition retained (plan current : list string) : list string :=
  filter (slices_Contains plan) current.

(** The names after the addition loop over [plan], from [acc]: a planned name
    that is not yet held and that the listing bears is appended. *)
Fixpoint afterAdd (plan listing acc : list string) : list string :=
  match plan with
  | [] => acc
  | d :: plan' =>
      afterAdd plan' listing
        (if negb (slices_Contains acc d) && slices_Contains listing d
         then acc ++ [d] else acc)
  end.

(** Erasing a name from a plan. *)
Definition erase (d : string) (plan : list string) : list string :=
  filter (fun x => negb (String.eqb d x)) plan.

(** A computation that only appends to the journal. *)
Definition extends {W : Type} `{OpenCTIAPIClient W} {A : Type} (m : M W A) : Prop :=
  forall (s : St W) out (s' : St W),
    m s = (out, s') -> exists delta, snd s' = snd s ++ delta.

(** The first entity of a listing that bears the name [n]. *)
Definition named {A : Type} (name : A -> string) (n : string) (listing : list A)
  : option A :=
  find (fun x => String.eqb n (name x)) listing.

(** The entities the addition loop assigns, in the order of the plan. *)
Fixpoint toAssign {A : Type} (name : A -> string) (plan : list string)
    (listing : list A) (acc : list string) : list A :=
  match plan with
  | [] => []
  | d :: plan' =>
      if negb (slices_Contains acc d) then
        match named name d listing with
        | Some x => x :: toAssign name plan' listing (acc ++ [name x])
        | None => toAssign name plan' listing acc
        end
      else toAssign name plan' listing acc
  end.

(** The positions of the plan at which the addition loop of the role reads
    [capabilitiesIDs]. *)
Fixpoint positionsToAssign (iplan : list (nat * string)) (acc : list string)
  : list nat :=
  match iplan with
  | [] => []
  | (i, d) :: iplan' =>
      if negb (slices_Contains acc d)
      then i :: positionsToAssign iplan' (acc ++ [d])
      else positionsToAssign iplan' acc
  end.

(** The entities a creation hook assigns: for each planned name, the first
    entity of the listing that bears its rendering. *)
Fixpoint toAssignOnCreate {A E : Type} (name : A -> string) (render : E -> string)
    (plan : list E) (listing : list A) : list A :=
  match plan with
  | [] => []
  | d :: plan' =>
      match named name (render d) listing with
      | Some x => x :: toAssignOnCreate name render plan' listing
      | None => toAssignOnCreate name render plan' listing
      end
  end.

(** The journals of the update hooks that end normally. *)
Definition groupUpdateJournal (plan : groupResource.groupResourceModel) (group : Group.t)
    (existingRoles : list Role.t) (existingMarkings : list MarkingDefinition.t)
  : list Entry :=
  let rolesPlan := converted (groupResource.Roles plan) in
  let markingsPlan := converted (groupResource.AllowedMarking plan) in
  let roles := nodes (Group.Roles group) in
  let markings := Group.AllowedMarking group in
  [ok (ReadGroup groupResource.readAttributes (groupResource.ID plan)) group]
  ++ map (fun role => ok (UnassignRole (Group.ID group) (Role.ID role)) tt)
         (filter (fun role => negb (slices_Contains rolesPlan (Role.Name role))) roles)
  ++ [ok (ListRoles "id name") existingRoles]
  ++ map (fun role => ok (AssignRole (Group.ID group) (Role.ID role)) tt)
         (toAssign Role.Name rolesPlan existingRoles
            (retained rolesPlan (map Role.Name roles)))
  ++ map (fun marking =>
            ok (UnassignMarkingDefinition (Group.ID group) (MarkingDefinition.ID marking)) tt)
         (filter (fun marking =>
                    negb (slices_Contains markingsPlan (MarkingDefinition.Definition_ marking)))
                 markings)
  ++ [ok (ListMarkingDefinitions "id definition") existingMarkings]
  ++ map (fun marking =>
            ok (AssignMarkingDefinition (Group.ID group) (MarkingDefinition.ID marking)) tt)
         (toAssign MarkingDefinition.Definition_ markingsPlan existingMarkings
            (retained markingsPlan (map MarkingDefinition.Definition_ markings))).

Definition userUpdateJournal (plan : userResource.userResourceModel) (user : User.t)
    (existingGroups : list Group.t) : list Entry :=
  let groupsPlan := converted (userResource.Groups plan) in
  let groups := nodes (User.Groups user) in
  [ok (ReadUser "id name user_email api_token groups { edges { node {id name} } }"
         (userResource.ID plan)) user]
  ++ map (fun group => ok (UnassignGroup (User.ID user) (Group.ID group)) tt)
         (filter (fun group => negb (slices_Contains groupsPlan (Group.Name group))) groups)
  ++ [ok (ListGroups "id name") existingGroups]
  ++ map (fun group => ok (AssignGroup (User.ID user) (Group.ID group)) tt)
         (toAssign Group.Name groupsPlan existingGroups
            (retained groupsPlan (map Group.Name groups))).

Definition roleUpdateJournal (plan : roleResource.roleResourceModel) (role : Role.t)
    (capabilitiesIDs : list string) : list Entry :=
  let capabilitiesPlan := converted (roleResource.Capabilities plan) in
  let capabilities := Role.Capabilities role in
  [ok (ReadRole "id name capabilities {id name}" (roleResource.ID plan)) role;
   ok (IDsByNames capabilitiesPlan) capabilitiesIDs]
  ++ map (fun capability =>
            ok (UnassignCapability (Role.ID role) (Capability.ID capability)) tt)
         (filter (fun capability =>
                    negb (slices_Contains capabilitiesPlan (Capability.Name capability)))
                 capabilities)
  ++ map (fun i => ok (AssignCapability (Role.ID role)
                         (nth i capabilitiesIDs EmptyString)) tt)
         (positionsToAssign (indexed capabilitiesPlan)
            (retained capabilitiesPlan (map Capability.Name capabilities))).




(** A computation that only appends to the journal, and only calls that
    satisfy [P]. *)
Definition issuing {W : Type} `{OpenCTIAPIClient W} {A : Type} (P : Call -> bool)
    (m : M W A) : Prop :=
  forall (s : St W) out (s' : St W),
    m s = (out, s') ->
    exists delta, snd s' = snd s ++ delta /\ forallb P (calls delta) = true.



(** [traced w journal w']: the remote system [w] answers the calls of the
    journal as recorded, one after the other, and is left as [w']. *)
Fixpoint traced {W : Type} `{OpenCTIAPIClient W} (w : W) (journal : list Entry) (w' : W)
  : Prop :=
  match journal with
  | [] => w' = w
  | e :: journal' =>
      exists w1, exec (issued e) w = (answer e, w1) /\ traced w1 journal' w'
  end.

(** A computation whose journal traces what it did to the remote system. *)
Definition tracing {W : Type} `{OpenCTIAPIClient W} {A : Type} (m : M W A) : Prop :=
  forall (s : St W) out (s' : St W),
    m s = (out, s') ->
    exists delta, snd s' = snd s ++ delta /\ traced (fst s) delta (fst s').

(** ** An in-memory remote system

    [Backend] implements the client interface over tables of rows.  A relation
    is kept as the list of identities of the related rows, without
    repetition, and is joined with the table of the related kind when it is
    read; creation puts the new row first in its table, where reads by
    identity find it; [IDsByNames] answers in the order asked and fails on a
    name no capability bears, as the positional use of its answer in
    [roleResource.Update] presupposes. *)
Module Backend.

Record RoleRow : Type := {
  role_ID : string;
  role_Name : string;
  role_capabilityIDs : list string;
}.

Record GroupRow : Type := {
  group_ID : string;
  group_Name : string;
  group_Description : string;
  group_DefaultAssignation : bool;
  group_AutoNewMarking : bool;
  group_ConfidenceLevel : ConfidenceLevel.t;
  group_roleIDs : list string;
  group_markingIDs : list string;
}.

Record UserRow : Type := {
  user_ID : string;
  user_Name : string;
  user_UserEmail : string;
  user_ApiToken : string;
  user_ConfidenceLevel : ConfidenceLevel.t;
  user_groupIDs : list string;
}.

Record CaseTemplateRow : Type := {
  case_ID : string;
  case_Name : string;
  case_Description : string;
  case_taskIDs : list string;
}.

Record t : Type := {
  capabilities : list Capability.t;
  roles : list RoleRow;
  markings : list MarkingDefinition.t;
  groups : list GroupRow;
  users : list UserRow;
  taskTemplates : list TaskTemplate.t;
  caseTemplates : list CaseTemplateRow;
  statusTemplates : list StatusTemplate.t;
  vocabularies : list Vocabulary.t;
  nextID : nat;
}.

(** The empty remote system. *)
Definition empty : t :=
  {| capabilities := []; roles := []; markings := []; groups := []; users := [];
     taskTemplates := []; caseTemplates := []; statusTemplates := [];
     vocabularies := []; nextID := 0 |}.

Definition with_roles (b : t) (x : list RoleRow) : t :=
  {| capabilities := capabilities b; roles := x; markings := markings b;
     groups := groups b; users := users b; taskTemplates := taskTemplates b;
     caseTemplates := caseTemplates b; statusTemplates := statusTemplates b;
     vocabularies := vocabularies b; nextID := nextID b |}.

Definition with_markings (b : t) (x : list MarkingDefinition.t) : t :=
  {| capabilities := capabilities b; roles := roles b; markings := x;
     groups := groups b; users := users b; taskTemplates := taskTemplates b;
     caseTemplates := caseTemplates b; statusTemplates := statusTemplates b;
     vocabularies := vocabularies b; nextID := nextID b |}.

Definition with_groups (b : t) (x : list GroupRow) : t :=
  {| capabilities := capabilities b; roles := roles b; markings := markings b;
     groups := x; users := users b; taskTemplates := taskTemplates b;
     caseTemplates := caseTemplates b; statusTemplates := statusTemplates b;
     vocabularies := vocabularies b; nextID := nextID b |}.

Definition with_users (b : t) (x : list UserRow) : t :=
  {| capabilities := capabilities b; roles := roles b; markings := markings b;
     groups := groups b; users := x; taskTemplates := taskTemplates b;
     caseTemplates := caseTemplates b; statusTemplates := statusTemplates b;
     vocabularies := vocabularies b; nextID := nextID b |}.

Definition with_taskTemplates (b : t) (x : list TaskTemplate.t) : t :=
  {| capabilities := capabilities b; roles := roles b; markings := markings b;
     groups := groups b; users := users b; taskTemplates := x;
     caseTemplates := caseTemplates b; statusTemplates := statusTemplates b;
     vocabularies := vocabularies b; nextID := nextID b |}.

Definition with_caseTemplates (b : t) (x : list CaseTemplateRow) : t :=
  {| capabilities := capabilities b; roles := roles b; markings := markings b;
     groups := groups b; users := users b; taskTemplates := taskTemplates b;
     caseTemplates := x; statusTemplates := statusTemplates b;
     vocabularies := vocabularies b; nextID := nextID b |}.

Definition with_statusTemplates (b : t) (x : list StatusTemplate.t) : t :=
  {| capabilities := capabilities b; roles := roles b; markings := markings b;
     groups := groups b; users := users b; taskTemplates := taskTemplates b;
     caseTemplates := caseTemplates b; statusTemplates := x;
     vocabularies := vocabularies b; nextID := nextID b |}.

Definition with_vocabularies (b : t) (x : list Vocabulary.t) : t :=
  {| capabilities := capabilities b; roles := roles b; markings := markings b;
     groups := groups b; users := users b; taskTemplates := taskTemplates b;
     caseTemplates := caseTemplates b; statusTemplates := statusTemplates b;
     vocabularies := x; nextID := nextID b |}.

(** The identity the next creation issues, and the system after it. *)
Definition freshID (b : t) : string := String.append "id-" (HexString.of_nat (nextID b)).

Definition tick (b : t) : t :=
  {| capabilities := capabilities b; roles := roles b; markings := markings b;
     groups := groups b; users := users b; taskTemplates := taskTemplates b;
     caseTemplates := caseTemplates b; statusTemplates := statusTemplates b;
     vocabularies := vocabularies b; nextID := S (nextID b) |}.

(** The rows of [table] the identities [ids] name, in the order of [ids]. *)
Definition join {A : Type} (ident : A -> string) (ids : list string) (table : list A)
  : list A :=
  flat_map (fun id => match named ident id table with Some x => [x] | None => [] end) ids.

(** Adding an identity to a relation, removing it from a relation. *)
Definition link (id : string) (ids : list string) : list string :=
  if slices_Contains ids id then ids else ids ++ [id].

Definition unlink (id : string) (ids : list string) : list string := erase id ids.

(** Rewriting the rows of identity [id]; removing them. *)
Definition amend {A : Type} (ident : A -> string) (id : string) (f : A -> A)
    (table : list A) : list A :=
  map (fun x => if String.eqb id (ident x) then f x else x) table.

Definition discard {A : Type} (ident : A -> string) (id : string) (table : list A)
  : list A :=
  filter (fun x => negb (String.eqb id (ident x))) table.

(** The rows as the client returns them. *)
Definition roleView (b : t) (row : RoleRow) : Role.t :=
  Role.mk (role_ID row) (role_Name row)
    (join Capability.ID (role_capabilityIDs row) (capabilities b)).

Definition groupView (b : t) (row : GroupRow) : Group.t :=
  Group.mk (group_ID row) (group_Name row) (group_Description row)
    (connection_of (map (roleView b) (join role_ID (group_roleIDs row) (roles b))))
    (join MarkingDefinition.ID (group_markingIDs row) (markings b))
    (group_DefaultAssignation row) (group_AutoNewMarking row)
    (group_ConfidenceLevel row).

Definition userView (b : t) (row : UserRow) : User.t :=
  User.mk (user_ID row) (user_Name row) (user_UserEmail row) (user_ApiToken row)
    (user_ConfidenceLevel row)
    (connection_of (map (groupView b) (join group_ID (user_groupIDs row) (groups b)))).

Definition caseView (b : t) (row : CaseTemplateRow) : CaseTemplate.t :=
  CaseTemplate.mk (case_ID row) (case_Name row) (case_Description row)
    (connection_of (join TaskTemplate.ID (case_taskIDs row) (taskTemplates b))).

Definition notFound {A : Type} : reply A := Failure "not found".

(** [IDsByNames]: the identity of each name, in the order asked. *)
Fixpoint idsByNames (names : list string) (table : list Capability.t)
  : option (list string) :=
  match names with
  | [] => Some []
  | n :: names' =>
      match named Capability.Name n table, idsByNames names' table with
      | Some c, Some ids => Some (Capability.ID c :: ids)
      | _, _ => None
      end
  end.

(** A read by identity. *)
Definition reading {A B : Type} (ident : A -> string) (view : A -> B) (id : string)
    (table : list A) (b : t) : reply B * t :=
  match named ident id table with
  | Some row => (Reply (view row), b)
  | None => (notFound, b)
  end.

(** A deletion by identity. *)
Definition deleting {A : Type} (ident : A -> string) (id : string) (table : list A)
    (store : list A -> t) (b : t) : reply unit * t :=
  match named ident id table with
  | Some _ => (Reply tt, store (discard ident id table))
  | None => (notFound, b)
  end.

(** A change of the relation of the row [id] with the row [other] of the
    related table: both rows must exist. *)
Definition relating {A B : Type} (ident : A -> string) (id : string) (table : list A)
    (identB : B -> string) (other : string) (tableB : list B)
    (f : A -> A) (store : list A -> t) (b : t) : reply unit * t :=
  match named ident id table, named identB other tableB with
  | Some _, Some _ => (Reply tt, store (amend ident id f table))
  | _, _ => (notFound, b)
  end.

Definition setRoleCapabilities (f : list string -> list string) (row : RoleRow) : RoleRow :=
  {| role_ID := role_ID row; role_Name := role_Name row;
     role_capabilityIDs := f (role_capabilityIDs row) |}.

Definition setGroupRoles (f : list string -> list string) (row : GroupRow) : GroupRow :=
  {| group_ID := group_ID row; group_Name := group_Name row;
     group_Description := group_Description row;
     group_DefaultAssignation := group_DefaultAssignation row;
     group_AutoNewMarking := group_AutoNewMarking row;
     group_ConfidenceLevel := group_ConfidenceLevel row;
     group_roleIDs := f (group_roleIDs row);
     group_markingIDs := group_markingIDs row |}.

Definition setGroupMarkings (f : list string -> list string) (row : GroupRow) : GroupRow :=
  {| group_ID := group_ID row; group_Name := group_Name row;
     group_Description := group_Description row;
     group_DefaultAssignation := group_DefaultAssignation row;
     group_AutoNewMarking := group_AutoNewMarking row;
     group_ConfidenceLevel := group_ConfidenceLevel row;
     group_roleIDs := group_roleIDs row;
     group_markingIDs := f (group_markingIDs row) |}.

Definition setUserGroups (f : list string -> list string) (row : UserRow) : UserRow :=
  {| user_ID := user_ID row; user_Name := user_Name row;
     user_UserEmail := user_UserEmail row; user_ApiToken := user_ApiToken row;
     user_ConfidenceLevel := user_ConfidenceLevel row;
     user_groupIDs := f (user_groupIDs row) |}.

Definition addUsage (s : StatusTemplate.t) : StatusTemplate.t :=
  StatusTemplate.mk (StatusTemplate.ID s) (StatusTemplate.Name s)
    (StatusTemplate.Color s) (StatusTemplate.Usages s + 1).

Definition execute (c : Call) : t -> reply (Resp c) * t :=
  match c return t -> reply (Resp c) * t with
  | CreateRole _ input => fun b =>
      let row := {| role_ID := freshID b; role_Name := RoleAddInput_Name input;
                    role_capabilityIDs := [] |} in
      let b' := tick (with_roles b (row :: roles b)) in
      (Reply (roleView b' row), b')
  | ReadRole _ id => fun b => reading role_ID (roleView b) id (roles b) b
  | DeleteRole id => fun b => deleting role_ID id (roles b) (with_roles b) b
  | IDsByNames names => fun b =>
      match idsByNames names (capabilities b) with
      | Some ids => (Reply ids, b)
      | None => (notFound, b)
      end
  | AssignCapability roleID capabilityID => fun b =>
      relating role_ID roleID (roles b) Capability.ID capabilityID (capabilities b)
        (setRoleCapabilities (link capabilityID)) (with_roles b) b
  | UnassignCapability roleID capabilityID => fun b =>
      relating role_ID roleID (roles b) role_ID roleID (roles b)
        (setRoleCapabilities (unlink capabilityID)) (with_roles b) b
  | ListRoles _ => fun b => (Reply (map (roleView b) (roles b)), b)
  | CreateGroup _ input => fun b =>
      let row := {| group_ID := freshID b;
                    group_Name := GroupAddInput_Name input;
                    group_Description := GroupAddInput_Description input;
                    group_DefaultAssignation := GroupAddInput_DefaultAssignation input;
                    group_AutoNewMarking := GroupAddInput_AutoNewMarking input;
                    group_ConfidenceLevel := GroupAddInput_GroupConfidenceLevel input;
                    group_roleIDs := []; group_markingIDs := [] |} in
      let b' := tick (with_groups b (row :: groups b)) in
      (Reply (groupView b' row), b')
  | ReadGroup _ id => fun b => reading group_ID (groupView b) id (groups b) b
  | DeleteGroup id => fun b => deleting group_ID id (groups b) (with_groups b) b
  | ListGroups _ => fun b => (Reply (map (groupView b) (groups b)), b)
  | AssignRole groupID roleID => fun b =>
      relating group_ID groupID (groups b) role_ID roleID (roles b)
        (setGroupRoles (link roleID)) (with_groups b) b
  | UnassignRole groupID roleID => fun b =>
      relating group_ID groupID (groups b) group_ID groupID (groups b)
        (setGroupRoles (unlink roleID)) (with_groups b) b
  | AssignMarkingDefinition groupID markingID => fun b =>
      relating group_ID groupID (groups b) MarkingDefinition.ID markingID (markings b)
        (setGroupMarkings (link markingID)) (with_groups b) b
  | UnassignMarkingDefinition groupID markingID => fun b =>
      relating group_ID groupID (groups b) group_ID groupID (groups b)
        (setGroupMarkings (unlink markingID)) (with_groups b) b
  | ListUsers _ => fun b => (Reply (map (userView b) (users b)), b)
  | CreateUser _ input => fun b =>
      let row := {| user_ID := freshID b;
                    user_Name := UserAddInput_Name input;
                    user_UserEmail := UserAddInput_UserEmail input;
                    user_ApiToken := String.append "token-" (freshID b);
                    user_ConfidenceLevel := UserAddInput_UserConfidenceLevel input;
                    user_groupIDs := [] |} in
      let b' := tick (with_users b (row :: users b)) in
      (Reply (userView b' row), b')
  | ReadUser _ id => fun b => reading user_ID (userView b) id (users b) b
  | DeleteUser id => fun b => deleting user_ID id (users b) (with_users b) b
  | AssignGroup userID groupID => fun b =>
      relating user_ID userID (users b) group_ID groupID (groups b)
        (setUserGroups (link groupID)) (with_users b) b
  | UnassignGroup userID groupID => fun b =>
      relating user_ID userID (users b) user_ID userID (users b)
        (setUserGroups (unlink groupID)) (with_users b) b
  | ListMarkingDefinitions _ => fun b => (Reply (markings b), b)
  | CreateMarkingDefinition _ input => fun b =>
      let row := MarkingDefinition.mk (freshID b)
                   (MarkingDefinitionAddInput_DefinitionType input)
                   (MarkingDefinitionAddInput_Definition input)
                   (MarkingDefinitionAddInput_XOpenctiOrder input)
                   (MarkingDefinitionAddInput_XOpenctiColor input) in
      (Reply row, tick (with_markings b (row :: markings b)))
  | ReadMarkingDefinition _ id => fun b =>
      reading MarkingDefinition.ID (fun x => x) id (markings b) b
  | DeleteMarkingDefinition id => fun b =>
      deleting MarkingDefinition.ID id (markings b) (with_markings b) b
  | CreateCaseTemplate _ input => fun b =>
      let row := {| case_ID := freshID b;
                    case_Name := CaseTemplateAddInput_Name input;
                    case_Description := CaseTemplateAddInput_Description input;
                    case_taskIDs := CaseTemplateAddInput_Tasks input |} in
      let b' := tick (with_caseTemplates b (row :: caseTemplates b)) in
      (Reply (caseView b' row), b')
  | ReadCaseTemplate _ id => fun b => reading case_ID (caseView b) id (caseTemplates b) b
  | DeleteCaseTemplate id => fun b =>
      deleting case_ID id (caseTemplates b) (with_caseTemplates b) b
  | CreateStatusTemplate _ input => fun b =>
      let row := StatusTemplate.mk (freshID b) (StatusTemplateAddInput_Name input)
                   (StatusTemplateAddInput_Color input) 0 in
      (Reply row, tick (with_statusTemplates b (row :: statusTemplates b)))
  | ReadStatusTemplate _ id => fun b =>
      reading StatusTemplate.ID (fun x => x) id (statusTemplates b) b
  | DeleteStatusTemplate id => fun b =>
      deleting StatusTemplate.ID id (statusTemplates b) (with_statusTemplates b) b
  | SetStatusInWorkFlow entity statusID order => fun b =>
      relating StatusTemplate.ID statusID (statusTemplates b)
        StatusTemplate.ID statusID (statusTemplates b)
        addUsage (with_statusTemplates b) b
  | CreateTaskTemplate _ input => fun b =>
      let row := TaskTemplate.mk (freshID b) (TaskTemplateAddInput_Name input)
                   (TaskTemplateAddInput_Description input) in
      (Reply row, tick (with_taskTemplates b (row :: taskTemplates b)))
  | ReadTaskTemplate _ id => fun b =>
      reading TaskTemplate.ID (fun x => x) id (taskTemplates b) b
  | DeleteTaskTemplate id => fun b =>
      deleting TaskTemplate.ID id (taskTemplates b) (with_taskTemplates b) b
  | CreateVocabulary _ input => fun b =>
      let row := Vocabulary.mk (freshID b) (VocabularyAddInput_Name input)
                   (VocabularyAddInput_Description input)
                   (VocabularyAddInput_Category input) in
      (Reply row, tick (with_vocabularies b (row :: vocabularies b)))
  | ReadVocabulary _ id => fun b =>
      reading Vocabulary.ID (fun x => x) id (vocabularies b) b
  | DeleteVocabulary id => fun b =>
      deleting Vocabulary.ID id (vocabularies b) (with_vocabularies b) b
  end.

#[global] Instance client : OpenCTIAPIClient t := {| exec := execute |}.

(** Identities are unique within each table of related rows. *)
Definition unique {A : Type} (ident : A -> string) (table : list A) : Prop :=
  NoDup (map ident table).

Record WellFormed (b : t) : Prop := {
  unique_capabilities : unique Capability.ID (capabilities b);
  unique_roles : unique role_ID (roles b);
  unique_markings : unique MarkingDefinition.ID (markings b);
  unique_groups : unique group_ID (groups b);
  unique_users : unique user_ID (users b);
}.

End Backend.

(** ** Reading the relations of the in-memory remote system *)

(** Adding, removing several identities. *)
Definition linkAll (added ids : list string) : list string :=
  fold_left (fun ids id => Backend.link id ids) added ids.

Definition unlinkAll (removed ids : list string) : list string :=
  fold_left (fun ids id => Backend.unlink id ids) removed ids.

(** The identities of a relation after one reconciliation towards the names
    [D]: from the identities [ids0], those of the [related] entities whose
    name is not desired are removed, then those of the entities the addition
    loop picks in the [listing] are added. *)
Definition reconciledIDs {B : Type} (ident name : B -> string) (D : list string)
    (related listing : list B) (ids0 : list string) : list string :=
  linkAll (map ident (toAssign name D listing (retained D (map name related))))
    (unlinkAll (map ident (filter (fun e => negb (slices_Contains D (name e))) related))
       ids0).

(** ** The four association reconciliations

    Update of a role reconciles its capabilities, update of a group its roles
    and its allowed markings, update of a user its groups. *)
Inductive Reconciliation : Type :=
| OfRoleCapabilities (plan : roleResource.roleResourceModel)
| OfGroupRoles (plan : groupResource.groupResourceModel)
| OfGroupMarkings (plan : groupResource.groupResourceModel)
| OfUserGroups (plan : userResource.userResourceModel).


(** The desired set [D]: the relation names of the plan, as the update
    converts them to a slice of strings. *)
Definition desired (r : Reconciliation) : list string :=
  match r with
  | OfRoleCapabilities plan => converted (roleResource.Capabilities plan)
  | OfGroupRoles plan => converted (groupResource.Roles plan)
  | OfGroupMarkings plan => converted (groupResource.AllowedMarking plan)
  | OfUserGroups plan => converted (userResource.Groups plan)
  end.


(** The plan with another desired set, a list of known names. *)
Definition withDesired (r : Reconciliation) (D : list string) : Reconciliation :=
  match r with
  | OfRoleCapabilities plan =>
      OfRoleCapabilities
        {| roleResource.ID := roleResource.ID plan;
           roleResource.Name := roleResource.Name plan;
           roleResource.Capabilities := ListValueFrom D;
           roleResource.LastUpdated := roleResource.LastUpdated plan |}
  | OfGroupRoles plan =>
      OfGroupRoles
        {| groupResource.ID := groupResource.ID plan;
           groupResource.Name := groupResource.Name plan;
           groupResource.Description := groupResource.Description plan;
           groupResource.Roles := ListValueFrom D;
           groupResource.AllowedMarking := groupResource.AllowedMarking plan;
           groupResource.MaxConfidenceLevel := groupResource.MaxConfidenceLevel plan;
           groupResource.AutoNewMarking := groupResource.AutoNewMarking plan;
           groupResource.DefaultAssignation := groupResource.DefaultAssignation plan;
           groupResource.LastUpdated := groupResource.LastUpdated plan |}
  | OfGroupMarkings plan =>
      OfGroupMarkings
        {| groupResource.ID := groupResource.ID plan;
           groupResource.Name := groupResource.Name plan;
           groupResource.Description := groupResource.Description plan;
           groupResource.Roles := groupResource.Roles plan;
           groupResource.AllowedMarking := ListValueFrom D;
           groupResource.MaxConfidenceLevel := groupResource.MaxConfidenceLevel plan;
           groupResource.AutoNewMarking := groupResource.AutoNewMarking plan;
           groupResource.DefaultAssignation := groupResource.DefaultAssignation plan;
           groupResource.LastUpdated := groupResource.LastUpdated plan |}
  | OfUserGroups plan =>
      OfUserGroups
        {| userResource.ID := userResource.ID plan;
           userResource.Name := userResource.Name plan;
           userResource.UserEmail := userResource.UserEmail plan;
           userResource.APIToken := userResource.APIToken plan;
           userResource.Groups := ListValueFrom D;
           userResource.UserConfidenceLevel := userResource.UserConfidenceLevel plan;
           userResource.LastUpdated := userResource.LastUpdated plan |}
  end.

(** The update hook of the resource, followed by the projection of the state
    it writes on the relation list reconciled. *)
Definition update {W : Type} `{OpenCTIAPIClient W} (r : Reconciliation) (now : string)
  : M W (tflist string) :=
  match r with
  | OfRoleCapabilities plan =>
      state <- roleResource.Update plan now ;; ret (roleResource.Capabilities state)
  | OfGroupRoles plan =>
      state <- groupResource.Update plan now ;; ret (groupResource.Roles state)
  | OfGroupMarkings plan =>
      state <- groupResource.Update plan now ;; ret (groupResource.AllowedMarking state)
  | OfUserGroups plan =>
      state <- userResource.Update plan now ;; ret (userResource.Groups state)
  end.

(** The current set [C], by names and by identities: the related entities
    the read of the run returned. *)
Definition current (r : Reconciliation) (journal : list Entry) : list string :=
  match r with
  | OfRoleCapabilities _ => map Capability.Name (flat_map capabilitiesRead journal)
  | OfGroupRoles _ => map Role.Name (flat_map rolesRead journal)
  | OfGroupMarkings _ => map MarkingDefinition.Definition_ (flat_map markingsRead journal)
  | OfUserGroups _ => map Group.Name (flat_map groupsRead journal)
  end.


(** The names that resolve against the remote listing of the run.  For roles,
    markings and groups they are the names of the entities listed; for
    capabilities, resolved by [IDsByNames] and used by position, they are the
    planned names at the positions the answer covers. *)
Definition listed (r : Reconciliation) (journal : list Entry) : list string :=
  match r with
  | OfRoleCapabilities plan =>
      flat_map (fun e => match idsResolved e with
                         | Some ids =>
                             firstn (List.length ids)
                               (converted (roleResource.Capabilities plan))
                         | None => []
                         end) journal
  | OfGroupRoles _ => map Role.Name (flat_map rolesListed journal)
  | OfGroupMarkings _ => map MarkingDefinition.Definition_ (flat_map markingsListed journal)
  | OfUserGroups _ => map Group.Name (flat_map groupsListed journal)
  end.






(** The reconciliations that resolve names against a listing the hook
    fetches: all but the one of capabilities. *)
Definition resolvesByListing (r : Reconciliation) : bool :=
  match r with
  | OfRoleCapabilities _ => false
  | _ => true
  end.

(** ** Sample data *)
Module Sample.
Import Backend.

Definition remote : Backend.t :=
  {| capabilities :=
       [Capability.mk "c1" "KNOWLEDGE"; Capability.mk "c2" "SETTINGS";
        Capability.mk "c3" "EXPLORE"];
     roles :=
       [{| role_ID := "r1"; role_Name := "analyst"; role_capabilityIDs := ["c1"; "c2"] |};
        {| role_ID := "r2"; role_Name := "admin"; role_capabilityIDs := [] |}];
     markings :=
       [MarkingDefinition.mk "m1" "TLP" "TLP:CLEAR" 1 "#ffffff";
        MarkingDefinition.mk "m2" "TLP" "TLP:RED" 4 "#c9022b"];
     groups :=
       [{| group_ID := "g1"; group_Name := "soc"; group_Description := "SOC team";
           group_DefaultAssignation := false; group_AutoNewMarking := false;
           group_ConfidenceLevel := ConfidenceLevel.mk 80 [];
           group_roleIDs := ["r1"]; group_markingIDs := ["m2"] |};
        {| group_ID := "g2"; group_Name := "cti"; group_Description := "CTI team";
           group_DefaultAssignation := false; group_AutoNewMarking := false;
           group_ConfidenceLevel := ConfidenceLevel.mk 60 [];
           group_roleIDs := []; group_markingIDs := [] |}];
     users :=
       [{| user_ID := "u1"; user_Name := "alice"; user_UserEmail := "alice@example.org";
           user_ApiToken := "t-alice"; user_ConfidenceLevel := ConfidenceLevel.mk 100 [];
           user_groupIDs := ["g1"] |}];
     taskTemplates := [TaskTemplate.mk "t1" "triage" "first look"];
     caseTemplates := [];
     statusTemplates := [StatusTemplate.mk "s1" "NEW" "#00ff00" 1];
     vocabularies := [];
     nextID := 7 |}.


Definition groupPlan : groupResource.groupResourceModel :=
  {| groupResource.ID := "g1"; groupResource.Name := "soc";
     groupResource.Description := "SOC team";
     groupResource.Roles := ListValueFrom ["admin"; "ghost"];
     groupResource.AllowedMarking := ListValueFrom ["TLP:RED"; "TLP:CLEAR"];
     groupResource.MaxConfidenceLevel := 80;
     groupResource.AutoNewMarking := false;
     groupResource.DefaultAssignation := false;
     groupResource.LastUpdated := "earlier" |}.

(** A role plan with a name no capability bears. *)
Definition rolePlanUnmatched : roleResource.roleResourceModel :=
  {| roleResource.ID := "r1"; roleResource.Name := "analyst";
     roleResource.Capabilities := ListValueFrom ["KNOWLEDGE"; "NOPE"];
     roleResource.LastUpdated := "earlier" |}.

Definition userPlan : userResource.userResourceModel :=
  {| userResource.ID := "u1"; userResource.Name := "alice";
     userResource.UserEmail := "alice@example.org";
     userResource.APIToken := "t-alice";
     userResource.Groups := ListValueFrom ["cti"; "nowhere"];
     userResource.UserConfidenceLevel := TfNull;
     userResource.LastUpdated := "earlier" |}.

End Sample.

(** ** Planned changes of the two resources whose update hook is empty *)

Fixpoint list_eqb {A : Type} (eqb : A -> A -> bool) (l1 l2 : list A) : bool :=
  match l1, l2 with
  | [], [] => true
  | x :: l1', y :: l2' => eqb x y && list_eqb eqb l1' l2'
  | _, _ => false
  end.

Definition tfvalue_eqb {A : Type} (eqb : A -> A -> bool) (a b : tfvalue A) : bool :=
  match a, b with
  | TfNull, TfNull | TfUnknown, TfUnknown => true
  | TfKnown x, TfKnown y => eqb x y
  | _, _ => false
  end.

Definition workflow_eqb (a b : statusTemplateResource.workflowModel) : bool :=
  String.eqb (statusTemplateResource.Entity a) (statusTemplateResource.Entity b)
  && Z.eqb (statusTemplateResource.Order a) (statusTemplateResource.Order b).

(** Equality of two list values. *)
Definition tflist_eqb {A : Type} (eqb : A -> A -> bool) (a b : tflist A) : bool :=
  tfvalue_eqb (list_eqb (tfvalue_eqb eqb)) a b.

Definition changedIf (same : bool) (attribute : string) : list string :=
  if same then [] else [attribute].

(** The configurable attributes whose planned value differs from the prior
    state. *)
Definition caseTemplate_changed (prior plan : caseTemplateResource.caseTemplateResourceModel)
  : list string :=
  changedIf (String.eqb (caseTemplateResource.Name prior) (caseTemplateResource.Name plan))
            "name"
  ++ changedIf (String.eqb (caseTemplateResource.Description prior)
                           (caseTemplateResource.Description plan)) "description"
  ++ changedIf (tflist_eqb String.eqb (caseTemplateResource.Tasks prior)
                           (caseTemplateResource.Tasks plan)) "tasks".

Definition statusTemplate_changed
    (prior plan : statusTemplateResource.statusTemplateResourceModel) : list string :=
  changedIf (String.eqb (statusTemplateResource.Name prior)
                        (statusTemplateResource.Name plan)) "name"
  ++ changedIf (String.eqb (statusTemplateResource.Color prior)
                           (statusTemplateResource.Color plan)) "color"
  ++ changedIf (tflist_eqb workflow_eqb
                  (statusTemplateResource.Workflows prior)
                  (statusTemplateResource.Workflows plan)) "workflows".



Module Sample2.

(** A status template recorded with one workflow, renamed in the plan. *)
Definition statusState : statusTemplateResource.statusTemplateResourceModel :=
  {| statusTemplateResource.ID := "s1";
     statusTemplateResource.Name := "NEW";
     statusTemplateResource.Color := "#00ff00";
     statusTemplateResource.Workflows :=
       ListValueFrom [{| statusTemplateResource.Entity := "Report";
                   statusTemplateResource.Order := 1 |}];
     statusTemplateResource.LastUpdated := "earlier" |}.

Definition statusPlan : statusTemplateResource.statusTemplateResourceModel :=
  {| statusTemplateResource.ID := "s1";
     statusTemplateResource.Name := "OPEN";
     statusTemplateResource.Color := "#00ff00";
     statusTemplateResource.Workflows :=
       ListValueFrom [{| statusTemplateResource.Entity := "Report";
                   statusTemplateResource.Order := 1 |}];
     statusTemplateResource.LastUpdated := "earlier" |}.


(** A marking definition recorded under the identity [m2], with a new colour
    in the plan. *)
Definition markingPlan : markingDefinitionResource.markingDefinitionResourceModel :=
  {| markingDefinitionResource.ID := "m2";
     markingDefinitionResource.DefinitionType := "TLP";
     markingDefinitionResource.Definition_ := "TLP:RED";
     markingDefinitionResource.XOpenctiOrder := 4;
     markingDefinitionResource.XOpenctiColor := "#ff0000";
     markingDefinitionResource.LastUpdated := "earlier" |}.

Definition taskPlan : taskTemplateResource.taskTemplateResourceModel :=
  {| taskTemplateResource.ID := "t1";
     taskTemplateResource.Name := "triage";
     taskTemplateResource.Description := "second look";
     taskTemplateResource.LastUpdated := "earlier" |}.


End Sample2.

Module Sample3.
Import Backend.



Definition alicePlan : userResource.userResourceModel :=
  {| userResource.ID := EmptyString; userResource.Name := "alice";
     userResource.UserEmail := "alice@other.example";
     userResource.APIToken := EmptyString;
     userResource.Groups := ListValueFrom ["cti"];
     userResource.UserConfidenceLevel := TfNull;
     userResource.LastUpdated := EmptyString |}.

(** A plan for a group that names the role admin twice. *)
Definition repeatedPlan : groupResource.groupResourceModel :=
  {| groupResource.ID := EmptyString; groupResource.Name := "ops";
     groupResource.Description := "Operations";
     groupResource.Roles := ListValueFrom ["admin"; "admin"];
     groupResource.AllowedMarking := ListValueFrom [];
     groupResource.MaxConfidenceLevel := 50;
     groupResource.AutoNewMarking := false;
     groupResource.DefaultAssignation := false;
     groupResource.LastUpdated := EmptyString |}.

End Sample3.

(** ** Creation followed by a read *)

(** The state of a resource of one of the eight kinds. *)
Inductive Model : Type :=
| RoleModel (m : roleResource.roleResourceModel)
| GroupModel (m : groupResource.groupResourceModel)
| UserModel (m : userResource.userResourceModel)
| MarkingDefinitionModel (m : markingDefinitionResource.markingDefinitionResourceModel)
| CaseTemplateModel (m : caseTemplateResource.caseTemplateResourceModel)
| StatusTemplateModel (m : statusTemplateResource.statusTemplateResourceModel)
| TaskTemplateModel (m : taskTemplateResource.taskTemplateResourceModel)
| VocabularyModel (m : vocabularyResource.vocabularyResourceModel).

Section CreateRead.
Context {W : Type} `{OpenCTIAPIClient W} `{Fmt}.

(** The creation hook of the resource of the plan, and the read hook of the
    resource of the state. *)
Definition create (plan : Model) (uuid now : string) : M W Model :=
  match plan with
  | RoleModel p => state <- roleResource.Create p now ;; ret (RoleModel state)
  | GroupModel p => state <- groupResource.Create p now ;; ret (GroupModel state)
  | UserModel p => state <- userResource.Create p uuid now ;; ret (UserModel state)
  | MarkingDefinitionModel p =>
      state <- markingDefinitionResource.Create p now ;; ret (MarkingDefinitionModel state)
  | CaseTemplateModel p =>
      state <- caseTemplateResource.Create p now ;; ret (CaseTemplateModel state)
  | StatusTemplateModel p =>
      state <- statusTemplateResource.Create p now ;; ret (StatusTemplateModel state)
  | TaskTemplateModel p =>
      state <- taskTemplateResource.Create p now ;; ret (TaskTemplateModel state)
  | VocabularyModel p =>
      state <- vocabularyResource.Create p now ;; ret (VocabularyModel state)
  end.

Definition read (state : Model) : M W Model :=
  match state with
  | RoleModel s => state' <- roleResource.Read s ;; ret (RoleModel state')
  | GroupModel s => state' <- groupResource.Read s ;; ret (GroupModel state')
  | UserModel s => state' <- userResource.Read s ;; ret (UserModel state')
  | MarkingDefinitionModel s =>
      state' <- markingDefinitionResource.Read s ;; ret (MarkingDefinitionModel state')
  | CaseTemplateModel s =>
      state' <- caseTemplateResource.Read s ;; ret (CaseTemplateModel state')
  | StatusTemplateModel s =>
      state' <- statusTemplateResource.Read s ;; ret (StatusTemplateModel state')
  | TaskTemplateModel s =>
      state' <- taskTemplateResource.Read s ;; ret (TaskTemplateModel state')
  | VocabularyModel s =>
      state' <- vocabularyResource.Read s ;; ret (VocabularyModel state')
  end.

End CreateRead.

(** A planned relation name as the creation hooks compare it with the remote
    names: [x.String()] trimmed of the double quotes around it. *)
Definition render `{Fmt} (name : tfvalue string) : string :=
  strings_Trim (String_ name) dquote.

(** The relation lists of a state. *)
Definition relationLists (state : Model) : list (tflist string) :=
  match state with
  | RoleModel s => [roleResource.Capabilities s]
  | GroupModel s => [groupResource.Roles s; groupResource.AllowedMarking s]
  | UserModel s => [userResource.Groups s]
  | CaseTemplateModel s => [caseTemplateResource.Tasks s]
  | _ => []
  end.

(** The user of the remote system that [userResource.Create] adopts for a
    plan: the first that bears the planned name, when the name is not empty. *)
Definition adopted (plan : userResource.userResourceModel) (b : Backend.t)
  : option Backend.UserRow :=
  match named Backend.user_Name (userResource.Name plan) (Backend.users b) with
  | Some row => if String.eqb (Backend.user_Name row) EmptyString then None else Some row
  | None => None
  end.

(** The plans for which creation and read agree: the relation names of the
    plan are rendered without repetition, and a user that creation adopts
    holds no group yet. *)
Definition Distinct `{Fmt} (plan : Model) (b : Backend.t) : Prop :=
  match plan with
  | RoleModel p => NoDup (map render (Elements (roleResource.Capabilities p)))
  | GroupModel p =>
      NoDup (map render (Elements (groupResource.Roles p))) /\
      NoDup (map render (Elements (groupResource.AllowedMarking p)))
  | UserModel p =>
      NoDup (map render (Elements (userResource.Groups p))) /\
      forall row, adopted p b = Some row -> Backend.user_groupIDs row = []
  | _ => True
  end.

(** ** The hooks of the resource lifecycle *)

(** A planned change of a recorded resource.  The update hooks of the case
    template and of the status template have an empty body: what they leave
    is the prior state the framework put in the response, so their change
    carries it. *)
Inductive Change : Type :=
| RoleChange (plan : roleResource.roleResourceModel)
| GroupChange (plan : groupResource.groupResourceModel)
| UserChange (plan : userResource.userResourceModel)
| MarkingDefinitionChange (plan : markingDefinitionResource.markingDefinitionResourceModel)
| CaseTemplateChange (plan state : caseTemplateResource.caseTemplateResourceModel)
| StatusTemplateChange (plan state : statusTemplateResource.statusTemplateResourceModel)
| TaskTemplateChange (plan : taskTemplateResource.taskTemplateResourceModel)
| VocabularyChange (plan : vocabularyResource.vocabularyResourceModel).

(** An invocation of one of the four hooks of a resource. *)
Inductive Hook : Type :=
| AtCreate (plan : Model) (uuid now : string)
| AtRead (state : Model)
| AtUpdate (c : Change) (now : string)
| AtDelete (state : Model).

Section Lifecycle.
Context {W : Type} `{OpenCTIAPIClient W} `{Fmt}.

(** The update hook of the resource of the change. *)
Definition change (c : Change) (now : string) : M W Model :=
  match c with
  | RoleChange p => state <- roleResource.Update p now ;; ret (RoleModel state)
  | GroupChange p => state <- groupResource.Update p now ;; ret (GroupModel state)
  | UserChange p => state <- userResource.Update p now ;; ret (UserModel state)
  | MarkingDefinitionChange p =>
      state <- markingDefinitionResource.Update p now ;; ret (MarkingDefinitionModel state)
  | CaseTemplateChange p s =>
      state <- caseTemplateResource.Update p s ;; ret (CaseTemplateModel state)
  | StatusTemplateChange p s =>
      state <- statusTemplateResource.Update p s ;; ret (StatusTemplateModel state)
  | TaskTemplateChange p =>
      state <- taskTemplateResource.Update p now ;; ret (TaskTemplateModel state)
  | VocabularyChange p =>
      state <- vocabularyResource.Update p now ;; ret (VocabularyModel state)
  end.

(** The delete hook of the resource of the state. *)
Definition delete (state : Model) : M W unit :=
  match state with
  | RoleModel s => roleResource.Delete s
  | GroupModel s => groupResource.Delete s
  | UserModel s => userResource.Delete s
  | MarkingDefinitionModel s => markingDefinitionResource.Delete s
  | CaseTemplateModel s => caseTemplateResource.Delete s
  | StatusTemplateModel s => statusTemplateResource.Delete s
  | TaskTemplateModel s => taskTemplateResource.Delete s
  | VocabularyModel s => vocabularyResource.Delete s
  end.

(** The hook invoked, with the state it writes: a delete hook writes none
    (the framework removes the state when the hook reports no error). *)
Definition hook (h : Hook) : M W (option Model) :=
  match h with
  | AtCreate plan uuid now => state <- create plan uuid now ;; ret (Some state)
  | AtRead state => state' <- read state ;; ret (Some state')
  | AtUpdate c now => state <- change c now ;; ret (Some state)
  | AtDelete state => delete state ;;; ret None
  end.

End Lifecycle.

(** The identity recorded in a state. *)
Definition identity (state : Model) : string :=
  match state with
  | RoleModel s => roleResource.ID s
  | GroupModel s => groupResource.ID s
  | UserModel s => userResource.ID s
  | MarkingDefinitionModel s => markingDefinitionResource.ID s
  | CaseTemplateModel s => caseTemplateResource.ID s
  | StatusTemplateModel s => statusTemplateResource.ID s
  | TaskTemplateModel s => taskTemplateResource.ID s
  | VocabularyModel s => vocabularyResource.ID s
  end.

(** ** What a journal shows of the calls *)

(** The deletion mutations. *)
Definition isDelete (c : Call) : bool :=
  match c with
  | DeleteRole _ | DeleteGroup _ | DeleteUser _ | DeleteMarkingDefinition _
  | DeleteCaseTemplate _ | DeleteStatusTemplate _ | DeleteTaskTemplate _
  | DeleteVocabulary _ => true
  | _ => false
  end.

(** The identity a read or a delete call is issued for. *)
Definition subjectID (c : Call) : option string :=
  match c with
  | ReadRole _ id | ReadGroup _ id | ReadUser _ id | ReadMarkingDefinition _ id
  | ReadCaseTemplate _ id | ReadStatusTemplate _ id | ReadTaskTemplate _ id
  | ReadVocabulary _ id
  | DeleteRole id | DeleteGroup id | DeleteUser id | DeleteMarkingDefinition id
  | DeleteCaseTemplate id | DeleteStatusTemplate id | DeleteTaskTemplate id
  | DeleteVocabulary id => Some id
  | _ => None
  end.

(** A diagnostic whose detail ends with the message [err]. *)
Definition carries (d : Diagnostic) (err : string) : Prop :=
  exists prefix, diag_detail d = String.append prefix err.

(** The diagnostic a conversion reports, if any. *)
Definition errorOf {A : Type} (target : A + Diagnostic) : list Diagnostic :=
  match target with
  | inl _ => []
  | inr d => [d]
  end.

(** The diagnostics of the conversions of planned lists a hook makes: the
    updates of role, group and user convert the planned relation lists, the
    creation of a case template the planned tasks, the creation of a status
    template the planned workflows when they are neither null nor unknown.
    No other hook converts a list. *)
Definition conversionErrors (h : Hook) : list Diagnostic :=
  match h with
  | AtUpdate (RoleChange p) _ =>
      errorOf (ElementsAs AtListIndex (roleResource.Capabilities p))
  | AtUpdate (GroupChange p) _ =>
      errorOf (ElementsAs AtListIndex (groupResource.Roles p))
      ++ errorOf (ElementsAs AtListIndex (groupResource.AllowedMarking p))
  | AtUpdate (UserChange p) _ =>
      errorOf (ElementsAs AtListIndex (userResource.Groups p))
  | AtCreate (CaseTemplateModel p) _ _ =>
      errorOf (ElementsAs AtSetValue (caseTemplateResource.Tasks p))
  | AtCreate (StatusTemplateModel p) _ _ =>
      if negb (IsNull (statusTemplateResource.Workflows p))
         && negb (IsUnknown (statusTemplateResource.Workflows p))
      then errorOf (ElementsAs AtListIndex (statusTemplateResource.Workflows p))
      else []
  | _ => []
  end.

(** A computation that stops at the first call that fails: whatever it
    appends to the journal, only the last entry may be a failure.  It reports
    an error when the last call failed, in a diagnostic without attribute
    path that carries the message of that failure, and otherwise only when
    no call failed and the diagnostic is one of [ds]. *)
Definition stopping {W : Type} `{OpenCTIAPIClient W} {A : Type}
    (ds : list Diagnostic) (m : M W A) : Prop :=
  forall (s : St W) out (s' : St W),
    m s = (out, s') ->
    exists delta, snd s' = snd s ++ delta /\
      match out with
      | Errored d =>
          (exists before c err,
              delta = before ++ [answered c (Failure err)] /\
              forallb succeeded before = true /\
              diag_path d = None /\ carries d err)
          \/ (forallb succeeded delta = true /\ In d ds)
      | _ => forallb succeeded delta = true
      end.

(** ** Resource configuration and import *)

(** [req.ProviderData], an [any]: nil, the client handle, or a value of
    another type, kept by the name [%T] prints. *)
Inductive ProviderData (C : Type) : Type :=
| NoProviderData
| ClientData (client : C)
| OtherData (typeName : string).
Arguments NoProviderData {C}.
Arguments OtherData {C}.

(** What the framework hands to the [Configure] of a resource: the
    [ResourceData] the provider published. *)
Definition providerData {C : Type} (published : option C) : ProviderData C :=
  match published with
  | Some client => ClientData client
  | None => NoProviderData
  end.

(** [Configure] of a resource; the eight resources have the same body.  The
    receiver's [client] field is threaded: [r] before, the first component
    after. *)
Definition resource_Configure {C : Type} (r : option C) (data : ProviderData C)
  : option C * list Diagnostic :=
  match data with
  | NoProviderData => (r, [])
  | ClientData client => (Some client, [])
  | OtherData typeName =>
      (r, [AddError "Unexpected Resource Configure Type"
             ("Expected *gocti.OpenCTIAPIClient, got: " ++ typeName
              ++ ". Please report this issue to the provider developers.")%string])
  end.

(** [ImportState]: [resource.ImportStatePassthroughID] on the path [id]
    writes the import identifier to the attribute [id] and leaves every other
    attribute null. *)
Definition roleResource_ImportState (id : string) : roleResource.roleResourceModel :=
  {| roleResource.ID := id; roleResource.Name := EmptyString;
     roleResource.Capabilities := TfNull; roleResource.LastUpdated := EmptyString |}.

Definition groupResource_ImportState (id : string) : groupResource.groupResourceModel :=
  {| groupResource.ID := id; groupResource.Name := EmptyString;
     groupResource.Description := EmptyString; groupResource.Roles := TfNull;
     groupResource.AllowedMarking := TfNull; groupResource.MaxConfidenceLevel := 0;
     groupResource.AutoNewMarking := false; groupResource.DefaultAssignation := false;
     groupResource.LastUpdated := EmptyString |}.

Definition userResource_ImportState (id : string) : userResource.userResourceModel :=
  {| userResource.ID := id; userResource.Name := EmptyString;
     userResource.UserEmail := EmptyString; userResource.APIToken := EmptyString;
     userResource.Groups := TfNull; userResource.UserConfidenceLevel := TfNull;
     userResource.LastUpdated := EmptyString |}.

Definition markingDefinitionResource_ImportState (id : string)
  : markingDefinitionResource.markingDefinitionResourceModel :=
  {| markingDefinitionResource.ID := id;
     markingDefinitionResource.DefinitionType := EmptyString;
     markingDefinitionResource.Definition_ := EmptyString;
     markingDefinitionResource.XOpenctiOrder := 0;
     markingDefinitionResource.XOpenctiColor := EmptyString;
     markingDefinitionResource.LastUpdated := EmptyString |}.

Definition caseTemplateResource_ImportState (id : string)
  : caseTemplateResource.caseTemplateResourceModel :=
  {| caseTemplateResource.ID := id; caseTemplateResource.Name := EmptyString;
     caseTemplateResource.Description := EmptyString;
     caseTemplateResource.Tasks := TfNull;
     caseTemplateResource.LastUpdated := EmptyString |}.

Definition statusTemplateResource_ImportState (id : string)
  : statusTemplateResource.statusTemplateResourceModel :=
  {| statusTemplateResource.ID := id; statusTemplateResource.Name := EmptyString;
     statusTemplateResource.Color := EmptyString;
     statusTemplateResource.Workflows := TfNull;
     statusTemplateResource.LastUpdated := EmptyString |}.

Definition taskTemplateResource_ImportState (id : string)
  : taskTemplateResource.taskTemplateResourceModel :=
  {| taskTemplateResource.ID := id; taskTemplateResource.Name := EmptyString;
     taskTemplateResource.Description := EmptyString;
     taskTemplateResource.LastUpdated := EmptyString |}.

Definition vocabularyResource_ImportState (id : string)
  : vocabularyResource.vocabularyResourceModel :=
  {| vocabularyResource.ID := id; vocabularyResource.Name := EmptyString;
     vocabularyResource.Description := EmptyString;
     vocabularyResource.Category := EmptyString;
     vocabularyResource.LastUpdated := EmptyString |}.

(** The import of the resource of a recorded state, by its identity. *)
Definition ImportState (state : Model) : Model :=
  match state with
  | RoleModel s => RoleModel (roleResource_ImportState (roleResource.ID s))
  | GroupModel s => GroupModel (groupResource_ImportState (groupResource.ID s))
  | UserModel s => UserModel (userResource_ImportState (userResource.ID s))
  | MarkingDefinitionModel s =>
      MarkingDefinitionModel
        (markingDefinitionResource_ImportState (markingDefinitionResource.ID s))
  | CaseTemplateModel s =>
      CaseTemplateModel (caseTemplateResource_ImportState (caseTemplateResource.ID s))
  | StatusTemplateModel s =>
      StatusTemplateModel
        (statusTemplateResource_ImportState (statusTemplateResource.ID s))
  | TaskTemplateModel s =>
      TaskTemplateModel (taskTemplateResource_ImportState (taskTemplateResource.ID s))
  | VocabularyModel s =>
      VocabularyModel (vocabularyResource_ImportState (vocabularyResource.ID s))
  end.

(** A state with another timestamp. *)
Definition withLastUpdated (t : string) (state : Model) : Model :=
  match state with
  | RoleModel s =>
      RoleModel {| roleResource.ID := roleResource.ID s;
                   roleResource.Name := roleResource.Name s;
                   roleResource.Capabilities := roleResource.Capabilities s;
                   roleResource.LastUpdated := t |}
  | GroupModel s =>
      GroupModel {| groupResource.ID := groupResource.ID s;
                    groupResource.Name := groupResource.Name s;
                    groupResource.Description := groupResource.Description s;
                    groupResource.Roles := groupResource.Roles s;
                    groupResource.AllowedMarking := groupResource.AllowedMarking s;
                    groupResource.MaxConfidenceLevel := groupResource.MaxConfidenceLevel s;
                    groupResource.AutoNewMarking := groupResource.AutoNewMarking s;
                    groupResource.DefaultAssignation := groupResource.DefaultAssignation s;
                    groupResource.LastUpdated := t |}
  | UserModel s =>
      UserModel {| userResource.ID := userResource.ID s;
                   userResource.Name := userResource.Name s;
                   userResource.UserEmail := userResource.UserEmail s;
                   userResource.APIToken := userResource.APIToken s;
                   userResource.Groups := userResource.Groups s;
                   userResource.UserConfidenceLevel := userResource.UserConfidenceLevel s;
                   userResource.LastUpdated := t |}
  | MarkingDefinitionModel s =>
      MarkingDefinitionModel
        {| markingDefinitionResource.ID := markingDefinitionResource.ID s;
           markingDefinitionResource.DefinitionType :=
             markingDefinitionResource.DefinitionType s;
           markingDefinitionResource.Definition_ := markingDefinitionResource.Definition_ s;
           markingDefinitionResource.XOpenctiOrder :=
             markingDefinitionResource.XOpenctiOrder s;
           markingDefinitionResource.XOpenctiColor :=
             markingDefinitionResource.XOpenctiColor s;
           markingDefinitionResource.LastUpdated := t |}
  | CaseTemplateModel s =>
      CaseTemplateModel
        {| caseTemplateResource.ID := caseTemplateResource.ID s;
           caseTemplateResource.Name := caseTemplateResource.Name s;
           caseTemplateResource.Description := caseTemplateResource.Description s;
           caseTemplateResource.Tasks := caseTemplateResource.Tasks s;
           caseTemplateResource.LastUpdated := t |}
  | StatusTemplateModel s =>
      StatusTemplateModel
        {| statusTemplateResource.ID := statusTemplateResource.ID s;
           statusTemplateResource.Name := statusTemplateResource.Name s;
           statusTemplateResource.Color := statusTemplateResource.Color s;
           statusTemplateResource.Workflows := statusTemplateResource.Workflows s;
           statusTemplateResource.LastUpdated := t |}
  | TaskTemplateModel s =>
      TaskTemplateModel
        {| taskTemplateResource.ID := taskTemplateResource.ID s;
           taskTemplateResource.Name := taskTemplateResource.Name s;
           taskTemplateResource.Description := taskTemplateResource.Description s;
           taskTemplateResource.LastUpdated := t |}
  | VocabularyModel s =>
      VocabularyModel
        {| vocabularyResource.ID := vocabularyResource.ID s;
           vocabularyResource.Name := vocabularyResource.Name s;
           vocabularyResource.Description := vocabularyResource.Description s;
           vocabularyResource.Category := vocabularyResource.Category s;
           vocabularyResource.LastUpdated := t |}
  end.

(** The calls a hook may issue, by the kind of the hook: a creation hook
    never deletes and never unassigns; a read hook only looks up; the update
    hooks of role, group and user look up, assign and unassign; those of
    marking definition, task template and vocabulary issue the creation
    mutation; those of case template and status template issue nothing; a
    delete hook only deletes. *)
Definition allowed (h : Hook) (c : Call) : bool :=
  match h with
  | AtCreate _ _ _ => negb (isDelete c) && negb (isUnassign c)
  | AtRead _ => isLookup c
  | AtUpdate (RoleChange _) _ | AtUpdate (GroupChange _) _ | AtUpdate (UserChange _) _ =>
      isLookup c || isAssign c || isUnassign c
  | AtUpdate (MarkingDefinitionChange _) _ | AtUpdate (TaskTemplateChange _) _
  | AtUpdate (VocabularyChange _) _ => isCreate c
  | AtUpdate (CaseTemplateChange _ _) _ | AtUpdate (StatusTemplateChange _ _) _ => false
  | AtDelete _ => isDelete c
  end.

(** Sample plans. *)
Module Sample4.

(** A status template planned without workflows. *)
Definition statusPlanBare : statusTemplateResource.statusTemplateResourceModel :=
  {| statusTemplateResource.ID := EmptyString;
     statusTemplateResource.Name := "TRIAGED";
     statusTemplateResource.Color := "#0000ff";
     statusTemplateResource.Workflows := TfNull;
     statusTemplateResource.LastUpdated := EmptyString |}.

(** The sample group, renamed and described anew, with the relations it
    holds. *)
Definition groupRenamed : groupResource.groupResourceModel :=
  {| groupResource.ID := "g1"; groupResource.Name := "blue team";
     groupResource.Description := "Defenders";
     groupResource.Roles := ListValueFrom ["analyst"];
     groupResource.AllowedMarking := ListValueFrom ["TLP:RED"];
     groupResource.MaxConfidenceLevel := 10;
     groupResource.AutoNewMarking := true;
     groupResource.DefaultAssignation := true;
     groupResource.LastUpdated := "earlier" |}.

(** The sample group planned with a role list whose second element is
    null. *)
Definition groupWithNull : groupResource.groupResourceModel :=
  {| groupResource.ID := "g1"; groupResource.Name := "soc";
     groupResource.Description := "SOC team";
     groupResource.Roles := TfKnown [TfKnown "analyst"; TfNull];
     groupResource.AllowedMarking := ListValueFrom ["TLP:RED"];
     groupResource.MaxConfidenceLevel := 80;
     groupResource.AutoNewMarking := false;
     groupResource.DefaultAssignation := false;
     groupResource.LastUpdated := "earlier" |}.



(** A remote system with a capability named with two backslashes, and the
    plan of a role with the capability named with one. *)
Definition remoteWithEscaped : Backend.t :=
  {| Backend.capabilities :=
       Capability.mk "c9" "KNOW\\LEDGE" :: Backend.capabilities Sample.remote;
     Backend.roles := Backend.roles Sample.remote;
     Backend.markings := Backend.markings Sample.remote;
     Backend.groups := Backend.groups Sample.remote;
     Backend.users := Backend.users Sample.remote;
     Backend.taskTemplates := Backend.taskTemplates Sample.remote;
     Backend.caseTemplates := Backend.caseTemplates Sample.remote;
     Backend.statusTemplates := Backend.statusTemplates Sample.remote;
     Backend.vocabularies := Backend.vocabularies Sample.remote;
     Backend.nextID := Backend.nextID Sample.remote |}.

Definition backslashRolePlan : roleResource.roleResourceModel :=
  {| roleResource.ID := EmptyString; roleResource.Name := "reader";
     roleResource.Capabilities := ListValueFrom ["KNOW\LEDGE"];
     roleResource.LastUpdated := EmptyString |}.

(** A user planned with a confidence level. *)
Definition confidentPlan : userResource.userResourceModel :=
  {| userResource.ID := EmptyString; userResource.Name := "bob";
     userResource.UserEmail := "bob@example.org";
     userResource.APIToken := EmptyString;
     userResource.Groups := ListValueFrom ["soc"];
     userResource.UserConfidenceLevel :=
       TfKnown {| userResource.max_confidence := TfKnown 70%Z;
                  userResource.overrides :=
                    TfKnown [{| userResource.entity_type := "Report";
                                userResource.override_max_confidence := 90%Z |}] |};
     userResource.LastUpdated := EmptyString |}.

End Sample4.

(** The state a change plans. *)
Definition planned (c : Change) : Model :=
  match c with
  | RoleChange p => RoleModel p
  | GroupChange p => GroupModel p
  | UserChange p => UserModel p
  | MarkingDefinitionChange p => MarkingDefinitionModel p
  | CaseTemplateChange p _ => CaseTemplateModel p
  | StatusTemplateChange p _ => StatusTemplateModel p
  | TaskTemplateChange p => TaskTemplateModel p
  | VocabularyChange p => VocabularyModel p
  end.

(** A change of a role, of a group or of a user that plans the identity and
    the relation lists of the recorded state: whatever it changes, it changes
    in the scalar attributes. *)
Definition scalarChange (c : Change) (state : Model) : Prop :=
  match c, state with
  | RoleChange p, RoleModel s =>
      roleResource.ID p = roleResource.ID s /\
      roleResource.Capabilities p = roleResource.Capabilities s
  | GroupChange p, GroupModel s =>
      groupResource.ID p = groupResource.ID s /\
      groupResource.Roles p = groupResource.Roles s /\
      groupResource.AllowedMarking p = groupResource.AllowedMarking s
  | UserChange p, UserModel s =>
      userResource.ID p = userResource.ID s /\
      userResource.Groups p = userResource.Groups s
  | _, _ => False
  end.

(** * Properties *)

(** ** Go library functions *)

Lemma slices_Contains_In s v : slices_Contains s v = true <-> In v s.
Proof.
  unfold slices_Contains. rewrite existsb_exists. split.
  - intros [x [Hin Heq]]. apply String.eqb_eq in Heq. now subst.
  - intros Hin. exists v. split; [assumption | apply String.eqb_refl].
Qed.

Lemma slices_Contains_not_In s v : slices_Contains s v = false <-> ~ In v s.
Proof.
  rewrite <- slices_Contains_In. destruct (slices_Contains s v); split; intros;
    congruence.
Qed.

(** ** Facts about the sort order *)

Lemma ascii_compare_refl a : Ascii.compare a a = Eq.
Proof. unfold Ascii.compare. apply N.compare_refl. Qed.

Lemma ascii_compare_lt_trans a b c :
  Ascii.compare a b = Lt -> Ascii.compare b c = Lt -> Ascii.compare a c = Lt.
Proof.
  unfold Ascii.compare. rewrite !N.compare_lt_iff. apply N.lt_trans.
Qed.

Lemma string_compare_refl s : String.compare s s = Eq.
Proof.
  induction s as [|a s IH]; simpl; [reflexivity|].
  now rewrite ascii_compare_refl.
Qed.

Lemma string_compare_lt_trans s1 : forall s2 s3,
  String.compare s1 s2 = Lt -> String.compare s2 s3 = Lt ->
  String.compare s1 s3 = Lt.
Proof.
  induction s1 as [|a s1 IH]; intros [|b s2] [|c s3]; simpl; try congruence.
  destruct (Ascii.compare a b) eqn:Hab; try discriminate.
  - apply Ascii.compare_eq_iff in Hab. subst b.
    destruct (Ascii.compare a c); try congruence. apply IH.
  - destruct (Ascii.compare b c) eqn:Hbc; try discriminate.
    + apply Ascii.compare_eq_iff in Hbc. subst c. now rewrite Hab.
    + now rewrite (ascii_compare_lt_trans _ _ _ Hab Hbc).
Qed.

Lemma string_le_refl a : string_le a a.
Proof. unfold string_le, String.leb. now rewrite string_compare_refl. Qed.

Lemma string_le_trans a b c : string_le a b -> string_le b c -> string_le a c.
Proof.
  unfold string_le, String.leb. intros Hab Hbc.
  destruct (String.compare a b) eqn:Eab; try discriminate.
  - apply String.compare_eq_iff in Eab. now subst.
  - destruct (String.compare b c) eqn:Ebc; try discriminate.
    + apply String.compare_eq_iff in Ebc. subst. now rewrite Eab.
    + now rewrite (string_compare_lt_trans _ _ _ Eab Ebc).
Qed.

Lemma string_le_antisym a b : string_le a b -> string_le b a -> a = b.
Proof. apply String.leb_antisym. Qed.

Lemma string_leb_false a b : String.leb a b = false -> string_le b a.
Proof.
  intros H. destruct (String.leb_total a b) as [H'|H']; [congruence|exact H'].
Qed.

(** ** [sort.Strings] returns a sorted permutation of its argument *)

Lemma insert_string_perm x l : Permutation (x :: l) (insert_string x l).
Proof.
  induction l as [|y l IH]; simpl; [apply Permutation_refl|].
  destruct (String.leb x y); [apply Permutation_refl|].
  eapply perm_trans; [apply perm_swap|]. now apply perm_skip.
Qed.

Lemma sort_Strings_perm l : Permutation l (sort_Strings l).
Proof.
  induction l as [|x l IH]; simpl; [constructor|].
  eapply perm_trans; [|apply insert_string_perm]. now apply perm_skip.
Qed.

Lemma sort_Strings_In l x : In x (sort_Strings l) <-> In x l.
Proof.
  split; apply Permutation_in;
    [apply Permutation_sym|]; apply sort_Strings_perm.
Qed.

Lemma insert_string_sorted x l :
  StronglySorted string_le l -> StronglySorted string_le (insert_string x l).
Proof.
  induction 1 as [|y l Hs IH Hall]; simpl.
  - repeat constructor.
  - destruct (String.leb x y) eqn:Hxy.
    + constructor; [now constructor|]. constructor; [exact Hxy|].
      eapply Forall_impl; [|exact Hall]. intros z Hz.
      eapply string_le_trans; eassumption.
    + constructor; [exact IH|].
      eapply Permutation_Forall; [apply insert_string_perm|].
      constructor; [now apply string_leb_false | exact Hall].
Qed.

Lemma sort_Strings_sorted l : StronglySorted string_le (sort_Strings l).
Proof.
  induction l as [|x l IH]; simpl; [constructor | now apply insert_string_sorted].
Qed.

(** A sorted slice is determined by its elements: two sorted permutations of
    one another are equal. *)
Lemma sorted_perm_eq l1 : forall l2,
  StronglySorted string_le l1 -> StronglySorted string_le l2 ->
  Permutation l1 l2 -> l1 = l2.
Proof.
  induction l1 as [|x l1 IH]; intros l2 H1 H2 HP.
  - apply Permutation_nil in HP. now subst.
  - destruct l2 as [|y l2]; [apply Permutation_sym, Permutation_nil in HP; discriminate|].
    inversion H1 as [|? ? Hs1 Ha1]; inversion H2 as [|? ? Hs2 Ha2]; subst.
    assert (x = y) as ->.
    { assert (Hx : In x (y :: l2)) by (eapply Permutation_in; [exact HP | now left]).
      assert (Hy : In y (x :: l1))
        by (eapply Permutation_in; [apply Permutation_sym; exact HP | now left]).
      destruct Hx as [->|Hx]; [reflexivity|].
      destruct Hy as [->|Hy]; [reflexivity|].
      rewrite Forall_forall in Ha1, Ha2.
      apply string_le_antisym; [now apply Ha1 | now apply Ha2]. }
    f_equal. apply IH; try assumption. eapply Permutation_cons_inv; exact HP.
Qed.

Lemma sort_Strings_perm_eq l1 l2 :
  Permutation l1 l2 -> sort_Strings l1 = sort_Strings l2.
Proof.
  intros HP. apply sorted_perm_eq; try apply sort_Strings_sorted.
  eapply perm_trans; [apply Permutation_sym, sort_Strings_perm|].
  eapply perm_trans; [exact HP | apply sort_Strings_perm].
Qed.

Lemma sort_Strings_id l : StronglySorted string_le l -> sort_Strings l = l.
Proof.
  intros H. apply sorted_perm_eq; [apply sort_Strings_sorted | exact H |].
  apply Permutation_sym, sort_Strings_perm.
Qed.

Lemma sort_Strings_idem l : sort_Strings (sort_Strings l) = sort_Strings l.
Proof. apply sort_Strings_id, sort_Strings_sorted. Qed.

Lemma nodes_connection_of A (l : list A) : nodes (connection_of l) = l.
Proof.
  unfold nodes, connection_of. simpl. rewrite map_map. simpl. apply map_id.
Qed.


(** ** Conversion of list values *)

Lemma elementsFrom_inl A at_ : forall (l : list (tfvalue A)) i target,
  elementsFrom at_ i l = inl target -> l = map (@TfKnown A) target.
Proof.
  induction l as [|[| |a] l IH]; intros i target E; simpl in E; try discriminate.
  - now inversion E.
  - destruct (elementsFrom at_ (S i) l) as [t|d] eqn:El; [|discriminate].
    inversion E; subst. simpl. f_equal. eapply IH; eassumption.
Qed.

Lemma elementsFrom_map_TfKnown A at_ (target : list A) : forall i,
  elementsFrom at_ i (map (@TfKnown A) target) = inl target.
Proof.
  induction target as [|a target IH]; intros i; simpl; [reflexivity|].
  now rewrite IH.
Qed.

(** A conversion that succeeds fills the slice with the elements, whatever
    the kind of the value (list or set). *)
Lemma ElementsAs_ListValueFrom A at_ (target : list A) :
  ElementsAs at_ (ListValueFrom target) = inl target.
Proof. apply elementsFrom_map_TfKnown. Qed.

Lemma ElementsAs_Elements A at_ (v : tflist A) target :
  ElementsAs at_ v = inl target -> Elements v = map (@TfKnown A) target.
Proof.
  destruct v as [| |l]; simpl; intros E; try discriminate.
  - now inversion E.
  - eapply elementsFrom_inl; eassumption.
Qed.

Lemma ElementsAs_converted A at_ (v : tflist A) target :
  ElementsAs at_ v = inl target -> converted v = target.
Proof.
  intros E. unfold converted. destruct v as [| |l]; simpl in *; try discriminate.
  - now inversion E.
  - apply elementsFrom_inl in E. subst l. now rewrite elementsFrom_map_TfKnown.
Qed.

Lemma converted_ListValueFrom A (target : list A) : converted (ListValueFrom target) = target.
Proof. unfold converted. now rewrite ElementsAs_ListValueFrom. Qed.

Lemma Elements_ListValueFrom A (target : list A) :
  Elements (ListValueFrom target) = map (@TfKnown A) target.
Proof. reflexivity. Qed.

(** The diagnostic of a conversion that fails bears the path of a value. *)
Lemma elementsFrom_inr A at_ : forall (l : list (tfvalue A)) i d,
  elementsFrom at_ i l = inr d ->
  diag_path d <> None /\ diag_summary d = "Value Conversion Error".
Proof.
  induction l as [|[| |a] l IH]; intros i d E; simpl in E; try discriminate.
  - inversion E; subst. split; [discriminate | reflexivity].
  - inversion E; subst. split; [discriminate | reflexivity].
  - destruct (elementsFrom at_ (S i) l) as [t|d'] eqn:El; [discriminate|].
    inversion E; subst. eapply IH; eassumption.
Qed.

Lemma ElementsAs_inr A at_ (v : tflist A) d :
  ElementsAs at_ v = inr d ->
  diag_path d <> None /\ diag_summary d = "Value Conversion Error".
Proof.
  destruct v as [| |l]; simpl; intros E; try discriminate.
  - inversion E; subst. split; [discriminate | reflexivity].
  - eapply elementsFrom_inr; eassumption.
Qed.

(** A list value whose conversion yields an element converts without error. *)
Lemma converted_In_ElementsAs A at_ (v : tflist A) d :
  In d (converted v) -> ElementsAs at_ v = inl (converted v).
Proof.
  unfold converted. destruct v as [| |l]; simpl; try contradiction.
  destruct (elementsFrom AtListIndex 0 l) as [t|e] eqn:El; [|contradiction].
  intros _. apply elementsFrom_inl in El. subst l. apply elementsFrom_map_TfKnown.
Qed.


(** ** The monad of the hooks *)

Section MonadFacts.
Context {W : Type} `{OpenCTIAPIClient W}.

Lemma bind_Done_inv {A B} (m : M W A) (k : A -> M W B) s b s' :
  bind m k s = (Done b, s') ->
  exists a s1, m s = (Done a, s1) /\ k a s1 = (Done b, s').
Proof.
  unfold bind. destruct (m s) as [[a|d|msg] s1]; intros E; try discriminate.
  now exists a, s1.
Qed.

Lemma bind_ext {A B} (m : M W A) (k k' : A -> M W B) s :
  (forall a s1, m s = (Done a, s1) -> k a s1 = k' a s1) ->
  bind m k s = bind m k' s.
Proof.
  unfold bind. intros E. destruct (m s) as [[a|d|msg] s1]; auto.
Qed.

Lemma call_Done_inv c onError s (a : Resp c) s' :
  call c onError s = (Done a, s') ->
  exists w', exec c (fst s) = (Reply a, w') /\ s' = (w', snd s ++ [ok c a]).
Proof.
  unfold call. destruct (exec c (fst s)) as [[a'|err] w']; intros E;
    inversion E; subst. now exists w'.
Qed.

Lemma orReturn_Done {A} (target : A + Diagnostic) (s : St W) a s' :
  orReturn target s = (Done a, s') -> target = inl a /\ s' = s.
Proof.
  destruct target as [a'|d]; simpl; intros E; inversion E; subst. now split.
Qed.

Lemma orReturn_inl {A} (a : A) (s : St W) : orReturn (inl a) s = (Done a, s).
Proof. reflexivity. Qed.

(** The conversion of the planned workflows of a status template, guarded
    by the test that they are neither null nor unknown. *)
Lemma workflows_Done {A} (v : tflist A) (s : St W) a s' :
  (if negb (IsNull v) && negb (IsUnknown v)
   then orReturn (ElementsAs AtListIndex v) else ret []) s = (Done a, s') ->
  s' = s /\ Elements v = map (@TfKnown A) a.
Proof.
  destruct v as [| |l]; simpl; intros E.
  - inversion E; subst. now split.
  - inversion E; subst. now split.
  - apply orReturn_Done in E. destruct E as [E ->]. split; [reflexivity|].
    eapply elementsFrom_inl; eassumption.
Qed.

Lemma for_range_nil {A B} (body : B -> A -> M W B) acc s :
  for_range [] body acc s = (Done acc, s).
Proof. reflexivity. Qed.

Lemma for_range_cons {A B} x l (body : B -> A -> M W B) acc :
  for_range (x :: l) body acc = bind (body acc x) (for_range l body).
Proof. reflexivity. Qed.

Lemma for_range_app {A B} l1 : forall l2 (body : B -> A -> M W B) acc s,
  for_range (l1 ++ l2) body acc s = bind (for_range l1 body acc) (for_range l2 body) s.
Proof.
  induction l1 as [|x l1 IH]; intros l2 body acc s; simpl; [reflexivity|].
  unfold bind.
  destruct (body acc x s) as [[a|d|msg] s1]; try reflexivity.
  rewrite IH. reflexivity.
Qed.

(** Two loops whose bodies agree on the elements traversed agree. *)
Lemma for_range_ext {A B} (l : list A) (body body' : B -> A -> M W B) :
  (forall acc x s, In x l -> body acc x s = body' acc x s) ->
  forall acc s, for_range l body acc s = for_range l body' acc s.
Proof.
  induction l as [|x l IH]; intros E acc s; simpl; [reflexivity|].
  unfold bind. rewrite (E acc x s (or_introl eq_refl)).
  destruct (body' acc x s) as [[a|d|msg] s1]; try reflexivity.
  apply IH. intros; apply E; now right.
Qed.

(** Elements on which the body does nothing can be left out of the loop. *)
Lemma for_range_filter {A B} (keep : A -> bool) (l : list A) (body : B -> A -> M W B) :
  (forall acc x s, In x l -> keep x = false -> body acc x s = (Done acc, s)) ->
  forall acc s, for_range (filter keep l) body acc s = for_range l body acc s.
Proof.
  induction l as [|x l IH]; intros E acc s; simpl; [reflexivity|].
  destruct (keep x) eqn:K; simpl; unfold bind.
  - destruct (body acc x s) as [[a|d|msg] s1]; try reflexivity.
    apply IH. intros ? ? ? Hin Hk; apply E; [now right | exact Hk].
  - rewrite (E acc x s (or_introl eq_refl) K). apply IH.
    intros ? ? ? Hin Hk; apply E; [now right | exact Hk].
Qed.

Lemma extends_ret {A} (a : A) : extends (ret a).
Proof. intros s out s' E. inversion E; subst. exists []. now rewrite app_nil_r. Qed.

Lemma extends_fail {A} d : extends (@fail W A d).
Proof. intros s out s' E. inversion E; subst. exists []. now rewrite app_nil_r. Qed.

Lemma extends_panic {A} msg : extends (@panic W A msg).
Proof. intros s out s' E. inversion E; subst. exists []. now rewrite app_nil_r. Qed.

Lemma extends_orReturn {A} (target : A + Diagnostic) : extends (orReturn target).
Proof. destruct target; [apply extends_ret | apply extends_fail]. Qed.

Lemma extends_call c onError : extends (call c onError).
Proof.
  intros s out s' E. unfold call in E.
  destruct (exec c (fst s)) as [[a|err] w']; inversion E; subst; simpl; eauto.
Qed.

Lemma extends_bind {A B} (m : M W A) (k : A -> M W B) :
  extends m -> (forall a, extends (k a)) -> extends (bind m k).
Proof.
  intros Hm Hk s out s' E. unfold bind in E.
  destruct (m s) as [[a|d|msg] s1] eqn:Em.
  - destruct (Hm _ _ _ Em) as [d1 E1]. destruct (Hk a _ _ _ E) as [d2 E2].
    exists (d1 ++ d2). now rewrite E2, E1, app_assoc.
  - inversion E; subst. eapply Hm; eassumption.
  - inversion E; subst. eapply Hm; eassumption.
Qed.

Lemma extends_for_range {A B} (l : list A) (body : B -> A -> M W B) :
  (forall acc x, extends (body acc x)) -> forall acc, extends (for_range l body acc).
Proof.
  intros Hb. induction l as [|x l IH]; intros acc; simpl.
  - apply extends_ret.
  - apply extends_bind; auto.
Qed.

Lemma extends_if {A} (b : bool) (m1 m2 : M W A) :
  extends m1 -> extends m2 -> extends (if b then m1 else m2).
Proof. now destruct b. Qed.

End MonadFacts.

(** Every loop and call of the hooks only appends to the journal. *)
Ltac extends_tac :=
  unfold groupResource.removeRoles, groupResource.addRoles,
    groupResource.removeMarkings, groupResource.addMarkings,
    userResource.removeGroups, userResource.addGroups,
    roleResource.removeCapabilities, roleResource.addCapabilities;
  repeat first
    [ apply extends_ret | apply extends_fail | apply extends_panic
    | apply extends_orReturn
    | apply extends_call
    | apply extends_bind
    | apply extends_for_range
    | apply extends_if
    | match goal with
      | |- extends (call ?c ?e) => exact (extends_call c e)
      | |- forall _, _ => intro
      | |- extends (match ?x with _ => _ end) => destruct x
      end ].

(** ** The loops of the update hooks *)

Lemma retained_app plan l1 l2 :
  retained plan (l1 ++ l2) = retained plan l1 ++ retained plan l2.
Proof. apply filter_app. Qed.

(** One step of a hook that ended normally, split off. *)
Ltac step_Done H :=
  let a := fresh "a" in
  let s1 := fresh "s" in
  let E1 := fresh "E" in
  apply bind_Done_inv in H; destruct H as (a & s1 & E1 & H).

Ltac call_Done H :=
  let w' := fresh "w" in
  let E := fresh "Ex" in
  apply call_Done_inv in H; destruct H as (w' & E & H).

(** The conversion of a planned list in a hook that ended normally: the
    slice is the converted list. *)
Ltac convert_Done H :=
  let Hc := fresh "Hc" in
  apply orReturn_Done in H; destruct H as [Hc ->];
  pose proof (ElementsAs_Elements _ _ Hc);
  apply ElementsAs_converted in Hc; subst.

(** The removal loops: a loop that ends normally kept the names the plan
    holds and issued one unassign call per other edge, in the order read. *)
Ltac remove_loop_tac IH :=
  simpl; unfold bind at 1;
  match goal with
  | |- context [slices_Contains ?plan ?n] => destruct (slices_Contains plan n) eqn:?
  end; simpl;
  [ intros acc0 s acc s' E; apply IH in E; destruct E as [-> ->];
    split; [now rewrite <- app_assoc | reflexivity]
  | unfold bind at 1;
    intros acc0 s acc s' E;
    match type of E with
    | context [call ?c ?onError s] =>
        destruct (call c onError s) as [[u|d|msg] s1] eqn:Ec; try discriminate;
        apply call_Done_inv in Ec; destruct Ec as (w' & _ & ->); destruct u
    end;
    apply IH in E; destruct E as [-> ->];
    split; [reflexivity | simpl; now rewrite <- app_assoc] ].

Lemma named_Some A (name : A -> string) n listing x :
  named name n listing = Some x -> name x = n /\ In x listing.
Proof.
  unfold named. intros E. apply find_some in E. destruct E as [Hin Heq].
  apply String.eqb_eq in Heq. now split.
Qed.

Lemma named_None A (name : A -> string) n listing :
  named name n listing = None -> ~ In n (map name listing).
Proof.
  unfold named. intros E Hin. apply in_map_iff in Hin. destruct Hin as (x & <- & Hin).
  pose proof (find_none _ _ E x Hin) as Hx. simpl in Hx.
  now rewrite String.eqb_refl in Hx.
Qed.

Lemma named_contains A (name : A -> string) n listing :
  slices_Contains (map name listing) n
  = match named name n listing with Some _ => true | None => false end.
Proof.
  destruct (named name n listing) as [x|] eqn:E.
  - apply named_Some in E. destruct E as [<- Hin].
    apply slices_Contains_In, in_map, Hin.
  - apply slices_Contains_not_In. now apply named_None.
Qed.

(** The addition loops: a loop that ends normally appended the planned names
    it resolved and issued one assign call for each. *)
Ltac add_loop_tac IH E :=
  let En := fresh "En" in
  let Ec := fresh "Ec" in
  let Hn := fresh "Hn" in
  let x := fresh "x" in
  let u := fresh "u" in
  let w' := fresh "w" in
  simpl in E |- *; unfold bind at 1 in E;
  match type of E with
  | context [slices_Contains ?acc0 ?d] => destruct (slices_Contains acc0 d) eqn:?
  end; simpl in E |- *;
  [ apply IH in E; exact E
  | rewrite named_contains;
    match type of E with
    | context [find ?f ?l] =>
        match goal with
        | |- context [named ?name ?d l] =>
            change (find f l) with (named name d l) in E;
            destruct (named name d l) as [x|] eqn:En
        end
    end;
    [ unfold bind at 1 in E;
      match type of E with
      | context [call ?c ?onError ?s] =>
          destruct (call c onError s) as [[u| |] ?] eqn:Ec; try discriminate;
          apply call_Done_inv in Ec; destruct Ec as (w' & _ & ->); destruct u
      end;
      destruct (named_Some _ _ _ En) as [Hn _];
      apply IH in E; destruct E as [-> ->]; simpl;
      rewrite Hn; split; [reflexivity | now rewrite <- app_assoc]
    | apply IH in E; exact E ] ].

Section GroupLoops.
Context {W : Type} `{OpenCTIAPIClient W}.
Import groupResource.

Lemma removeRoles_Done group plan s acc s' :
  removeRoles group plan s = (Done acc, s') ->
  acc = retained plan (map Role.Name (nodes (Group.Roles group))) /\
  snd s' = snd s ++
    map (fun role => ok (UnassignRole (Group.ID group) (Role.ID role)) tt)
        (filter (fun role => negb (slices_Contains plan (Role.Name role)))
                (nodes (Group.Roles group))).
Proof.
  unfold removeRoles.
  match goal with
  | |- for_range _ ?body [] s = _ -> _ =>
      assert (G : forall l acc0 s acc s',
                 for_range l body acc0 s = (Done acc, s') ->
                 acc = acc0 ++ retained plan (map Role.Name l) /\
                 snd s' = snd s ++
                   map (fun role => ok (UnassignRole (Group.ID group) (Role.ID role)) tt)
                       (filter (fun role => negb (slices_Contains plan (Role.Name role))) l))
  end.
  { clear. induction l as [|x l IH].
    - intros acc0 s acc s' E. inversion E; subst. simpl. now rewrite !app_nil_r.
    - remove_loop_tac IH. }
  apply G.
Qed.

Lemma addRoles_Done group plan existingRoles : forall acc0 s acc s',
  addRoles group plan existingRoles acc0 s = (Done acc, s') ->
  acc = afterAdd plan (map Role.Name existingRoles) acc0 /\
  snd s' = snd s ++
    map (fun role => ok (AssignRole (Group.ID group) (Role.ID role)) tt)
        (toAssign Role.Name plan existingRoles acc0).
Proof.
  unfold addRoles, roleNamed. induction plan as [|d plan IH]; intros acc0 s acc s' E.
  - inversion E; subst. simpl. now rewrite app_nil_r.
  - add_loop_tac IH E.
Qed.

Lemma removeMarkings_Done group plan s acc s' :
  removeMarkings group plan s = (Done acc, s') ->
  acc = retained plan (map MarkingDefinition.Definition_ (Group.AllowedMarking group)) /\
  snd s' = snd s ++
    map (fun marking =>
           ok (UnassignMarkingDefinition (Group.ID group) (MarkingDefinition.ID marking)) tt)
        (filter (fun marking =>
                   negb (slices_Contains plan (MarkingDefinition.Definition_ marking)))
                (Group.AllowedMarking group)).
Proof.
  unfold removeMarkings.
  match goal with
  | |- for_range _ ?body [] s = _ -> _ =>
      assert (G : forall l acc0 s acc s',
                 for_range l body acc0 s = (Done acc, s') ->
                 acc = acc0 ++ retained plan (map MarkingDefinition.Definition_ l) /\
                 snd s' = snd s ++
                   map (fun marking =>
                          ok (UnassignMarkingDefinition (Group.ID group)
                                (MarkingDefinition.ID marking)) tt)
                       (filter (fun marking =>
                                  negb (slices_Contains plan
                                          (MarkingDefinition.Definition_ marking))) l))
  end.
  { clear. induction l as [|x l IH].
    - intros acc0 s acc s' E. inversion E; subst. simpl. now rewrite !app_nil_r.
    - remove_loop_tac IH. }
  apply G.
Qed.

Lemma addMarkings_Done group plan existingMarkings : forall acc0 s acc s',
  addMarkings group plan existingMarkings acc0 s = (Done acc, s') ->
  acc = afterAdd plan (map MarkingDefinition.Definition_ existingMarkings) acc0 /\
  snd s' = snd s ++
    map (fun marking =>
           ok (AssignMarkingDefinition (Group.ID group) (MarkingDefinition.ID marking)) tt)
        (toAssign MarkingDefinition.Definition_ plan existingMarkings acc0).
Proof.
  unfold addMarkings, markingNamed. induction plan as [|d plan IH]; intros acc0 s acc s' E.
  - inversion E; subst. simpl. now rewrite app_nil_r.
  - add_loop_tac IH E.
Qed.

End GroupLoops.

Section UserLoops.
Context {W : Type} `{OpenCTIAPIClient W}.
Import userResource.

Lemma removeGroups_Done user plan s acc s' :
  removeGroups user plan s = (Done acc, s') ->
  acc = retained plan (map Group.Name (nodes (User.Groups user))) /\
  snd s' = snd s ++
    map (fun group => ok (UnassignGroup (User.ID user) (Group.ID group)) tt)
        (filter (fun group => negb (slices_Contains plan (Group.Name group)))
                (nodes (User.Groups user))).
Proof.
  unfold removeGroups.
  match goal with
  | |- for_range _ ?body [] s = _ -> _ =>
      assert (G : forall l acc0 s acc s',
                 for_range l body acc0 s = (Done acc, s') ->
                 acc = acc0 ++ retained plan (map Group.Name l) /\
                 snd s' = snd s ++
                   map (fun group => ok (UnassignGroup (User.ID user) (Group.ID group)) tt)
                       (filter (fun group => negb (slices_Contains plan (Group.Name group))) l))
  end.
  { clear. induction l as [|x l IH].
    - intros acc0 s acc s' E. inversion E; subst. simpl. now rewrite !app_nil_r.
    - remove_loop_tac IH. }
  apply G.
Qed.

Lemma addGroups_Done user plan existingGroups : forall acc0 s acc s',
  addGroups user plan existingGroups acc0 s = (Done acc, s') ->
  acc = afterAdd plan (map Group.Name existingGroups) acc0 /\
  snd s' = snd s ++
    map (fun group => ok (AssignGroup (User.ID user) (Group.ID group)) tt)
        (toAssign Group.Name plan existingGroups acc0).
Proof.
  unfold addGroups, groupNamed. induction plan as [|d plan IH]; intros acc0 s acc s' E.
  - inversion E; subst. simpl. now rewrite app_nil_r.
  - add_loop_tac IH E.
Qed.

End UserLoops.

Section RoleLoops.
Context {W : Type} `{OpenCTIAPIClient W}.
Import roleResource.

Lemma removeCapabilities_Done role plan s acc s' :
  removeCapabilities role plan s = (Done acc, s') ->
  acc = retained plan (map Capability.Name (Role.Capabilities role)) /\
  snd s' = snd s ++
    map (fun capability =>
           ok (UnassignCapability (Role.ID role) (Capability.ID capability)) tt)
        (filter (fun capability => negb (slices_Contains plan (Capability.Name capability)))
                (Role.Capabilities role)).
Proof.
  unfold removeCapabilities.
  match goal with
  | |- for_range _ ?body [] s = _ -> _ =>
      assert (G : forall l acc0 s acc s',
                 for_range l body acc0 s = (Done acc, s') ->
                 acc = acc0 ++ retained plan (map Capability.Name l) /\
                 snd s' = snd s ++
                   map (fun capability =>
                          ok (UnassignCapability (Role.ID role) (Capability.ID capability)) tt)
                       (filter (fun capability =>
                                  negb (slices_Contains plan (Capability.Name capability))) l))
  end.
  { clear. induction l as [|x l IH].
    - intros acc0 s acc s' E. inversion E; subst. simpl. now rewrite !app_nil_r.
    - remove_loop_tac IH. }
  apply G.
Qed.

(** The addition loop of the role: every planned name not yet held is
    appended, whatever [IDsByNames] answered for it, and the identity assigned
    is the one at the position of the name. *)
Lemma addCapabilities_loop role ids L : forall l k acc0 s acc s',
  (forall d, In d l -> In d L) ->
  for_range (combine (seq k (List.length l)) l)
    (fun capabilitiesOfRole (ic : nat * string) =>
       let '(i, capability) := ic in
       if negb (slices_Contains capabilitiesOfRole capability) then
         match nth_error ids i with
         | None => panic "runtime error: index out of range"
         | Some capabilityID =>
             call (AssignCapability (Role.ID role) capabilityID)
               (fun err => AddError "Error assigning capability to role" err) ;;;
             ret (capabilitiesOfRole ++ [capability])
         end
       else ret capabilitiesOfRole) acc0 s = (Done acc, s') ->
  acc = afterAdd l L acc0 /\
  snd s' = snd s ++
    map (fun i => ok (AssignCapability (Role.ID role) (nth i ids EmptyString)) tt)
        (positionsToAssign (combine (seq k (List.length l)) l) acc0) /\
  Forall (fun i => i < List.length ids)
         (positionsToAssign (combine (seq k (List.length l)) l) acc0).
Proof.
  induction l as [|d l IH]; intros k acc0 s acc s' HL E.
  - inversion E; subst. simpl. rewrite app_nil_r. auto.
  - simpl in E |- *. unfold bind at 1 in E.
    assert (HdL : slices_Contains L d = true)
      by (apply slices_Contains_In, HL; now left).
    assert (HL' : forall d', In d' l -> In d' L) by (intros; apply HL; now right).
    rewrite HdL, andb_true_r.
    destruct (slices_Contains acc0 d) eqn:Hc; simpl in E |- *.
    + apply IH in E; auto.
    + destruct (nth_error ids k) as [cid|] eqn:En; [|discriminate].
      unfold bind at 1 in E.
      match type of E with
      | context [call ?c ?onError ?s] =>
          destruct (call c onError s) as [[u| |] ?] eqn:Ec; try discriminate;
          apply call_Done_inv in Ec; destruct Ec as (w' & _ & ->); destruct u
      end.
      apply IH in E; auto. destruct E as (-> & -> & HF). simpl.
      rewrite (nth_error_nth _ _ EmptyString En).
      split; [reflexivity|]. split; [now rewrite <- app_assoc|].
      constructor; [|exact HF]. apply nth_error_Some. congruence.
Qed.

Lemma addCapabilities_Done role plan ids acc0 s acc s' :
  addCapabilities role plan ids acc0 s = (Done acc, s') ->
  acc = afterAdd plan plan acc0 /\
  snd s' = snd s ++
    map (fun i => ok (AssignCapability (Role.ID role) (nth i ids EmptyString)) tt)
        (positionsToAssign (indexed plan) acc0) /\
  Forall (fun i => i < List.length ids) (positionsToAssign (indexed plan) acc0).
Proof.
  unfold addCapabilities, indexed. apply addCapabilities_loop. auto.
Qed.

End RoleLoops.

(** ** The update hooks that end normally *)

Section UpdateHooks.
Context {W : Type} `{OpenCTIAPIClient W}.

(** Update of a group: the journal of the run and the state it returns. *)
Lemma groupResource_Update_Done plan now w st w' j :
  run (groupResource.Update plan now) w = (Done st, (w', j)) ->
  exists group existingRoles existingMarkings,
    j = groupUpdateJournal plan group existingRoles existingMarkings /\
    st = {| groupResource.ID := groupResource.ID plan;
            groupResource.Name := groupResource.Name plan;
            groupResource.Description := groupResource.Description plan;
            groupResource.Roles :=
              ListValueFrom
                (sort_Strings
                   (afterAdd (converted (groupResource.Roles plan))
                      (map Role.Name existingRoles)
                      (retained (converted (groupResource.Roles plan))
                         (map Role.Name (nodes (Group.Roles group))))));
            groupResource.AllowedMarking :=
              ListValueFrom
                (sort_Strings
                   (afterAdd (converted (groupResource.AllowedMarking plan))
                      (map MarkingDefinition.Definition_ existingMarkings)
                      (retained (converted (groupResource.AllowedMarking plan))
                         (map MarkingDefinition.Definition_
                            (Group.AllowedMarking group)))));
            groupResource.MaxConfidenceLevel := groupResource.MaxConfidenceLevel plan;
            groupResource.AutoNewMarking := groupResource.AutoNewMarking plan;
            groupResource.DefaultAssignation := groupResource.DefaultAssignation plan;
            groupResource.LastUpdated := now |}.
Proof.
  unfold run, groupResource.Update. intros E.
  step_Done E. call_Done E0. subst. rename a into group.
  step_Done E. convert_Done E0.
  step_Done E. apply removeRoles_Done in E0. destruct E0 as [-> J1].
  step_Done E. call_Done E0. subst. rename a into existingRoles.
  step_Done E. apply addRoles_Done in E0. destruct E0 as [-> J2].
  step_Done E. convert_Done E0.
  step_Done E. apply removeMarkings_Done in E0. destruct E0 as [-> J3].
  step_Done E. call_Done E0. subst. rename a into existingMarkings.
  step_Done E. apply addMarkings_Done in E0. destruct E0 as [-> J4].
  inversion E; subst. exists group, existingRoles, existingMarkings.
  split; [|reflexivity].
  simpl in J2, J4. rewrite J4, J3, J2, J1. simpl.
  unfold groupUpdateJournal. simpl. rewrite <- !app_assoc. reflexivity.
Qed.

(** Update of a user. *)
Lemma userResource_Update_Done plan now w st w' j :
  run (userResource.Update plan now) w = (Done st, (w', j)) ->
  exists user existingGroups,
    j = userUpdateJournal plan user existingGroups /\
    st = {| userResource.ID := userResource.ID plan;
            userResource.Name := userResource.Name plan;
            userResource.UserEmail := userResource.UserEmail plan;
            userResource.APIToken := userResource.APIToken plan;
            userResource.Groups :=
              ListValueFrom
                (sort_Strings
                   (afterAdd (converted (userResource.Groups plan))
                      (map Group.Name existingGroups)
                      (retained (converted (userResource.Groups plan))
                         (map Group.Name (nodes (User.Groups user))))));
            userResource.UserConfidenceLevel := userResource.UserConfidenceLevel plan;
            userResource.LastUpdated := now |}.
Proof.
  unfold run, userResource.Update. intros E.
  step_Done E. call_Done E0. subst. rename a into user.
  step_Done E. convert_Done E0.
  step_Done E. apply removeGroups_Done in E0. destruct E0 as [-> J1].
  step_Done E. call_Done E0. subst. rename a into existingGroups.
  step_Done E. apply addGroups_Done in E0. destruct E0 as [-> J2].
  inversion E; subst. exists user, existingGroups.
  split; [|reflexivity].
  simpl in J2. rewrite J2, J1. simpl.
  unfold userUpdateJournal. simpl. rewrite <- !app_assoc. reflexivity.
Qed.

(** Update of a role; every position read in the answer of [IDsByNames] was
    within it (the hook panics otherwise). *)
Lemma roleResource_Update_Done plan now w st w' j :
  run (roleResource.Update plan now) w = (Done st, (w', j)) ->
  exists role capabilitiesIDs,
    j = roleUpdateJournal plan role capabilitiesIDs /\
    Forall (fun i => i < List.length capabilitiesIDs)
      (positionsToAssign (indexed (converted (roleResource.Capabilities plan)))
         (retained (converted (roleResource.Capabilities plan))
            (map Capability.Name (Role.Capabilities role)))) /\
    st = {| roleResource.ID := roleResource.ID plan;
            roleResource.Name := roleResource.Name plan;
            roleResource.Capabilities :=
              ListValueFrom
                (sort_Strings
                   (afterAdd (converted (roleResource.Capabilities plan))
                      (converted (roleResource.Capabilities plan))
                      (retained (converted (roleResource.Capabilities plan))
                         (map Capability.Name (Role.Capabilities role)))));
            roleResource.LastUpdated := now |}.
Proof.
  unfold run, roleResource.Update. intros E.
  step_Done E. call_Done E0. subst. rename a into role.
  step_Done E. convert_Done E0.
  step_Done E. call_Done E0. subst. rename a into capabilitiesIDs.
  step_Done E. apply removeCapabilities_Done in E0. destruct E0 as [-> J1].
  step_Done E. apply addCapabilities_Done in E0. destruct E0 as (-> & J2 & HF).
  inversion E; subst. exists role, capabilitiesIDs.
  split; [|split; [exact HF | reflexivity]].
  simpl in J2. rewrite J2, J1. simpl.
  unfold roleUpdateJournal. simpl. rewrite <- ?app_assoc. reflexivity.
Qed.

(** An update that ends normally converted its planned lists. *)
Ltac converts_tac H :=
  let Hc := fresh "Hc" in
  apply orReturn_Done in H; destruct H as [Hc ->];
  rewrite Hc; f_equal; symmetry; eapply ElementsAs_converted; exact Hc.

Lemma groupResource_Update_converted plan now w st s' :
  run (groupResource.Update plan now) w = (Done st, s') ->
  ElementsAs AtListIndex (groupResource.Roles plan)
  = inl (converted (groupResource.Roles plan)) /\
  ElementsAs AtListIndex (groupResource.AllowedMarking plan)
  = inl (converted (groupResource.AllowedMarking plan)).
Proof.
  unfold run, groupResource.Update. intros E.
  step_Done E. clear E0. step_Done E. split; [converts_tac E0|].
  step_Done E. clear E1. step_Done E. clear E1. step_Done E. clear E1.
  step_Done E. converts_tac E1.
Qed.

Lemma userResource_Update_converted plan now w st s' :
  run (userResource.Update plan now) w = (Done st, s') ->
  ElementsAs AtListIndex (userResource.Groups plan)
  = inl (converted (userResource.Groups plan)).
Proof.
  unfold run, userResource.Update. intros E.
  step_Done E. clear E0. step_Done E. converts_tac E0.
Qed.

Lemma roleResource_Update_converted plan now w st s' :
  run (roleResource.Update plan now) w = (Done st, s') ->
  ElementsAs AtListIndex (roleResource.Capabilities plan)
  = inl (converted (roleResource.Capabilities plan)).
Proof.
  unfold run, roleResource.Update. intros E.
  step_Done E. clear E0. step_Done E. converts_tac E0.
Qed.

End UpdateHooks.

(** ** The loops compute the reconciliation of the specification *)

Lemma retained_In plan current x :
  In x (retained plan current) <-> In x current /\ In x plan.
Proof.
  unfold retained. rewrite filter_In, slices_Contains_In. reflexivity.
Qed.

Lemma difference_In a b x : In x (difference a b) <-> In x a /\ ~ In x b.
Proof.
  unfold difference. rewrite filter_In, negb_true_iff, slices_Contains_not_In.
  reflexivity.
Qed.

Lemma added_In C D L x : In x (added C D L) <-> In x D /\ ~ In x C /\ In x L.
Proof.
  unfold added. rewrite filter_In, difference_In, slices_Contains_In. tauto.
Qed.

Lemma In_string_dec (x : string) l : In x l \/ ~ In x l.
Proof. destruct (in_dec string_dec x l); auto. Qed.

Lemma afterAdd_In plan L : forall acc x,
  In x (afterAdd plan L acc) <-> In x acc \/ (In x plan /\ In x L).
Proof.
  induction plan as [|d plan IH]; intros acc x; simpl; [tauto|].
  rewrite IH.
  destruct (slices_Contains acc d) eqn:Hacc; simpl.
  - apply slices_Contains_In in Hacc. intuition (subst; auto).
  - destruct (slices_Contains L d) eqn:HL.
    + apply slices_Contains_In in HL. rewrite in_app_iff. simpl.
      intuition (subst; auto).
    + apply slices_Contains_not_In in HL. intuition (subst; tauto).
Qed.

(** The list a listing-based reconciliation returns is the reconciled list
    of the specification. *)
Lemma loops_Reconciled C D L :
  Reconciled C D L (sort_Strings (afterAdd D L (retained D C))).
Proof.
  split; [apply sort_Strings_sorted|]. intros x.
  rewrite sort_Strings_In, afterAdd_In, retained_In, added_In.
  unfold removed. rewrite difference_In.
  destruct (In_string_dec x C), (In_string_dec x D); tauto.
Qed.

(** Journals: what the entries of assign and unassign calls show. *)
Lemma flat_map_map_nil A B C (f : B -> list C) (g : A -> B) l :
  (forall x, f (g x) = []) -> flat_map f (map g l) = [].
Proof.
  intros E. induction l as [|x l IH]; simpl; [reflexivity|]. now rewrite E, IH.
Qed.

Lemma filter_map_all A B (p : B -> bool) (g : A -> B) l :
  (forall x, p (g x) = true) -> filter p (map g l) = map g l.
Proof.
  intros E. induction l as [|x l IH]; simpl; [reflexivity|]. now rewrite E, IH.
Qed.

Lemma filter_map_none A B (p : B -> bool) (g : A -> B) l :
  (forall x, p (g x) = false) -> filter p (map g l) = [].
Proof.
  intros E. induction l as [|x l IH]; simpl; [reflexivity|]. now rewrite E, IH.
Qed.


(** Reading an observation off a journal given by its shape. *)
Ltac observe :=
  repeat (rewrite ?flat_map_app, ?map_app, ?filter_app; simpl);
  repeat (rewrite ?flat_map_map_nil by reflexivity);
  repeat (rewrite ?map_map; simpl);
  repeat (rewrite ?filter_map_none by reflexivity);
  repeat (rewrite ?filter_map_all by reflexivity);
  rewrite ?app_nil_r, ?app_nil_l; simpl.

Lemma groupUpdateJournal_rolesRead plan group existingRoles existingMarkings :
  flat_map rolesRead (groupUpdateJournal plan group existingRoles existingMarkings)
  = nodes (Group.Roles group).
Proof. unfold groupUpdateJournal. observe. rewrite ?app_nil_r. reflexivity. Qed.

Lemma groupUpdateJournal_rolesListed plan group existingRoles existingMarkings :
  flat_map rolesListed (groupUpdateJournal plan group existingRoles existingMarkings)
  = existingRoles.
Proof. unfold groupUpdateJournal. observe. rewrite ?app_nil_r. reflexivity. Qed.

Lemma groupUpdateJournal_markingsRead plan group existingRoles existingMarkings :
  flat_map markingsRead (groupUpdateJournal plan group existingRoles existingMarkings)
  = Group.AllowedMarking group.
Proof. unfold groupUpdateJournal. observe. rewrite ?app_nil_r. reflexivity. Qed.

Lemma groupUpdateJournal_markingsListed plan group existingRoles existingMarkings :
  flat_map markingsListed (groupUpdateJournal plan group existingRoles existingMarkings)
  = existingMarkings.
Proof. unfold groupUpdateJournal. observe. rewrite ?app_nil_r. reflexivity. Qed.

Lemma userUpdateJournal_groupsRead plan user existingGroups :
  flat_map groupsRead (userUpdateJournal plan user existingGroups)
  = nodes (User.Groups user).
Proof. unfold userUpdateJournal. observe. rewrite ?app_nil_r. reflexivity. Qed.

Lemma userUpdateJournal_groupsListed plan user existingGroups :
  flat_map groupsListed (userUpdateJournal plan user existingGroups) = existingGroups.
Proof. unfold userUpdateJournal. observe. rewrite ?app_nil_r. reflexivity. Qed.

Lemma roleUpdateJournal_capabilitiesRead plan role capabilitiesIDs :
  flat_map capabilitiesRead (roleUpdateJournal plan role capabilitiesIDs)
  = Role.Capabilities role.
Proof. unfold roleUpdateJournal. observe. rewrite ?app_nil_r. reflexivity. Qed.

(** ** Reconciliation results *)

Lemma run_projection W `{OpenCTIAPIClient W} A B (m : M W A) (f : A -> B) w res s' :
  run (bind m (fun st => ret (f st))) w = (Done res, s') ->
  exists st, run m w = (Done st, s') /\ res = f st.
Proof.
  unfold run. intros E. apply bind_Done_inv in E. destruct E as (st & s1 & E1 & E2).
  inversion E2; subst. now exists st.
Qed.

(** Every planned name that the removal loop did not keep is read at its
    position by the addition loop of the role. *)
Lemma positionsToAssign_covers x : forall l k acc,
  In x l -> ~ In x acc ->
  exists i, In (k + i) (positionsToAssign (combine (seq k (List.length l)) l) acc) /\
            nth_error l i = Some x.
Proof.
  induction l as [|d l IH]; intros k acc Hin Hacc; [contradiction|].
  simpl. destruct (slices_Contains acc d) eqn:Hc; simpl.
  - apply slices_Contains_In in Hc.
    destruct Hin as [->|Hin]; [contradiction|].
    destruct (IH (S k) acc Hin Hacc) as (i & Hi & Hn).
    exists (S i). split; [now rewrite Nat.add_succ_r | exact Hn].
  - destruct (string_dec d x) as [->|Hne].
    + exists 0. split; [left; lia | reflexivity].
    + destruct Hin as [->|Hin]; [contradiction|].
      assert (Hacc' : ~ In x (acc ++ [d])).
      { rewrite in_app_iff. simpl. intuition. }
      destruct (IH (S k) (acc ++ [d]) Hin Hacc') as (i & Hi & Hn).
      exists (S i). split; [right; now rewrite Nat.add_succ_r | exact Hn].
Qed.

Lemma nth_error_firstn_In A (l : list A) i n x :
  nth_error l i = Some x -> i < n -> In x (firstn n l).
Proof.
  revert i n. induction l as [|y l IH]; intros [|i] [|n] E Hlt; simpl in *;
    try discriminate; try lia.
  - inversion E. now left.
  - right. apply (IH i n E). lia.
Qed.

Lemma firstn_In A (l : list A) n x : In x (firstn n l) -> In x l.
Proof.
  revert n. induction l as [|y l IH]; intros [|n]; simpl; try tauto.
  intros [->|Hin]; [now left | right; eauto].
Qed.

(** The list the update of a role returns is the reconciled list, the names
    that resolve being those at the positions the answer of [IDsByNames]
    covers. *)
Lemma role_Reconciled C D n :
  Forall (fun i => i < n) (positionsToAssign (indexed D) (retained D C)) ->
  Reconciled C D (firstn n D) (sort_Strings (afterAdd D D (retained D C))).
Proof.
  intros HF. split; [apply sort_Strings_sorted|]. intros x.
  rewrite sort_Strings_In, afterAdd_In, retained_In, added_In.
  unfold removed. rewrite difference_In.
  destruct (In_string_dec x C) as [HC|HC], (In_string_dec x D) as [HD|HD]; try tauto.
  assert (In x (firstn n D)); [|tauto].
  assert (Hacc : ~ In x (retained D C)) by (rewrite retained_In; tauto).
  destruct (positionsToAssign_covers x D 0 (retained D C) HD Hacc) as (i & Hi & Hn).
  rewrite Forall_forall in HF. apply HF in Hi. simpl in Hi.
  eapply nth_error_firstn_In; eassumption.
Qed.

Lemma roleUpdateJournal_listed plan role capabilitiesIDs :
  listed (OfRoleCapabilities plan) (roleUpdateJournal plan role capabilitiesIDs)
  = firstn (List.length capabilitiesIDs) (converted (roleResource.Capabilities plan)).
Proof.
  unfold listed, roleUpdateJournal. observe. rewrite ?app_nil_r. reflexivity.
Qed.





(** The list an update writes to state is the known list of the reconciled
    names. *)
Lemma update_Reconciled {W} {client : OpenCTIAPIClient W} {r : Reconciliation}
    {now : string} {w w' : W} {result : tflist string} {journal : list Entry} :
  run (update r now) w = (Done result, (w', journal)) ->
  exists names,
    result = ListValueFrom names /\
    Reconciled (current r journal) (desired r) (listed r journal) names.
Proof.
  revert w w' result journal. destruct r as [plan|plan|plan|plan]; intros w w' result journal E;
    apply run_projection in E; destruct E as (st & E & ->).
  - apply roleResource_Update_Done in E.
    destruct E as (role & ids & -> & HF & ->).
    eexists. split; [reflexivity|].
    rewrite roleUpdateJournal_listed. unfold current, desired.
    rewrite roleUpdateJournal_capabilitiesRead. simpl.
    now apply role_Reconciled.
  - apply groupResource_Update_Done in E.
    destruct E as (group & existingRoles & existingMarkings & -> & ->).
    eexists. split; [reflexivity|].
    unfold current, desired, listed.
    rewrite groupUpdateJournal_rolesRead, groupUpdateJournal_rolesListed. simpl.
    apply loops_Reconciled.
  - apply groupResource_Update_Done in E.
    destruct E as (group & existingRoles & existingMarkings & -> & ->).
    eexists. split; [reflexivity|].
    unfold current, desired, listed.
    rewrite groupUpdateJournal_markingsRead, groupUpdateJournal_markingsListed. simpl.
    apply loops_Reconciled.
  - apply userResource_Update_Done in E.
    destruct E as (user & existingGroups & -> & ->).
    eexists. split; [reflexivity|].
    unfold current, desired, listed.
    rewrite userUpdateJournal_groupsRead, userUpdateJournal_groupsListed. simpl.
    apply loops_Reconciled.
Qed.



(** ** An empty desired set *)







(** ** Desired names that match no entity *)

Lemma erase_In d plan x : In x (erase d plan) <-> In x plan /\ x <> d.
Proof.
  unfold erase. rewrite filter_In, negb_true_iff, String.eqb_neq.
  intuition congruence.
Qed.

Lemma erase_Contains d plan n :
  n <> d -> slices_Contains (erase d plan) n = slices_Contains plan n.
Proof.
  intros Hne. destruct (slices_Contains plan n) eqn:E.
  - apply slices_Contains_In. apply slices_Contains_In in E. now apply erase_In.
  - apply slices_Contains_not_In. apply slices_Contains_not_In in E.
    rewrite erase_In. tauto.
Qed.

Lemma extends_run {W} `{OpenCTIAPIClient W} {A} {m : M W A} {s out s'} :
  m s = (out, s') -> extends m -> exists delta, snd s' = snd s ++ delta.
Proof. intros E Hm. eapply Hm; eassumption. Qed.

(** Both runs take the same step; the hypothesis follows the run. *)
Ltac open_step E := unfold bind at 1 in E; unfold bind at 1.

Ltac split_step E :=
  match type of E with
  | context [match ?m ?s with _ => _ end] =>
      let Em := fresh "Em" in
      destruct (m s) as [[? | ? | ?] ?] eqn:Em; [ | exact E | exact E ]
  end;
  cbv beta in E |- *.

Ltac same_step E := open_step E; split_step E.

(** The conversion of the planned list, and of the list without the name. *)
Ltac converted_step E HD :=
  open_step E;
  rewrite (converted_In_ElementsAs AtListIndex _ _ HD) in E;
  rewrite ?ElementsAs_ListValueFrom, ?elementsFrom_map_TfKnown;
  cbn [orReturn ret] in E |- *.

(** After a call that succeeded: the journal of the run holds its entry. *)
Ltac after_call E Em Hj :=
  let w1 := fresh "w" in
  let delta := fresh "delta" in
  apply call_Done_inv in Em; destruct Em as (w1 & _ & ->); simpl in E |- *;
  destruct (extends_run E) as [delta Hj]; [extends_tac|]; simpl in Hj.

(** A name among those of an entry is among those of the journal holding it. *)
Ltac in_journal :=
  repeat (rewrite ?flat_map_app, ?map_app, ?in_app_iff; simpl);
  rewrite ?app_nil_r; tauto.

Section Unmatched.
Context {W : Type} `{OpenCTIAPIClient W}.

Lemma not_In_app_l A (x : A) l1 l2 : ~ In x (l1 ++ l2) -> ~ In x l1.
Proof. rewrite in_app_iff. tauto. Qed.

Lemma not_In_app_r A (x : A) l1 l2 : ~ In x (l1 ++ l2) -> ~ In x l2.
Proof. rewrite in_app_iff. tauto. Qed.

(** The removal loop does not look at a planned name no current edge bears. *)
Lemma removeRoles_erase group plan d s :
  ~ In d (map Role.Name (nodes (Group.Roles group))) ->
  groupResource.removeRoles group (erase d plan) s = groupResource.removeRoles group plan s.
Proof.
  intros Hd. unfold groupResource.removeRoles. apply for_range_ext.
  intros acc x s0 Hin. cbv beta. rewrite erase_Contains; [reflexivity|].
  intros E. apply Hd. rewrite <- E. now apply in_map.
Qed.

(** The addition loop skips a planned name the listing does not bear. *)
Lemma addRoles_erase group plan existingRoles d acc s :
  ~ In d (map Role.Name existingRoles) ->
  groupResource.addRoles group (erase d plan) existingRoles acc s
  = groupResource.addRoles group plan existingRoles acc s.
Proof.
  intros Hd. unfold groupResource.addRoles, erase. apply for_range_filter.
  intros acc0 x s0 _ Hx. apply negb_false_iff, String.eqb_eq in Hx. subst x.
  cbv beta. destruct (slices_Contains acc0 d); simpl; [reflexivity|].
  unfold groupResource.roleNamed.
  change (find (fun remoteRole => String.eqb d (Role.Name remoteRole)) existingRoles)
    with (named Role.Name d existingRoles).
  destruct (named Role.Name d existingRoles) as [x|] eqn:En; [|reflexivity].
  apply named_Some in En. destruct En as [<- Hin]. exfalso. apply Hd. now apply in_map.
Qed.

Lemma groupResource_Update_erase_role plan now d w out w' journal :
  groupResource.Update plan now (w, []) = (out, (w', journal)) ->
  In d (converted (groupResource.Roles plan)) ->
  ~ In d (map Role.Name (flat_map rolesListed journal)) ->
  ~ In d (map Role.Name (flat_map rolesRead journal)) ->
  groupResource.Update
    {| groupResource.ID := groupResource.ID plan;
       groupResource.Name := groupResource.Name plan;
       groupResource.Description := groupResource.Description plan;
       groupResource.Roles :=
         ListValueFrom (erase d (converted (groupResource.Roles plan)));
       groupResource.AllowedMarking := groupResource.AllowedMarking plan;
       groupResource.MaxConfidenceLevel := groupResource.MaxConfidenceLevel plan;
       groupResource.AutoNewMarking := groupResource.AutoNewMarking plan;
       groupResource.DefaultAssignation := groupResource.DefaultAssignation plan;
       groupResource.LastUpdated := groupResource.LastUpdated plan |} now (w, [])
  = (out, (w', journal)).
Proof.
  unfold groupResource.Update. simpl.
  intros E HD HL HC.
  same_step E. after_call E Em Hj.
  assert (HC' : ~ In d (map Role.Name (nodes (Group.Roles a)))).
  { intros X. apply HC. rewrite Hj. in_journal. }
  converted_step E HD.
  open_step E. rewrite removeRoles_erase by exact HC'. split_step E.
  same_step E. after_call E Em0 Hj'.
  assert (HL' : ~ In d (map Role.Name a1)).
  { intros X. apply HL. rewrite Hj'. in_journal. }
  open_step E. rewrite addRoles_erase by exact HL'. split_step E.
  exact E.
Qed.

Lemma removeMarkings_erase group plan d s :
  ~ In d (map MarkingDefinition.Definition_ (Group.AllowedMarking group)) ->
  groupResource.removeMarkings group (erase d plan) s
  = groupResource.removeMarkings group plan s.
Proof.
  intros Hd. unfold groupResource.removeMarkings. apply for_range_ext.
  intros acc x s0 Hin. cbv beta. rewrite erase_Contains; [reflexivity|].
  intros E. apply Hd. rewrite <- E. now apply in_map.
Qed.

Lemma addMarkings_erase group plan existingMarkings d acc s :
  ~ In d (map MarkingDefinition.Definition_ existingMarkings) ->
  groupResource.addMarkings group (erase d plan) existingMarkings acc s
  = groupResource.addMarkings group plan existingMarkings acc s.
Proof.
  intros Hd. unfold groupResource.addMarkings, erase. apply for_range_filter.
  intros acc0 x s0 _ Hx. apply negb_false_iff, String.eqb_eq in Hx. subst x.
  cbv beta. destruct (slices_Contains acc0 d); simpl; [reflexivity|].
  unfold groupResource.markingNamed.
  change (find (fun remoteMarking =>
                  String.eqb d (MarkingDefinition.Definition_ remoteMarking))
               existingMarkings)
    with (named MarkingDefinition.Definition_ d existingMarkings).
  destruct (named MarkingDefinition.Definition_ d existingMarkings) as [x|] eqn:En;
    [|reflexivity].
  apply named_Some in En. destruct En as [<- Hin]. exfalso. apply Hd. now apply in_map.
Qed.

Lemma groupResource_Update_erase_marking plan now d w out w' journal :
  groupResource.Update plan now (w, []) = (out, (w', journal)) ->
  In d (converted (groupResource.AllowedMarking plan)) ->
  ~ In d (map MarkingDefinition.Definition_ (flat_map markingsListed journal)) ->
  ~ In d (map MarkingDefinition.Definition_ (flat_map markingsRead journal)) ->
  groupResource.Update
    {| groupResource.ID := groupResource.ID plan;
       groupResource.Name := groupResource.Name plan;
       groupResource.Description := groupResource.Description plan;
       groupResource.Roles := groupResource.Roles plan;
       groupResource.AllowedMarking :=
         ListValueFrom (erase d (converted (groupResource.AllowedMarking plan)));
       groupResource.MaxConfidenceLevel := groupResource.MaxConfidenceLevel plan;
       groupResource.AutoNewMarking := groupResource.AutoNewMarking plan;
       groupResource.DefaultAssignation := groupResource.DefaultAssignation plan;
       groupResource.LastUpdated := groupResource.LastUpdated plan |} now (w, [])
  = (out, (w', journal)).
Proof.
  unfold groupResource.Update. simpl.
  intros E HD HL HC.
  same_step E. after_call E Em Hj.
  assert (HC' : ~ In d (map MarkingDefinition.Definition_ (Group.AllowedMarking a))).
  { intros X. apply HC. rewrite Hj. in_journal. }
  same_step E. same_step E. same_step E. same_step E.
  converted_step E HD.
  open_step E. rewrite removeMarkings_erase by exact HC'. split_step E.
  same_step E. after_call E Em4 Hj'.
  assert (HL' : ~ In d (map MarkingDefinition.Definition_ a5)).
  { intros X. apply HL. rewrite Hj'. in_journal. }
  open_step E. rewrite addMarkings_erase by exact HL'. split_step E.
  exact E.
Qed.

Lemma removeGroups_erase user plan d s :
  ~ In d (map Group.Name (nodes (User.Groups user))) ->
  userResource.removeGroups user (erase d plan) s = userResource.removeGroups user plan s.
Proof.
  intros Hd. unfold userResource.removeGroups. apply for_range_ext.
  intros acc x s0 Hin. cbv beta. rewrite erase_Contains; [reflexivity|].
  intros E. apply Hd. rewrite <- E. now apply in_map.
Qed.

Lemma addGroups_erase user plan existingGroups d acc s :
  ~ In d (map Group.Name existingGroups) ->
  userResource.addGroups user (erase d plan) existingGroups acc s
  = userResource.addGroups user plan existingGroups acc s.
Proof.
  intros Hd. unfold userResource.addGroups, erase. apply for_range_filter.
  intros acc0 x s0 _ Hx. apply negb_false_iff, String.eqb_eq in Hx. subst x.
  cbv beta. destruct (slices_Contains acc0 d); simpl; [reflexivity|].
  unfold userResource.groupNamed.
  change (find (fun remoteGroup => String.eqb d (Group.Name remoteGroup)) existingGroups)
    with (named Group.Name d existingGroups).
  destruct (named Group.Name d existingGroups) as [x|] eqn:En; [|reflexivity].
  apply named_Some in En. destruct En as [<- Hin]. exfalso. apply Hd. now apply in_map.
Qed.

Lemma userResource_Update_erase_group plan now d w out w' journal :
  userResource.Update plan now (w, []) = (out, (w', journal)) ->
  In d (converted (userResource.Groups plan)) ->
  ~ In d (map Group.Name (flat_map groupsListed journal)) ->
  ~ In d (map Group.Name (flat_map groupsRead journal)) ->
  userResource.Update
    {| userResource.ID := userResource.ID plan;
       userResource.Name := userResource.Name plan;
       userResource.UserEmail := userResource.UserEmail plan;
       userResource.APIToken := userResource.APIToken plan;
       userResource.Groups := ListValueFrom (erase d (converted (userResource.Groups plan)));
       userResource.UserConfidenceLevel := userResource.UserConfidenceLevel plan;
       userResource.LastUpdated := userResource.LastUpdated plan |} now (w, [])
  = (out, (w', journal)).
Proof.
  unfold userResource.Update. simpl.
  intros E HD HL HC.
  same_step E. after_call E Em Hj.
  assert (HC' : ~ In d (map Group.Name (nodes (User.Groups a)))).
  { intros X. apply HC. rewrite Hj. in_journal. }
  converted_step E HD.
  open_step E. rewrite removeGroups_erase by exact HC'. split_step E.
  same_step E. after_call E Em0 Hj'.
  assert (HL' : ~ In d (map Group.Name a1)).
  { intros X. apply HL. rewrite Hj'. in_journal. }
  open_step E. rewrite addGroups_erase by exact HL'. split_step E.
  exact E.
Qed.

(** A run of a hook followed by a projection of its state. *)
Lemma run_projection_inv A B (m : M W A) (f : A -> B) w out s' :
  run (bind m (fun st => ret (f st))) w = (out, s') ->
  exists out0, run m w = (out0, s') /\
    out = match out0 with
          | Done st => Done (f st)
          | Errored dg => Errored dg
          | Panicked msg => Panicked msg
          end.
Proof.
  unfold run, bind. destruct (m (w, [])) as [[st|dg|msg] s1]; intros E;
    inversion E; subst; eexists; split; reflexivity.
Qed.

Lemma run_projection_intro A B (m : M W A) (f : A -> B) w out0 s' :
  run m w = (out0, s') ->
  run (bind m (fun st => ret (f st))) w
  = (match out0 with
     | Done st => Done (f st)
     | Errored dg => Errored dg
     | Panicked msg => Panicked msg
     end, s').
Proof.
  unfold run, bind. intros ->. now destruct out0.
Qed.

End Unmatched.

(** C4, as the code has it.  Take a run of an association reconciliation and
    a desired name that matches no entity of the remote listing of that run
    (hence none the read returned).  For group roles, group markings and user
    groups the name is skipped without a diagnostic of its own: the run is,
    step for step, the run of the plan without the name (same outcome, same
    journal, same remote system), and the name is absent from the relation
    list of a run that ends normally.  For role capabilities the name is not
    dropped: the run does not end normally. *)
Theorem unmatched_name :
  forall (W : Type) (client : OpenCTIAPIClient W) (r : Reconciliation)
         (now : string) (w w' : W) (out : outcome (tflist string))
         (journal : list Entry) (d : string),
    run (update r now) w = (out, (w', journal)) ->
    In d (desired r) ->
    ~ In d (listed r journal) ->
    ~ In d (current r journal) ->
    if resolvesByListing r then
      run (update (withDesired r (erase d (desired r))) now) w = (out, (w', journal)) /\
      (forall result, out = Done result -> ~ In (TfKnown d) (Elements result))
    else
      forall result, out <> Done result.
Proof.
  intros W client [plan|plan|plan|plan] now w w' out journal d E HD HL HC; simpl.
  - intros result ->.
        apply run_projection in E. destruct E as (st & E & Hres).
    apply roleResource_Update_Done in E. destruct E as (role & ids & Hj & HF & Hst).
    subst journal. rewrite roleUpdateJournal_listed in HL.
    unfold current in HC. rewrite roleUpdateJournal_capabilitiesRead in HC.
    apply HL. simpl in HD.
    assert (Hacc : ~ In d (retained (converted (roleResource.Capabilities plan))
                             (map Capability.Name (Role.Capabilities role))))
      by (rewrite retained_In; tauto).
    destruct (positionsToAssign_covers d _ 0 _ HD Hacc) as (i & Hi & Hn).
    rewrite Forall_forall in HF. apply HF in Hi. simpl in Hi.
    eapply nth_error_firstn_In; eassumption.
  - split.
    + apply run_projection_inv in E. destruct E as (out0 & E & ->).
      apply run_projection_intro with (f := groupResource.Roles).
      now apply groupResource_Update_erase_role.
    + intros result ->.
      destruct (update_Reconciled E) as (names & -> & _ & HR).
      rewrite Elements_ListValueFrom, in_map_iff. intros (x & Hx & Hin).
      inversion Hx; subst x. revert Hin.
      rewrite HR, added_In. unfold removed. rewrite difference_In. tauto.
  - split.
    + apply run_projection_inv in E. destruct E as (out0 & E & ->).
      apply run_projection_intro with (f := groupResource.AllowedMarking).
      now apply groupResource_Update_erase_marking.
    + intros result ->.
      destruct (update_Reconciled E) as (names & -> & _ & HR).
      rewrite Elements_ListValueFrom, in_map_iff. intros (x & Hx & Hin).
      inversion Hx; subst x. revert Hin.
      rewrite HR, added_In. unfold removed. rewrite difference_In. tauto.
  - split.
    + apply run_projection_inv in E. destruct E as (out0 & E & ->).
      apply run_projection_intro with (f := userResource.Groups).
      now apply userResource_Update_erase_group.
    + intros result ->.
      destruct (update_Reconciled E) as (names & -> & _ & HR).
      rewrite Elements_ListValueFrom, in_map_iff. intros (x & Hx & Hin).
      inversion Hx; subst x. revert Hin.
      rewrite HR, added_In. unfold removed. rewrite difference_In. tauto.
Qed.


(** The sample group with the desired roles [admin] and [ghost]: no role is
    named [ghost], and the run is the run of the plan with [admin] alone. *)
Lemma unmatched_name_witness :
  exists out w' journal,
    run (update (OfGroupRoles Sample.groupPlan) "now") Sample.remote
    = (out, (w', journal)) /\
    run (update (withDesired (OfGroupRoles Sample.groupPlan) ["admin"]) "now")
        Sample.remote
    = (out, (w', journal)) /\
    (forall result, out = Done result -> ~ In (TfKnown "ghost") (Elements result)).
Proof.
  eexists. eexists. eexists. split; [vm_compute; reflexivity|].
  apply (@unmatched_name Backend.t Backend.client (OfGroupRoles Sample.groupPlan)
           "now" Sample.remote _ _ _ "ghost" eq_refl).
  - simpl. auto.
  - vm_compute. intuition discriminate.
  - vm_compute. intuition discriminate.
Defined.

(** C4 fails for role capabilities.  On the sample remote system no
    capability is named [NOPE]; the update of the role with that desired name
    reports the error of the resolution, where the update of the plan without
    the name ends normally. *)
Lemma unmatched_capability_reported :
  exists w' journal result w'' journal',
    run (update (OfRoleCapabilities Sample.rolePlanUnmatched) "now") Sample.remote
    = (Errored (AddError "Error retrieving capabilities IDs" "not found"),
       (w', journal)) /\
    In "NOPE" (desired (OfRoleCapabilities Sample.rolePlanUnmatched)) /\
    ~ In "NOPE" (listed (OfRoleCapabilities Sample.rolePlanUnmatched) journal) /\
    ~ In "NOPE" (current (OfRoleCapabilities Sample.rolePlanUnmatched) journal) /\
    run (update (withDesired (OfRoleCapabilities Sample.rolePlanUnmatched)
                   (erase "NOPE" ["KNOWLEDGE"; "NOPE"])) "now") Sample.remote
    = (Done result, (w'', journal')).
Proof.
  do 5 eexists. split; [vm_compute; reflexivity|].
  split; [simpl; auto|].
  split; [vm_compute; intuition discriminate|].
  split; [vm_compute; intuition discriminate|].
  vm_compute. reflexivity.
Qed.

(** ** Provider bootstrap *)

Section ConfigureFacts.
Import openctiProvider.
Variable C : Type.
Variable Getenv : string -> string.
Variable NewOpenCTIAPIClient : string -> string -> reply C.

Lemma unknownDiagnostics_nil config :
  unknownDiagnostics config = [] <->
  IsUnknown (URL config) = false /\ IsUnknown (Token config) = false.
Proof.
  unfold unknownDiagnostics.
  destruct (IsUnknown (URL config)), (IsUnknown (Token config)); simpl;
    split; try discriminate; intuition discriminate.
Qed.

Lemma unknownDiagnostics_all config :
  forallb isConfigurationError (unknownDiagnostics config) = true.
Proof.
  unfold unknownDiagnostics.
  destruct (IsUnknown (URL config)), (IsUnknown (Token config)); reflexivity.
Qed.

Lemma missingDiagnostics_nil url token :
  missingDiagnostics url token = [] <->
  String.eqb url EmptyString = false /\ String.eqb token EmptyString = false.
Proof.
  unfold missingDiagnostics.
  destruct (String.eqb url EmptyString), (String.eqb token EmptyString); simpl;
    split; try discriminate; intuition discriminate.
Qed.

Lemma missingDiagnostics_some url token :
  missingDiagnostics url token <> [] ->
  existsb isConfigurationError (missingDiagnostics url token) = true.
Proof.
  unfold missingDiagnostics.
  destruct (String.eqb url EmptyString), (String.eqb token EmptyString); simpl;
    congruence.
Qed.

Lemma HasError_nil diags : HasError diags = false <-> diags = [].
Proof. destruct diags; simpl; split; congruence. Qed.

(** What [Configure] does, by cases on the two settings. *)
Lemma Configure_cases config :
  let url := resolve (URL config) (Getenv "OPENCTI_URL") in
  let token := resolve (Token config) (Getenv "OPENCTI_TOKEN") in
  let resp := Configure Getenv NewOpenCTIAPIClient config in
  (unusable url || unusable token = true /\
   reportsConfigurationError resp = true /\ constructed resp = [] /\
   ResourceData resp = None /\ DataSourceData resp = None) \/
  (exists u t, url = Some u /\ token = Some t /\
     unusable url || unusable token = false /\
     reportsConfigurationError resp = false /\ constructed resp = [(u, t)] /\
     ResourceData resp = match NewOpenCTIAPIClient u t with
                         | Reply client => Some client
                         | Failure _ => None
                         end).
Proof.
  unfold Configure, resolvedURL, resolvedToken, reportsConfigurationError,
    missingDiagnostics, unknownDiagnostics.
  destruct config as [cu ct]; destruct cu as [| |u]; destruct ct as [| |t]; simpl;
    try (left; repeat split; try reflexivity; apply orb_true_r).
  - (* both from the environment *)
    destruct (String.eqb (Getenv "OPENCTI_URL") EmptyString) eqn:Eu;
      destruct (String.eqb (Getenv "OPENCTI_TOKEN") EmptyString) eqn:Et; simpl;
      try (left; repeat split; reflexivity).
    right. exists (Getenv "OPENCTI_URL"), (Getenv "OPENCTI_TOKEN").
    destruct (NewOpenCTIAPIClient _ _); simpl; repeat split; reflexivity.
  - destruct (String.eqb (Getenv "OPENCTI_URL") EmptyString) eqn:Eu;
      destruct (String.eqb t EmptyString) eqn:Et; simpl;
      try (left; repeat split; reflexivity).
    right. exists (Getenv "OPENCTI_URL"), t.
    destruct (NewOpenCTIAPIClient _ _); simpl; repeat split; reflexivity.
  - destruct (String.eqb u EmptyString) eqn:Eu;
      destruct (String.eqb (Getenv "OPENCTI_TOKEN") EmptyString) eqn:Et; simpl;
      try (left; repeat split; reflexivity).
    right. exists u, (Getenv "OPENCTI_TOKEN").
    destruct (NewOpenCTIAPIClient _ _); simpl; repeat split; reflexivity.
  - destruct (String.eqb u EmptyString) eqn:Eu;
      destruct (String.eqb t EmptyString) eqn:Et; simpl;
      try (left; repeat split; reflexivity).
    right. exists u, t.
    destruct (NewOpenCTIAPIClient _ _); simpl; repeat split; reflexivity.
Qed.

End ConfigureFacts.

(** C6.  [Configure] reports a configuration error and constructs no client
    exactly when one of the two settings, resolved from the explicit
    configuration value when the configuration sets one and from the
    same-named environment variable otherwise, is unknown at plan time or
    resolves to the empty string; a client that is constructed is constructed
    from the two resolved settings, so an explicit value wins over the
    environment. *)
Theorem Configure_configuration_error :
  forall (C : Type) (Getenv : string -> string)
         (NewOpenCTIAPIClient : string -> string -> reply C)
         (config : openctiProvider.openctiProviderModel),
    let url := openctiProvider.resolve (openctiProvider.URL config) (Getenv "OPENCTI_URL") in
    let token :=
      openctiProvider.resolve (openctiProvider.Token config) (Getenv "OPENCTI_TOKEN") in
    let resp := openctiProvider.Configure Getenv NewOpenCTIAPIClient config in
    ((openctiProvider.reportsConfigurationError resp = true /\
      openctiProvider.constructed resp = [])
     <-> (openctiProvider.unusable url = true \/ openctiProvider.unusable token = true)) /\
    (forall u t, openctiProvider.constructed resp = [(u, t)] ->
                 url = Some u /\ token = Some t) /\
    (forall u t env, openctiProvider.resolve (TfKnown u) env = Some u /\
                     (openctiProvider.URL config = TfKnown u ->
                      openctiProvider.Token config = TfKnown t ->
                      openctiProvider.constructed resp = [(u, t)] \/
                      openctiProvider.constructed resp = [])).
Proof.
  intros C Getenv New config. cbv zeta.
  pose proof (Configure_cases Getenv New config) as X. cbv zeta in X.
  destruct X as [(Hu & Hr & Hc & _) | (u & t & Eu & Et & Hu & Hr & Hc & _)].
  - split; [|split].
    + split; [intros _ | intros _; auto].
      apply orb_true_iff in Hu. exact Hu.
    + intros u t E. rewrite Hc in E. discriminate.
    + intros u t env. split; [reflexivity|]. intros _ _. now right.
  - split; [|split].
    + split.
      * intros [E _]. rewrite Hr in E. discriminate.
      * intros Hor. apply orb_true_iff in Hor. rewrite Hu in Hor. discriminate.
    + intros u' t' E. rewrite Hc in E. inversion E; subst. auto.
    + intros u' t' env. split; [reflexivity|]. intros EU ET. left.
      rewrite EU in Eu. rewrite ET in Et.
      simpl in Eu, Et. inversion Eu; inversion Et; subst. exact Hc.
Qed.

(** An explicit URL with the token left to the environment. *)
Lemma Configure_configuration_error_witness :
  openctiProvider.constructed
    (openctiProvider.Configure openctiProvider.sampleEnvironment
       openctiProvider.sampleClient
       {| openctiProvider.URL := TfKnown "http://localhost:8080";
          openctiProvider.Token := TfNull |})
  = [("http://localhost:8080", "secret")] /\
  openctiProvider.resolve (TfKnown "http://localhost:8080")
    (openctiProvider.sampleEnvironment "OPENCTI_URL") = Some "http://localhost:8080" /\
  openctiProvider.resolve TfNull (openctiProvider.sampleEnvironment "OPENCTI_TOKEN")
  = Some "secret".
Proof.
  split; [reflexivity|].
  exact (proj1 (proj2 (@Configure_configuration_error _
                         openctiProvider.sampleEnvironment openctiProvider.sampleClient
                         {| openctiProvider.URL := TfKnown "http://localhost:8080";
                            openctiProvider.Token := TfNull |}))
               "http://localhost:8080" "secret" eq_refl).
Defined.

(** ** Updates that do nothing, updates that create *)

(** The empty update hooks issue no call and leave the remote system and the
    recorded state as they were. *)
Lemma caseTemplate_Update_noop W (client : OpenCTIAPIClient W) plan state (w : W) :
  run (caseTemplateResource.Update plan state) w = (Done state, (w, [])).
Proof. reflexivity. Qed.

Lemma statusTemplate_Update_noop W (client : OpenCTIAPIClient W) plan state (w : W) :
  run (statusTemplateResource.Update plan state) w = (Done state, (w, [])).
Proof. reflexivity. Qed.

(** Every planned change of a case template is routed to replacement. *)
Lemma caseTemplate_change_replaces prior plan :
  caseTemplate_changed prior plan <> [] ->
  route caseTemplateResource_Schema (caseTemplate_changed prior plan) = Replace.
Proof.
  unfold caseTemplate_changed, changedIf.
  destruct (String.eqb _ _); destruct (String.eqb _ _); destruct (tflist_eqb _ _ _);
    simpl; intros Hne; try reflexivity; congruence.
Qed.

(** A planned change of the workflows of a status template is routed to
    replacement. *)
Lemma statusTemplate_workflows_change_replaces changed :
  In "workflows" changed ->
  route statusTemplateResource_Schema changed = Replace.
Proof.
  intros Hin. unfold route, requiresReplace, statusTemplateResource_Schema.
  apply slices_Contains_In in Hin. simpl. rewrite Hin. simpl.
  now rewrite !orb_true_r.
Qed.

(** C9, at the failing input.  A status template is recorded under the name
    [NEW]; the plan renames it to [OPEN].  The schema marks neither [name]
    nor [color] as requiring replacement, so the change is routed to the
    update hook, which issues no call and leaves state and remote system
    unchanged: the rename is neither applied in place nor handled as a
    replacement. *)
Theorem statusTemplate_rename_not_replaced :
  statusTemplate_changed Sample2.statusState Sample2.statusPlan = ["name"] /\
  route statusTemplateResource_Schema
    (statusTemplate_changed Sample2.statusState Sample2.statusPlan) = UpdateInPlace /\
  run (statusTemplateResource.Update Sample2.statusPlan Sample2.statusState) Sample.remote
  = (Done Sample2.statusState, (Sample.remote, [])) /\
  statusTemplateResource.Name Sample2.statusState
  <> statusTemplateResource.Name Sample2.statusPlan.
Proof.
  repeat split; try reflexivity. discriminate.
Qed.

(** The updates that reconcile relations write the planned identity back. *)
Lemma Update_keeps_identity W (client : OpenCTIAPIClient W) (w : W) now :
  (forall plan st s', run (roleResource.Update plan now) w = (Done st, s') ->
                      roleResource.ID st = roleResource.ID plan) /\
  (forall plan st s', run (groupResource.Update plan now) w = (Done st, s') ->
                      groupResource.ID st = groupResource.ID plan) /\
  (forall plan st s', run (userResource.Update plan now) w = (Done st, s') ->
                      userResource.ID st = userResource.ID plan).
Proof.
  repeat split; intros plan st [w' j] E.
  - apply roleResource_Update_Done in E. destruct E as (? & ? & _ & _ & ->). reflexivity.
  - apply groupResource_Update_Done in E. destruct E as (? & ? & ? & _ & ->). reflexivity.
  - apply userResource_Update_Done in E. destruct E as (? & ? & _ & ->). reflexivity.
Qed.

(** The updates of marking definition, task template and vocabulary issue
    the creation mutation and write the identity of its answer. *)
Lemma Update_by_creation W (client : OpenCTIAPIClient W) (w w' : W) now journal :
  (forall plan st,
     run (markingDefinitionResource.Update plan now) w = (Done st, (w', journal)) ->
     exists created,
       journal = [ok (CreateMarkingDefinition EmptyString
                        (markingDefinitionResource.addInput plan)) created] /\
       markingDefinitionResource.ID st = MarkingDefinition.ID created) /\
  (forall plan st,
     run (taskTemplateResource.Update plan now) w = (Done st, (w', journal)) ->
     exists created,
       journal = [ok (CreateTaskTemplate "id name description"
                        (taskTemplateResource.addInput plan)) created] /\
       taskTemplateResource.ID st = TaskTemplate.ID created) /\
  (forall plan st,
     run (vocabularyResource.Update plan now) w = (Done st, (w', journal)) ->
     exists created,
       journal = [ok (CreateVocabulary EmptyString
                        (vocabularyResource.addInput plan)) created] /\
       vocabularyResource.ID st = Vocabulary.ID created).
Proof.
  repeat split; intros plan st E; unfold run in E;
    [ unfold markingDefinitionResource.Update in E
    | unfold taskTemplateResource.Update in E
    | unfold vocabularyResource.Update in E ];
    step_Done E; call_Done E0; subst; inversion E; subst;
    eexists; split; reflexivity.
Qed.

(** C1, at the failing input.  The marking definition recorded under the
    identity [m2] is updated with a new colour: the hook issues the creation
    mutation, and the identity written to state is the one of the entity just
    created, not [m2]; the entity [m2] is left as it was.  The update of a
    task template does the same. *)
Theorem Update_replaces_identity :
  exists remote' remote'' st st',
    run (markingDefinitionResource.Update Sample2.markingPlan "now") Sample.remote
    = (Done st,
       (remote',
        [ok (CreateMarkingDefinition EmptyString
               (markingDefinitionResource.addInput Sample2.markingPlan))
            (MarkingDefinition.mk "id-0x7" "TLP" "TLP:RED" 4 "#ff0000")])) /\
    markingDefinitionResource.ID Sample2.markingPlan = "m2" /\
    markingDefinitionResource.ID st = "id-0x7" /\
    named MarkingDefinition.ID "m2" (Backend.markings remote')
    = named MarkingDefinition.ID "m2" (Backend.markings Sample.remote) /\
    run (taskTemplateResource.Update Sample2.taskPlan "now") Sample.remote
    = (Done st', (remote'', [ok (CreateTaskTemplate "id name description"
                                   (taskTemplateResource.addInput Sample2.taskPlan))
                                (TaskTemplate.mk "id-0x7" "triage" "second look")])) /\
    taskTemplateResource.ID Sample2.taskPlan = "t1" /\
    taskTemplateResource.ID st' = "id-0x7".
Proof.
  do 4 eexists. repeat split; vm_compute; reflexivity.
Qed.

(** ** What a read writes to the relational attributes *)





(** ** Creation of a user that exists already *)

Section Issuing.
Context {W : Type} `{OpenCTIAPIClient W}.

Lemma issuing_ret {A} P (a : A) : issuing P (ret a).
Proof.
  intros s out s' E. inversion E; subst. exists []. now rewrite app_nil_r.
Qed.

Lemma issuing_call P c onError : P c = true -> issuing P (call c onError).
Proof.
  intros HP s out s' E. unfold call in E.
  destruct (exec c (fst s)) as [[a|err] w1]; inversion E; subst; simpl;
    eexists; (split; [reflexivity|]); simpl; now rewrite HP.
Qed.

Lemma issuing_bind {A B} P (m : M W A) (k : A -> M W B) :
  issuing P m -> (forall a, issuing P (k a)) -> issuing P (bind m k).
Proof.
  intros Hm Hk s out s' E. unfold bind in E.
  destruct (m s) as [[a|d|msg] s1] eqn:Em.
  - destruct (Hm _ _ _ Em) as (d1 & E1 & F1).
    destruct (Hk a _ _ _ E) as (d2 & E2 & F2).
    exists (d1 ++ d2). split; [now rewrite E2, E1, app_assoc|].
    unfold calls in *. now rewrite map_app, forallb_app, F1, F2.
  - inversion E; subst. eapply Hm; eassumption.
  - inversion E; subst. eapply Hm; eassumption.
Qed.

Lemma issuing_for_range {A B} P (l : list A) (body : B -> A -> M W B) :
  (forall acc x, issuing P (body acc x)) -> forall acc, issuing P (for_range l body acc).
Proof.
  intros Hb. induction l as [|x l IH]; intros acc; simpl.
  - apply issuing_ret.
  - apply issuing_bind; auto.
Qed.

End Issuing.



Lemma forallb_impl A (p q : A -> bool) l :
  (forall x, p x = true -> q x = true) -> forallb p l = true -> forallb q l = true.
Proof.
  intros Hpq. induction l as [|x l IH]; simpl; [reflexivity|].
  intros E. apply andb_true_iff in E. destruct E as [Ex El].
  now rewrite (Hpq _ Ex), IH.
Qed.






(** ** Journals trace the remote system *)

Section Tracing.
Context {W : Type} `{OpenCTIAPIClient W}.

Lemma traced_app (w : W) j1 : forall j2 w',
  traced w (j1 ++ j2) w' <-> exists w1, traced w j1 w1 /\ traced w1 j2 w'.
Proof.
  revert w. induction j1 as [|e j1 IH]; intros w j2 w'; simpl.
  - split; [intros T; now exists w | intros (w1 & -> & T); exact T].
  - split.
    + intros (w1 & Ex & T). apply IH in T. destruct T as (w2 & T1 & T2).
      exists w2. split; [now exists w1 | exact T2].
    + intros (w2 & (w1 & Ex & T1) & T2). exists w1. split; [exact Ex|].
      apply IH. now exists w2.
Qed.

Lemma tracing_ret {A} (a : A) : tracing (ret a).
Proof.
  intros s out s' E. inversion E; subst. exists []. now rewrite app_nil_r.
Qed.

Lemma tracing_panic {A} msg : tracing (@panic W A msg).
Proof.
  intros s out s' E. inversion E; subst. exists []. now rewrite app_nil_r.
Qed.

Lemma tracing_orReturn {A} (target : A + Diagnostic) : tracing (@orReturn W A target).
Proof.
  destruct target; intros s out s' E; inversion E; subst; exists [];
    now rewrite app_nil_r.
Qed.

Lemma tracing_call c onError : tracing (call c onError).
Proof.
  intros s out s' E. unfold call in E.
  destruct (exec c (fst s)) as [[a|err] w1] eqn:Ex; inversion E; subst; simpl;
    eexists; (split; [reflexivity|]); simpl; exists w1; auto.
Qed.

Lemma tracing_bind {A B} (m : M W A) (k : A -> M W B) :
  tracing m -> (forall a, tracing (k a)) -> tracing (bind m k).
Proof.
  intros Hm Hk s out s' E. unfold bind in E.
  destruct (m s) as [[a|d|msg] s1] eqn:Em.
  - destruct (Hm _ _ _ Em) as (d1 & E1 & T1).
    destruct (Hk a _ _ _ E) as (d2 & E2 & T2).
    exists (d1 ++ d2). split; [now rewrite E2, E1, app_assoc|].
    apply traced_app. eauto.
  - inversion E; subst. eapply Hm; eassumption.
  - inversion E; subst. eapply Hm; eassumption.
Qed.

Lemma tracing_for_range {A B} (l : list A) (body : B -> A -> M W B) :
  (forall acc x, tracing (body acc x)) -> forall acc, tracing (for_range l body acc).
Proof.
  intros Hb. induction l as [|x l IH]; intros acc; simpl.
  - apply tracing_ret.
  - apply tracing_bind; auto.
Qed.

End Tracing.

Ltac tracing_tac :=
  unfold groupResource.removeRoles, groupResource.addRoles,
    groupResource.removeMarkings, groupResource.addMarkings,
    userResource.removeGroups, userResource.addGroups,
    roleResource.removeCapabilities, roleResource.addCapabilities;
  repeat first
    [ apply tracing_ret | apply tracing_panic | apply tracing_orReturn
    | apply tracing_bind
    | apply tracing_for_range
    | match goal with
      | |- tracing (call ?c ?e) => exact (tracing_call c e)
      | |- forall _, _ => intro
      | |- tracing (match ?x with _ => _ end) => destruct x
      | |- tracing (if ?x then _ else _) => destruct x
      end ].

Section TracedHooks.
Context {W : Type} `{OpenCTIAPIClient W}.

Lemma run_traced A (m : M W A) w out w' journal :
  tracing m -> run m w = (out, (w', journal)) -> traced w journal w'.
Proof.
  intros Hm E. destruct (Hm _ _ _ E) as (delta & Hj & T). simpl in *. now subst.
Qed.

End TracedHooks.

(** ** Relations kept as lists of identities *)

Lemma link_In id ids x : In x (Backend.link id ids) <-> In x ids \/ x = id.
Proof.
  unfold Backend.link. destruct (slices_Contains ids id) eqn:E.
  - apply slices_Contains_In in E. split; [auto | intros [?| ->]; auto].
  - rewrite in_app_iff. simpl. intuition.
Qed.

Lemma unlink_In id ids x : In x (Backend.unlink id ids) <-> In x ids /\ x <> id.
Proof. apply erase_In. Qed.

Lemma linkAll_In added : forall ids x,
  In x (linkAll added ids) <-> In x ids \/ In x added.
Proof.
  unfold linkAll. induction added as [|a added IH]; intros ids x; simpl; [tauto|].
  rewrite IH, link_In. intuition.
Qed.

Lemma unlinkAll_In removed : forall ids x,
  In x (unlinkAll removed ids) <-> In x ids /\ ~ In x removed.
Proof.
  unfold unlinkAll. induction removed as [|a removed IH]; intros ids x; simpl; [tauto|].
  rewrite IH, unlink_In. intuition.
Qed.

Section RelationStore.
Variables (A : Type) (ident name : A -> string).

Lemma named_unique table x :
  NoDup (map ident table) -> In x table -> named ident (ident x) table = Some x.
Proof.
  unfold named. induction table as [|y table IH]; simpl; [contradiction|].
  intros ND Hin. inversion ND as [|? ? Hy ND']; subst.
  destruct Hin as [->|Hin].
  - now rewrite String.eqb_refl.
  - destruct (String.eqb (ident x) (ident y)) eqn:E.
    + apply String.eqb_eq in E. exfalso. apply Hy. rewrite <- E. now apply in_map.
    + now apply IH.
Qed.

Lemma join_In ids table x :
  In x (Backend.join ident ids table) <->
  exists id, In id ids /\ named ident id table = Some x.
Proof.
  unfold Backend.join. rewrite in_flat_map. split.
  - intros (id & Hid & Hx). exists id. split; [exact Hid|].
    destruct (named ident id table) as [y|]; simpl in Hx; [|contradiction].
    destruct Hx as [->|[]]. reflexivity.
  - intros (id & Hid & Hx). exists id. split; [exact Hid|]. rewrite Hx. now left.
Qed.

Lemma toAssign_In D table : forall acc y,
  In y (toAssign name D table acc) -> In y table /\ In (name y) D.
Proof.
  induction D as [|d D IH]; intros acc y; simpl; [contradiction|].
  destruct (slices_Contains acc d); simpl.
  - intros Hy. apply IH in Hy. tauto.
  - destruct (named name d table) as [x|] eqn:En.
    + apply named_Some in En. destruct En as [Hn Hx].
      intros [<-|Hy]; [rewrite Hn; auto|]. apply IH in Hy. tauto.
    + intros Hy. apply IH in Hy. tauto.
Qed.

Lemma toAssign_covers D table d : forall acc,
  In d D -> In d (map name table) -> ~ In d acc ->
  exists y, In y (toAssign name D table acc) /\ name y = d.
Proof.
  induction D as [|e D IH]; intros acc HD HT Hacc; [contradiction|]. simpl.
  destruct (slices_Contains acc e) eqn:Hc; simpl.
  - apply slices_Contains_In in Hc.
    destruct HD as [->|HD]; [contradiction|]. now apply IH.
  - destruct (named name e table) as [x|] eqn:En.
    + pose proof (named_Some _ _ _ En) as [Hn Hx].
      destruct (string_dec e d) as [->|Hne].
      * exists x. split; [now left | exact Hn].
      * destruct HD as [->|HD]; [contradiction|].
        destruct (IH (acc ++ [name x]) HD HT) as (y & Hy & Hnm).
        { rewrite in_app_iff. simpl. rewrite Hn. intuition. }
        exists y. split; [now right | exact Hnm].
    + destruct HD as [->|HD]; [exfalso; exact (named_None _ _ _ En HT)|].
      now apply IH.
Qed.

(** A relation after one reconciliation: the identities [ids0], minus those
    of the rows whose name is not desired, plus those of the rows assigned. *)
Variable table : list A.
Hypothesis unique_table : NoDup (map ident table).
Variables (D ids0 : list string).

Let C0 := Backend.join ident ids0 table.
Let removedRows := filter (fun x => negb (slices_Contains D (name x))) C0.
Let assignedRows := toAssign name D table (retained D (map name C0)).
Let ids1 := linkAll (map ident assignedRows) (unlinkAll (map ident removedRows) ids0).
Let C1 := Backend.join ident ids1 table.

Lemma reconciled_names_desired x : In x C1 -> In (name x) D.
Proof.
  unfold C1. rewrite join_In. intros (id & Hid & Hx).
  unfold ids1 in Hid. rewrite linkAll_In, unlinkAll_In in Hid.
  destruct Hid as [[Hid0 Hnr]|Hid].
  - destruct (In_string_dec (name x) D) as [HD|HD]; [exact HD|].
    exfalso. apply Hnr.
    pose proof (named_Some _ _ _ Hx) as [Hi _]. rewrite <- Hi.
    apply in_map. unfold removedRows. rewrite filter_In. split.
    + unfold C0. rewrite join_In. eauto.
    + apply negb_true_iff, slices_Contains_not_In. exact HD.
  - apply in_map_iff in Hid. destruct Hid as (y & <- & Hy).
    unfold assignedRows in Hy. apply toAssign_In in Hy. destruct Hy as [Hyt HyD].
    rewrite (named_unique _ _ unique_table Hyt) in Hx. congruence.
Qed.

Lemma reconciled_desired_held d :
  In d D -> In d (map name table) -> In d (map name C1).
Proof.
  intros HD HT.
  destruct (In_string_dec d (retained D (map name C0))) as [Hacc|Hacc].
  - apply retained_In in Hacc. destruct Hacc as [HC _].
    apply in_map_iff in HC. destruct HC as (x & <- & Hx).
    apply in_map. unfold C1. rewrite join_In.
    unfold C0 in Hx. rewrite join_In in Hx. destruct Hx as (id & Hid & Hx).
    exists id. split; [|exact Hx].
    unfold ids1. rewrite linkAll_In, unlinkAll_In. left. split; [exact Hid|].
    intros Hr. apply in_map_iff in Hr. destruct Hr as (r & Hri & Hr).
    unfold removedRows in Hr. rewrite filter_In in Hr. destruct Hr as [HrC Hrn].
    unfold C0 in HrC. rewrite join_In in HrC. destruct HrC as (id' & Hid' & Hr').
    pose proof (named_Some _ _ _ Hr') as [Hi' _].
    assert (id' = id) by congruence. subst id'.
    assert (r = x) by congruence. subst r.
    apply negb_true_iff, slices_Contains_not_In in Hrn. contradiction.
  - destruct (toAssign_covers D table d _ HD HT Hacc) as (y & Hy & <-).
    apply in_map. unfold C1. rewrite join_In. exists (ident y).
    split.
    + unfold ids1. rewrite linkAll_In. right. now apply in_map.
    + apply named_unique; [exact unique_table|].
      unfold assignedRows in Hy. apply toAssign_In in Hy. tauto.
Qed.

End RelationStore.

(** ** What the calls do to the in-memory remote system *)

Lemma amend_id A (ident : A -> string) id (f : A -> A) table :
  (forall x, f x = x) -> Backend.amend ident id f table = table.
Proof.
  intros E. unfold Backend.amend. rewrite <- (map_id table) at 2.
  apply map_ext. intros x. destruct (String.eqb id (ident x)); auto.
Qed.

Lemma amend_amend A (ident : A -> string) id (f g : A -> A) table :
  (forall x, ident (f x) = ident x) ->
  Backend.amend ident id g (Backend.amend ident id f table)
  = Backend.amend ident id (fun x => g (f x)) table.
Proof.
  intros E. unfold Backend.amend. rewrite map_map. apply map_ext. intros x.
  destruct (String.eqb id (ident x)) eqn:Ex.
  - now rewrite E, Ex.
  - now rewrite Ex.
Qed.

Lemma amend_ext A (ident : A -> string) id (f g : A -> A) table :
  (forall x, f x = g x) -> Backend.amend ident id f table = Backend.amend ident id g table.
Proof.
  intros E. unfold Backend.amend. apply map_ext. intros x.
  destruct (String.eqb id (ident x)); auto.
Qed.

Lemma named_amend A (ident : A -> string) id (f : A -> A) table :
  (forall x, ident (f x) = ident x) ->
  named ident id (Backend.amend ident id f table)
  = option_map f (named ident id table).
Proof.
  intros E. unfold named, Backend.amend.
  induction table as [|x table IH]; simpl; [reflexivity|].
  destruct (String.eqb id (ident x)) eqn:Ex.
  - now rewrite E, Ex.
  - now rewrite Ex.
Qed.

Lemma with_groups_same b : Backend.with_groups b (Backend.groups b) = b.
Proof. now destruct b. Qed.

Lemma with_users_same b : Backend.with_users b (Backend.users b) = b.
Proof. now destruct b. Qed.

Lemma with_roles_same b : Backend.with_roles b (Backend.roles b) = b.
Proof. now destruct b. Qed.

Lemma with_groups_twice b x y :
  Backend.with_groups (Backend.with_groups b x) y = Backend.with_groups b y.
Proof. reflexivity. Qed.

Lemma with_users_twice b x y :
  Backend.with_users (Backend.with_users b x) y = Backend.with_users b y.
Proof. reflexivity. Qed.

Lemma with_roles_twice b x y :
  Backend.with_roles (Backend.with_roles b x) y = Backend.with_roles b y.
Proof. reflexivity. Qed.

Lemma relating_Reply A B (ident : A -> string) id table (identB : B -> string) other
    tableB f store b b' :
  Backend.relating ident id table identB other tableB f store b = (Reply tt, b') ->
  b' = store (Backend.amend ident id f table).
Proof.
  unfold Backend.relating.
  destruct (named ident id table), (named identB other tableB); intros E;
    inversion E; reflexivity.
Qed.

Lemma reading_Reply A B (ident : A -> string) (view : A -> B) id table b v b' :
  Backend.reading ident view id table b = (Reply v, b') ->
  b' = b /\ exists row, named ident id table = Some row /\ v = view row.
Proof.
  unfold Backend.reading. destruct (named ident id table) as [row|]; intros E;
    inversion E; subst. split; [reflexivity|]. now exists row.
Qed.

(** A run of unassign calls, or of assign calls, that all succeeded rewrites
    the relation of the row by [unlinkAll], or by [linkAll]. *)
Ltac effect_tac same twice :=
  let ids := fresh "ids" in
  let id := fresh "id" in
  let IH := fresh "IH" in
  let b := fresh "b" in
  let b' := fresh "b'" in
  let T := fresh "T" in
  let w1 := fresh "w1" in
  let Ex := fresh "Ex" in
  intros ids; induction ids as [|id ids IH]; intros b b' T; simpl in T;
  [ subst b'; rewrite amend_id; [now rewrite same | intros []; reflexivity]
  | destruct T as (w1 & Ex & T); apply relating_Reply in Ex; subst w1;
    apply IH in T; subst b'; simpl;
    rewrite twice, amend_amend by reflexivity;
    f_equal; apply amend_ext; intros []; reflexivity ].

Lemma traced_UnassignRole gid : forall ids b b',
  traced b (map (fun id => ok (UnassignRole gid id) tt) ids) b' ->
  b' = Backend.with_groups b
         (Backend.amend Backend.group_ID gid (Backend.setGroupRoles (unlinkAll ids))
            (Backend.groups b)).
Proof. effect_tac with_groups_same with_groups_twice. Qed.

Lemma traced_AssignRole gid : forall ids b b',
  traced b (map (fun id => ok (AssignRole gid id) tt) ids) b' ->
  b' = Backend.with_groups b
         (Backend.amend Backend.group_ID gid (Backend.setGroupRoles (linkAll ids))
            (Backend.groups b)).
Proof. effect_tac with_groups_same with_groups_twice. Qed.

Lemma traced_UnassignMarkingDefinition gid : forall ids b b',
  traced b (map (fun id => ok (UnassignMarkingDefinition gid id) tt) ids) b' ->
  b' = Backend.with_groups b
         (Backend.amend Backend.group_ID gid (Backend.setGroupMarkings (unlinkAll ids))
            (Backend.groups b)).
Proof. effect_tac with_groups_same with_groups_twice. Qed.

Lemma traced_AssignMarkingDefinition gid : forall ids b b',
  traced b (map (fun id => ok (AssignMarkingDefinition gid id) tt) ids) b' ->
  b' = Backend.with_groups b
         (Backend.amend Backend.group_ID gid (Backend.setGroupMarkings (linkAll ids))
            (Backend.groups b)).
Proof. effect_tac with_groups_same with_groups_twice. Qed.

Lemma traced_UnassignGroup uid : forall ids b b',
  traced b (map (fun id => ok (UnassignGroup uid id) tt) ids) b' ->
  b' = Backend.with_users b
         (Backend.amend Backend.user_ID uid (Backend.setUserGroups (unlinkAll ids))
            (Backend.users b)).
Proof. effect_tac with_users_same with_users_twice. Qed.

Lemma traced_AssignGroup uid : forall ids b b',
  traced b (map (fun id => ok (AssignGroup uid id) tt) ids) b' ->
  b' = Backend.with_users b
         (Backend.amend Backend.user_ID uid (Backend.setUserGroups (linkAll ids))
            (Backend.users b)).
Proof. effect_tac with_users_same with_users_twice. Qed.

Lemma traced_UnassignCapability rid : forall ids b b',
  traced b (map (fun id => ok (UnassignCapability rid id) tt) ids) b' ->
  b' = Backend.with_roles b
         (Backend.amend Backend.role_ID rid (Backend.setRoleCapabilities (unlinkAll ids))
            (Backend.roles b)).
Proof. effect_tac with_roles_same with_roles_twice. Qed.

Lemma traced_AssignCapability rid : forall ids b b',
  traced b (map (fun id => ok (AssignCapability rid id) tt) ids) b' ->
  b' = Backend.with_roles b
         (Backend.amend Backend.role_ID rid (Backend.setRoleCapabilities (linkAll ids))
            (Backend.roles b)).
Proof. effect_tac with_roles_same with_roles_twice. Qed.

(** ** A second update finds nothing to do *)

Lemma bind_Done_eq W A B (m : M W A) (k : A -> M W B) s a s1 :
  m s = (Done a, s1) -> bind m k s = k a s1.
Proof. unfold bind. now intros ->. Qed.

(** A removal loop over edges whose names are all planned keeps them all and
    issues no call; an addition loop over a plan whose resolvable names are
    all held issues no call. *)
Ltac kept_loop_tac :=
  let l := fresh "l" in
  let x := fresh "x" in
  let IH := fresh "IH" in
  let acc := fresh "acc" in
  let Hall := fresh "Hall" in
  intros l; induction l as [|x l IH]; intros acc Hall; simpl;
  [ now rewrite app_nil_r
  | unfold bind at 1;
    rewrite (proj2 (slices_Contains_In _ _) (Hall x (or_introl eq_refl))); simpl;
    rewrite IH by (intros; apply Hall; now right);
    now rewrite <- app_assoc ].

Ltac held_loop_tac :=
  let plan := fresh "plan" in
  let d := fresh "d" in
  let IH := fresh "IH" in
  let Hall := fresh "Hall" in
  let Hc := fresh "Hc" in
  let En := fresh "En" in
  let x := fresh "x" in
  intros plan; induction plan as [|d plan IH]; intros Hall; simpl;
  [ reflexivity
  | unfold bind at 1;
    match goal with
    | |- context [slices_Contains ?acc d] => destruct (slices_Contains acc d) eqn:Hc
    end; simpl;
    [ apply IH; intros; apply Hall; auto; now right
    | match goal with
      | |- context [find ?f ?L] =>
          destruct (find f L) as [x|] eqn:En;
          [ exfalso; apply slices_Contains_not_In in Hc; apply Hc;
            apply Hall; [now left|];
            apply find_some in En; destruct En as [Hin Heq];
            apply String.eqb_eq in Heq; rewrite Heq; now apply in_map
          | apply IH; intros; apply Hall; auto; now right ]
      end ] ].

Section NothingToDo.
Context {W : Type} `{OpenCTIAPIClient W}.

Lemma removeRoles_kept group plan s :
  (forall role, In role (nodes (Group.Roles group)) -> In (Role.Name role) plan) ->
  groupResource.removeRoles group plan s
  = (Done (map Role.Name (nodes (Group.Roles group))), s).
Proof.
  unfold groupResource.removeRoles. intros Hall.
  match goal with
  | |- for_range _ ?body [] s = _ =>
      assert (G : forall l acc,
                 (forall x, In x l -> In (Role.Name x) plan) ->
                 for_range l body acc s = (Done (acc ++ map Role.Name l), s))
        by kept_loop_tac
  end.
  now apply G.
Qed.

Lemma removeMarkings_kept group plan s :
  (forall marking, In marking (Group.AllowedMarking group) ->
                   In (MarkingDefinition.Definition_ marking) plan) ->
  groupResource.removeMarkings group plan s
  = (Done (map MarkingDefinition.Definition_ (Group.AllowedMarking group)), s).
Proof.
  unfold groupResource.removeMarkings. intros Hall.
  match goal with
  | |- for_range _ ?body [] s = _ =>
      assert (G : forall l acc,
                 (forall x, In x l -> In (MarkingDefinition.Definition_ x) plan) ->
                 for_range l body acc s
                 = (Done (acc ++ map MarkingDefinition.Definition_ l), s))
        by kept_loop_tac
  end.
  now apply G.
Qed.

Lemma removeGroups_kept user plan s :
  (forall group, In group (nodes (User.Groups user)) -> In (Group.Name group) plan) ->
  userResource.removeGroups user plan s
  = (Done (map Group.Name (nodes (User.Groups user))), s).
Proof.
  unfold userResource.removeGroups. intros Hall.
  match goal with
  | |- for_range _ ?body [] s = _ =>
      assert (G : forall l acc,
                 (forall x, In x l -> In (Group.Name x) plan) ->
                 for_range l body acc s = (Done (acc ++ map Group.Name l), s))
        by kept_loop_tac
  end.
  now apply G.
Qed.

Lemma removeCapabilities_kept role plan s :
  (forall capability, In capability (Role.Capabilities role) ->
                      In (Capability.Name capability) plan) ->
  roleResource.removeCapabilities role plan s
  = (Done (map Capability.Name (Role.Capabilities role)), s).
Proof.
  unfold roleResource.removeCapabilities. intros Hall.
  match goal with
  | |- for_range _ ?body [] s = _ =>
      assert (G : forall l acc,
                 (forall x, In x l -> In (Capability.Name x) plan) ->
                 for_range l body acc s = (Done (acc ++ map Capability.Name l), s))
        by kept_loop_tac
  end.
  now apply G.
Qed.

Lemma addRoles_held group plan existingRoles acc s :
  (forall d, In d plan -> In d (map Role.Name existingRoles) -> In d acc) ->
  groupResource.addRoles group plan existingRoles acc s = (Done acc, s).
Proof.
  unfold groupResource.addRoles, groupResource.roleNamed. revert plan. held_loop_tac.
Qed.

Lemma addMarkings_held group plan existingMarkings acc s :
  (forall d, In d plan -> In d (map MarkingDefinition.Definition_ existingMarkings) ->
             In d acc) ->
  groupResource.addMarkings group plan existingMarkings acc s = (Done acc, s).
Proof.
  unfold groupResource.addMarkings, groupResource.markingNamed. revert plan. held_loop_tac.
Qed.

Lemma addGroups_held user plan existingGroups acc s :
  (forall d, In d plan -> In d (map Group.Name existingGroups) -> In d acc) ->
  userResource.addGroups user plan existingGroups acc s = (Done acc, s).
Proof.
  unfold userResource.addGroups, userResource.groupNamed. revert plan. held_loop_tac.
Qed.

Lemma addCapabilities_held role plan ids acc s :
  (forall d, In d plan -> In d acc) ->
  roleResource.addCapabilities role plan ids acc s = (Done acc, s).
Proof.
  unfold roleResource.addCapabilities, indexed. generalize 0 as k.
  induction plan as [|d plan IH]; intros k Hall; simpl; [reflexivity|].
  unfold bind at 1.
  rewrite (proj2 (slices_Contains_In _ _) (Hall d (or_introl eq_refl))). simpl.
  apply IH. intros; apply Hall; now right.
Qed.

End NothingToDo.

(** ** The relation a reconciliation leaves, read through a view *)

Lemma filter_map_view A B (view : A -> B) (p : B -> bool) l :
  filter p (map view l) = map view (filter (fun x => p (view x)) l).
Proof.
  induction l as [|x l IH]; simpl; [reflexivity|].
  destruct (p (view x)); simpl; now rewrite IH.
Qed.

Section RelationView.
Variables (A B : Type) (ident name : A -> string) (view : A -> B)
          (identB nameB : B -> string).
Hypothesis view_ident : forall x, identB (view x) = ident x.
Hypothesis view_name : forall x, nameB (view x) = name x.

Lemma named_view d table :
  named nameB d (map view table) = option_map view (named name d table).
Proof.
  unfold named. induction table as [|x table IH]; simpl; [reflexivity|].
  rewrite view_name. destruct (String.eqb d (name x)); [reflexivity | exact IH].
Qed.

Lemma toAssign_view D table : forall acc,
  toAssign nameB D (map view table) acc = map view (toAssign name D table acc).
Proof.
  induction D as [|d D IH]; intros acc; simpl; [reflexivity|].
  rewrite named_view.
  destruct (slices_Contains acc d); simpl; [apply IH|].
  destruct (named name d table) as [x|]; simpl; [|apply IH].
  now rewrite view_name, IH.
Qed.

Variable table : list A.
Hypothesis unique_table : NoDup (map ident table).
Variables (D ids0 : list string).

Let ids1 :=
  reconciledIDs identB nameB D (map view (Backend.join ident ids0 table)) (map view table)
    ids0.

Lemma ids1_rows :
  ids1 = reconciledIDs ident name D (Backend.join ident ids0 table) table ids0.
Proof.
  unfold ids1, reconciledIDs.
  rewrite toAssign_view, filter_map_view, !map_map.
  rewrite (map_ext _ _ view_ident (toAssign _ _ _ _)).
  rewrite (map_ext _ _ view_ident (filter _ _)).
  rewrite (map_ext _ _ view_name).
  f_equal. f_equal. f_equal. apply filter_ext. intros x. now rewrite view_name.
Qed.

Lemma view_kept e :
  In e (map view (Backend.join ident ids1 table)) -> In (nameB e) D.
Proof.
  rewrite ids1_rows. intros Hin. apply in_map_iff in Hin. destruct Hin as (x & <- & Hx).
  rewrite view_name. revert Hx. unfold reconciledIDs.
  now apply reconciled_names_desired.
Qed.

Lemma view_held d :
  In d D -> In d (map nameB (map view table)) ->
  In d (map nameB (map view (Backend.join ident ids1 table))).
Proof.
  rewrite ids1_rows, !map_map, (map_ext _ _ view_name table),
    (map_ext _ _ view_name (Backend.join _ _ _)).
  unfold reconciledIDs. now apply reconciled_desired_held.
Qed.

End RelationView.

(** ** What an update that ends normally does to the in-memory remote system *)

Lemma groupResource_Update_tracing plan now :
  tracing (groupResource.Update (W:=Backend.t) plan now).
Proof. unfold groupResource.Update. tracing_tac. Qed.

Lemma userResource_Update_tracing plan now :
  tracing (userResource.Update (W:=Backend.t) plan now).
Proof. unfold userResource.Update. tracing_tac. Qed.

Lemma roleResource_Update_tracing plan now :
  tracing (roleResource.Update (W:=Backend.t) plan now).
Proof. unfold roleResource.Update. tracing_tac. Qed.

Lemma traced_ids A (f : A -> string) (g : string -> Entry) l (b b' : Backend.t) :
  traced b (map (fun x => g (f x)) l) b' -> traced b (map g (map f l)) b'.
Proof. now rewrite map_map. Qed.

(** The listings and [IDsByNames] leave the remote system as it is. *)
Lemma traced_ListRoles attributes L (b b' : Backend.t) :
  traced b [ok (ListRoles attributes) L] b' ->
  b' = b /\ L = map (Backend.roleView b) (Backend.roles b).
Proof. intros (w & Ex & ->). simpl in Ex. inversion Ex. auto. Qed.

Lemma traced_ListMarkingDefinitions attributes L (b b' : Backend.t) :
  traced b [ok (ListMarkingDefinitions attributes) L] b' ->
  b' = b /\ L = Backend.markings b.
Proof. intros (w & Ex & ->). simpl in Ex. inversion Ex. auto. Qed.

Lemma traced_ListGroups attributes L (b b' : Backend.t) :
  traced b [ok (ListGroups attributes) L] b' ->
  b' = b /\ L = map (Backend.groupView b) (Backend.groups b).
Proof. intros (w & Ex & ->). simpl in Ex. inversion Ex. auto. Qed.

Lemma traced_IDsByNames names ids (b b' : Backend.t) :
  traced b [ok (IDsByNames names) ids] b' ->
  b' = b /\ Backend.idsByNames names (Backend.capabilities b) = Some ids.
Proof.
  intros (w & Ex & ->). simpl in Ex.
  destruct (Backend.idsByNames names (Backend.capabilities b)); inversion Ex. auto.
Qed.

Lemma traced_ReadGroup attributes id group (b b' : Backend.t) :
  traced b [ok (ReadGroup attributes id) group] b' ->
  b' = b /\ exists row, named Backend.group_ID id (Backend.groups b) = Some row /\
                        group = Backend.groupView b row.
Proof.
  intros (w & Ex & ->). simpl in Ex. apply reading_Reply in Ex. exact Ex.
Qed.

Lemma traced_ReadUser attributes id user (b b' : Backend.t) :
  traced b [ok (ReadUser attributes id) user] b' ->
  b' = b /\ exists row, named Backend.user_ID id (Backend.users b) = Some row /\
                        user = Backend.userView b row.
Proof.
  intros (w & Ex & ->). simpl in Ex. apply reading_Reply in Ex. exact Ex.
Qed.

Lemma traced_ReadRole attributes id role (b b' : Backend.t) :
  traced b [ok (ReadRole attributes id) role] b' ->
  b' = b /\ exists row, named Backend.role_ID id (Backend.roles b) = Some row /\
                        role = Backend.roleView b row.
Proof.
  intros (w & Ex & ->). simpl in Ex. apply reading_Reply in Ex. exact Ex.
Qed.

(** A change of the groups, of the users or of the roles leaves the other
    tables, and the views that do not read the table changed, as they are. *)
Lemma groups_with_groups b x : Backend.groups (Backend.with_groups b x) = x.
Proof. reflexivity. Qed.

Lemma users_with_users b x : Backend.users (Backend.with_users b x) = x.
Proof. reflexivity. Qed.

Lemma roles_with_roles b x : Backend.roles (Backend.with_roles b x) = x.
Proof. reflexivity. Qed.

Lemma roles_with_groups b x : Backend.roles (Backend.with_groups b x) = Backend.roles b.
Proof. reflexivity. Qed.

Lemma markings_with_groups b x :
  Backend.markings (Backend.with_groups b x) = Backend.markings b.
Proof. reflexivity. Qed.

Lemma groups_with_users b x : Backend.groups (Backend.with_users b x) = Backend.groups b.
Proof. reflexivity. Qed.

Lemma roleView_with_groups b x :
  Backend.roleView (Backend.with_groups b x) = Backend.roleView b.
Proof. reflexivity. Qed.

Lemma groupView_with_users b x :
  Backend.groupView (Backend.with_users b x) = Backend.groupView b.
Proof. reflexivity. Qed.

Ltac traced_block T T1 :=
  let w := fresh "w" in
  apply traced_app in T; destruct T as (w & T1 & T).

Section UpdateEffect.
Import Backend.

(** Update of a group: the row of the group has its roles and its allowed
    markings reconciled, nothing else changes. *)
Lemma groupResource_Update_effect plan now b0 st b1 j :
  run (groupResource.Update plan now) b0 = (Done st, (b1, j)) ->
  exists row0,
    named group_ID (groupResource.ID plan) (groups b0) = Some row0 /\
    b1 = with_groups b0
           (amend group_ID (groupResource.ID plan)
              (fun row =>
                 setGroupMarkings
                   (reconciledIDs MarkingDefinition.ID MarkingDefinition.Definition_
                      (converted (groupResource.AllowedMarking plan))
                      (Group.AllowedMarking (groupView b0 row0)) (markings b0))
                   (setGroupRoles
                      (reconciledIDs Role.ID Role.Name (converted (groupResource.Roles plan))
                         (nodes (Group.Roles (groupView b0 row0)))
                         (map (roleView b0) (roles b0)))
                      row))
              (groups b0)).
Proof.
  intros E.
  assert (T : traced b0 j b1)
    by (eapply run_traced; [apply groupResource_Update_tracing | exact E]).
  apply groupResource_Update_Done in E. destruct E as (group & L & M & -> & ->).
  unfold groupUpdateJournal in T.
  traced_block T T1. apply traced_ReadGroup in T1.
  destruct T1 as (-> & row0 & Hrow & ->).
  exists row0. split; [exact Hrow|].
  assert (Hid : Group.ID (groupView b0 row0) = groupResource.ID plan)
    by (apply named_Some in Hrow; destruct Hrow as [Hrow _]; exact Hrow).
  rewrite Hid in T. clear Hid.
  traced_block T T1.
  apply (traced_ids Role.ID (fun id => ok (UnassignRole _ id) tt)) in T1.
  apply traced_UnassignRole in T1. subst.
  traced_block T T1. apply traced_ListRoles in T1. destruct T1 as [-> ->].
  traced_block T T1.
  apply (traced_ids Role.ID (fun id => ok (AssignRole _ id) tt)) in T1.
  apply traced_AssignRole in T1. subst.
  traced_block T T1.
  apply (traced_ids MarkingDefinition.ID
           (fun id => ok (UnassignMarkingDefinition _ id) tt)) in T1.
  apply traced_UnassignMarkingDefinition in T1. subst.
  traced_block T T1. apply traced_ListMarkingDefinitions in T1. destruct T1 as [-> ->].
  apply (traced_ids MarkingDefinition.ID
           (fun id => ok (AssignMarkingDefinition _ id) tt)) in T.
  apply traced_AssignMarkingDefinition in T. subst b1.
  rewrite !with_groups_twice, !groups_with_groups, !roles_with_groups,
    !markings_with_groups, !roleView_with_groups.
  repeat (rewrite amend_amend; [|intros; reflexivity]).
  reflexivity.
Qed.

(** Update of a user: the row of the user has its groups reconciled. *)
Lemma userResource_Update_effect plan now b0 st b1 j :
  run (userResource.Update plan now) b0 = (Done st, (b1, j)) ->
  exists row0,
    named user_ID (userResource.ID plan) (users b0) = Some row0 /\
    b1 = with_users b0
           (amend user_ID (userResource.ID plan)
              (setUserGroups
                 (reconciledIDs Group.ID Group.Name (converted (userResource.Groups plan))
                    (nodes (User.Groups (userView b0 row0)))
                    (map (groupView b0) (groups b0))))
              (users b0)).
Proof.
  intros E.
  assert (T : traced b0 j b1)
    by (eapply run_traced; [apply userResource_Update_tracing | exact E]).
  apply userResource_Update_Done in E. destruct E as (user & L & -> & ->).
  unfold userUpdateJournal in T.
  traced_block T T1. apply traced_ReadUser in T1.
  destruct T1 as (-> & row0 & Hrow & ->).
  exists row0. split; [exact Hrow|].
  assert (Hid : User.ID (userView b0 row0) = userResource.ID plan)
    by (apply named_Some in Hrow; destruct Hrow as [Hrow _]; exact Hrow).
  rewrite Hid in T. clear Hid.
  traced_block T T1.
  apply (traced_ids Group.ID (fun id => ok (UnassignGroup _ id) tt)) in T1.
  apply traced_UnassignGroup in T1. subst.
  traced_block T T1. apply traced_ListGroups in T1. destruct T1 as [-> ->].
  apply (traced_ids Group.ID (fun id => ok (AssignGroup _ id) tt)) in T.
  apply traced_AssignGroup in T. subst b1.
  rewrite !with_users_twice, !users_with_users, !groups_with_users,
    !groupView_with_users.
  repeat (rewrite amend_amend; [|intros; reflexivity]).
  reflexivity.
Qed.

(** [IDsByNames] answers one identity per name, each that of a capability
    bearing the name: the identities the addition loop of the role reads by
    position are those of the capabilities the names resolve to. *)
Lemma idsByNames_named D table ids d :
  idsByNames D table = Some ids -> In d D -> In d (map Capability.Name table).
Proof.
  revert ids. induction D as [|e D IH]; intros ids E Hin; [contradiction|].
  simpl in E. destruct (named Capability.Name e table) as [c|] eqn:En; [|discriminate].
  destruct (idsByNames D table) as [ids'|]; [|discriminate].
  destruct Hin as [->|Hin]; [|eauto].
  apply named_Some in En. destruct En as [<- Hc]. now apply in_map.
Qed.

Lemma positions_resolved table : forall D k pre ids acc,
  idsByNames D table = Some ids -> List.length pre = k ->
  map (fun i => nth i (pre ++ ids) EmptyString)
      (positionsToAssign (combine (seq k (List.length D)) D) acc)
  = map Capability.ID (toAssign Capability.Name D table acc).
Proof.
  induction D as [|d D IH]; intros k pre ids acc E Hk; [reflexivity|].
  simpl in E. destruct (named Capability.Name d table) as [c|] eqn:En; [|discriminate].
  destruct (idsByNames D table) as [ids'|] eqn:E'; [|discriminate].
  inversion E; subst ids; clear E.
  pose proof (named_Some _ _ _ En) as [Hn _].
  assert (Hpre : pre ++ Capability.ID c :: ids' = (pre ++ [Capability.ID c]) ++ ids')
    by now rewrite <- app_assoc.
  assert (Hlen : List.length (pre ++ [Capability.ID c]) = S k)
    by (rewrite length_app; simpl; lia).
  simpl. rewrite En.
  destruct (slices_Contains acc d); simpl.
  - rewrite Hpre. now apply IH.
  - rewrite Hn. f_equal.
    + rewrite app_nth2 by lia. now rewrite Hk, Nat.sub_diag.
    + rewrite Hpre. now apply IH.
Qed.

(** Update of a role: the row of the role has its capabilities reconciled,
    all planned names resolving. *)
Lemma roleResource_Update_effect plan now b0 st b1 j :
  run (roleResource.Update plan now) b0 = (Done st, (b1, j)) ->
  exists row0 ids,
    named role_ID (roleResource.ID plan) (roles b0) = Some row0 /\
    idsByNames (converted (roleResource.Capabilities plan)) (capabilities b0) = Some ids /\
    b1 = with_roles b0
           (amend role_ID (roleResource.ID plan)
              (setRoleCapabilities
                 (reconciledIDs Capability.ID Capability.Name
                    (converted (roleResource.Capabilities plan))
                    (Role.Capabilities (roleView b0 row0)) (capabilities b0)))
              (roles b0)).
Proof.
  intros E.
  assert (T : traced b0 j b1)
    by (eapply run_traced; [apply roleResource_Update_tracing | exact E]).
  apply roleResource_Update_Done in E. destruct E as (role & ids & -> & _ & ->).
  unfold roleUpdateJournal in T.
  traced_block T T1.
  apply (traced_app _ [_]) in T1. destruct T1 as (w1 & T1 & T2).
  apply traced_ReadRole in T1. destruct T1 as (-> & row0 & Hrow & ->).
  apply traced_IDsByNames in T2. destruct T2 as (-> & Hids).
  exists row0, ids. split; [exact Hrow|]. split; [exact Hids|].
  assert (Hid : Role.ID (roleView b0 row0) = roleResource.ID plan)
    by (apply named_Some in Hrow; destruct Hrow as [Hrow _]; exact Hrow).
  rewrite Hid in T. clear Hid.
  traced_block T T1.
  apply (traced_ids Capability.ID (fun id => ok (UnassignCapability _ id) tt)) in T1.
  apply traced_UnassignCapability in T1. subst.
  apply (traced_ids (fun i => nth i ids EmptyString)
           (fun id => ok (AssignCapability _ id) tt)) in T.
  apply traced_AssignCapability in T. subst b1.
  unfold indexed.
  rewrite (positions_resolved (capabilities b0) (converted (roleResource.Capabilities plan)) (k:=0)
             [] _ Hids eq_refl).
  rewrite !with_roles_twice, !roles_with_roles.
  repeat (rewrite amend_amend; [|intros; reflexivity]).
  reflexivity.
Qed.

End UpdateEffect.

(** ** An update of a remote system that holds the desired relations *)

Lemma call_Reply W `{OpenCTIAPIClient W} c onError (s : St W) a w' :
  exec c (fst s) = (Reply a, w') ->
  call c onError s = (Done a, (w', snd s ++ [ok c a])).
Proof. unfold call. now intros ->. Qed.

Section Settled.
Import Backend.

Lemma exec_ReadGroup attributes id b row :
  named group_ID id (groups b) = Some row ->
  exec (ReadGroup attributes id) b = (Reply (groupView b row), b).
Proof. intros E. simpl. unfold reading. now rewrite E. Qed.

Lemma exec_ReadUser attributes id b row :
  named user_ID id (users b) = Some row ->
  exec (ReadUser attributes id) b = (Reply (userView b row), b).
Proof. intros E. simpl. unfold reading. now rewrite E. Qed.

Lemma exec_ReadRole attributes id b row :
  named role_ID id (roles b) = Some row ->
  exec (ReadRole attributes id) b = (Reply (roleView b row), b).
Proof. intros E. simpl. unfold reading. now rewrite E. Qed.

Lemma exec_IDsByNames names b ids :
  idsByNames names (capabilities b) = Some ids ->
  exec (IDsByNames names) b = (Reply ids, b).
Proof. intros E. simpl. now rewrite E. Qed.

Lemma groupView_roles b row :
  nodes (Group.Roles (groupView b row))
  = map (roleView b) (join role_ID (group_roleIDs row) (roles b)).
Proof. apply nodes_connection_of. Qed.

Lemma userView_groups b row :
  nodes (User.Groups (userView b row))
  = map (groupView b) (join group_ID (user_groupIDs row) (groups b)).
Proof. apply nodes_connection_of. Qed.

(** When every role and every marking the group holds is planned, and every
    planned name the remote system bears is held, update reads the group,
    lists the roles and the markings, and issues no other call. *)
Lemma groupResource_Update_settled plan now b row :
  named group_ID (groupResource.ID plan) (groups b) = Some row ->
  ElementsAs AtListIndex (groupResource.Roles plan)
  = inl (converted (groupResource.Roles plan)) ->
  ElementsAs AtListIndex (groupResource.AllowedMarking plan)
  = inl (converted (groupResource.AllowedMarking plan)) ->
  (forall role, In role (map (roleView b) (join role_ID (group_roleIDs row) (roles b))) ->
                In (Role.Name role) (converted (groupResource.Roles plan))) ->
  (forall d, In d (converted (groupResource.Roles plan)) ->
             In d (map Role.Name (map (roleView b) (roles b))) ->
             In d (map Role.Name
                     (map (roleView b) (join role_ID (group_roleIDs row) (roles b))))) ->
  (forall marking,
      In marking (join MarkingDefinition.ID (group_markingIDs row) (markings b)) ->
      In (MarkingDefinition.Definition_ marking) (converted (groupResource.AllowedMarking plan))) ->
  (forall d, In d (converted (groupResource.AllowedMarking plan)) ->
             In d (map MarkingDefinition.Definition_ (markings b)) ->
             In d (map MarkingDefinition.Definition_
                     (join MarkingDefinition.ID (group_markingIDs row) (markings b)))) ->
  exists st,
    run (groupResource.Update plan now) b
    = (Done st,
       (b, [ok (ReadGroup groupResource.readAttributes (groupResource.ID plan))
               (groupView b row);
            ok (ListRoles "id name") (map (roleView b) (roles b));
            ok (ListMarkingDefinitions "id definition") (markings b)])).
Proof.
  intros Hrow HcR HcM Hr1 Hr2 Hm1 Hm2. rewrite <- groupView_roles in Hr1, Hr2.
  eexists. unfold run, groupResource.Update.
  erewrite bind_Done_eq by (apply call_Reply, exec_ReadGroup, Hrow).
  erewrite bind_Done_eq by (rewrite HcR; apply orReturn_inl).
  erewrite bind_Done_eq by (apply removeRoles_kept, Hr1).
  erewrite bind_Done_eq by (apply call_Reply; reflexivity).
  erewrite bind_Done_eq by (apply addRoles_held, Hr2).
  erewrite bind_Done_eq by (rewrite HcM; apply orReturn_inl).
  erewrite bind_Done_eq by (apply removeMarkings_kept, Hm1).
  erewrite bind_Done_eq by (apply call_Reply; reflexivity).
  erewrite bind_Done_eq by (apply addMarkings_held, Hm2).
  reflexivity.
Qed.

Lemma userResource_Update_settled plan now b row :
  named user_ID (userResource.ID plan) (users b) = Some row ->
  ElementsAs AtListIndex (userResource.Groups plan)
  = inl (converted (userResource.Groups plan)) ->
  (forall group, In group (map (groupView b) (join group_ID (user_groupIDs row) (groups b))) ->
                 In (Group.Name group) (converted (userResource.Groups plan))) ->
  (forall d, In d (converted (userResource.Groups plan)) ->
             In d (map Group.Name (map (groupView b) (groups b))) ->
             In d (map Group.Name
                     (map (groupView b) (join group_ID (user_groupIDs row) (groups b))))) ->
  exists st,
    run (userResource.Update plan now) b
    = (Done st,
       (b, [ok (ReadUser "id name user_email api_token groups { edges { node {id name} } }"
                  (userResource.ID plan))
               (userView b row);
            ok (ListGroups "id name") (map (groupView b) (groups b))])).
Proof.
  intros Hrow HcG Hg1 Hg2. rewrite <- userView_groups in Hg1, Hg2.
  eexists. unfold run, userResource.Update.
  erewrite bind_Done_eq by (apply call_Reply, exec_ReadUser, Hrow).
  erewrite bind_Done_eq by (rewrite HcG; apply orReturn_inl).
  erewrite bind_Done_eq by (apply removeGroups_kept, Hg1).
  erewrite bind_Done_eq by (apply call_Reply; reflexivity).
  erewrite bind_Done_eq by (apply addGroups_held, Hg2).
  reflexivity.
Qed.

Lemma roleResource_Update_settled plan now b row ids :
  named role_ID (roleResource.ID plan) (roles b) = Some row ->
  ElementsAs AtListIndex (roleResource.Capabilities plan)
  = inl (converted (roleResource.Capabilities plan)) ->
  idsByNames (converted (roleResource.Capabilities plan)) (capabilities b) = Some ids ->
  (forall capability,
      In capability (join Capability.ID (role_capabilityIDs row) (capabilities b)) ->
      In (Capability.Name capability) (converted (roleResource.Capabilities plan))) ->
  (forall d, In d (converted (roleResource.Capabilities plan)) ->
             In d (map Capability.Name
                     (join Capability.ID (role_capabilityIDs row) (capabilities b)))) ->
  exists st,
    run (roleResource.Update plan now) b
    = (Done st,
       (b, [ok (ReadRole "id name capabilities {id name}" (roleResource.ID plan))
               (roleView b row);
            ok (IDsByNames (converted (roleResource.Capabilities plan))) ids])).
Proof.
  intros Hrow HcC Hids Hc1 Hc2.
  eexists. unfold run, roleResource.Update.
  erewrite bind_Done_eq by (apply call_Reply, exec_ReadRole, Hrow).
  erewrite bind_Done_eq by (rewrite HcC; apply orReturn_inl).
  erewrite bind_Done_eq by (apply call_Reply, exec_IDsByNames, Hids).
  erewrite bind_Done_eq by (apply removeCapabilities_kept, Hc1).
  erewrite bind_Done_eq by (apply addCapabilities_held, Hc2).
  reflexivity.
Qed.

End Settled.

(** ** Update, then update again *)

Section Twice.
Import Backend.

Lemma groupResource_Update_twice plan now now' b0 st b1 j1 :
  WellFormed b0 ->
  run (groupResource.Update plan now) b0 = (Done st, (b1, j1)) ->
  exists st' j2,
    run (groupResource.Update plan now') b1 = (Done st', (b1, j2)) /\
    filter isAssign (calls j2) = [] /\ filter isUnassign (calls j2) = [].
Proof.
  intros WF E. pose proof E as Hc. apply groupResource_Update_converted in Hc.
  destruct Hc as [HcR HcM].
  apply groupResource_Update_effect in E.
  destruct E as (row0 & Hrow & Hb1).
  rewrite groupView_roles in Hb1.
  match type of Hb1 with
  | _ = with_groups _ (amend _ _ ?f _) =>
      assert (Hrow1 : named group_ID (groupResource.ID plan) (groups b1) = Some (f row0))
        by (rewrite Hb1, groups_with_groups, named_amend, Hrow; [reflexivity|];
            intros; reflexivity);
      destruct (groupResource_Update_settled plan now' b1 Hrow1 HcR HcM) as (st' & E2)
  end.
  - subst b1. intros role.
    exact (@view_kept _ _ role_ID role_Name (roleView b0) Role.ID Role.Name
             (fun _ => eq_refl) (fun _ => eq_refl) _ (unique_roles WF)
             (converted (groupResource.Roles plan)) (group_roleIDs row0) role).
  - subst b1. intros d.
    exact (@view_held _ _ role_ID role_Name (roleView b0) Role.ID Role.Name
             (fun _ => eq_refl) (fun _ => eq_refl) _ (unique_roles WF)
             (converted (groupResource.Roles plan)) (group_roleIDs row0) d).
  - subst b1. intros marking.
    exact (@reconciled_names_desired _ MarkingDefinition.ID MarkingDefinition.Definition_
             _ (unique_markings WF) (converted (groupResource.AllowedMarking plan))
             (group_markingIDs row0) marking).
  - subst b1. intros d.
    exact (@reconciled_desired_held _ MarkingDefinition.ID MarkingDefinition.Definition_
             _ (unique_markings WF) (converted (groupResource.AllowedMarking plan))
             (group_markingIDs row0) d).
  - exists st'. eexists. split; [exact E2|]. split; reflexivity.
Qed.

Lemma userResource_Update_twice plan now now' b0 st b1 j1 :
  WellFormed b0 ->
  run (userResource.Update plan now) b0 = (Done st, (b1, j1)) ->
  exists st' j2,
    run (userResource.Update plan now') b1 = (Done st', (b1, j2)) /\
    filter isAssign (calls j2) = [] /\ filter isUnassign (calls j2) = [].
Proof.
  intros WF E. pose proof E as HcG. apply userResource_Update_converted in HcG.
  apply userResource_Update_effect in E.
  destruct E as (row0 & Hrow & Hb1).
  rewrite userView_groups in Hb1.
  match type of Hb1 with
  | _ = with_users _ (amend _ _ ?f _) =>
      assert (Hrow1 : named user_ID (userResource.ID plan) (users b1) = Some (f row0))
        by (rewrite Hb1, users_with_users, named_amend, Hrow; [reflexivity|];
            intros; reflexivity);
      destruct (userResource_Update_settled plan now' b1 Hrow1 HcG) as (st' & E2)
  end.
  - subst b1. intros group.
    exact (@view_kept _ _ group_ID group_Name (groupView b0) Group.ID Group.Name
             (fun _ => eq_refl) (fun _ => eq_refl) _ (unique_groups WF)
             (converted (userResource.Groups plan)) (user_groupIDs row0) group).
  - subst b1. intros d.
    exact (@view_held _ _ group_ID group_Name (groupView b0) Group.ID Group.Name
             (fun _ => eq_refl) (fun _ => eq_refl) _ (unique_groups WF)
             (converted (userResource.Groups plan)) (user_groupIDs row0) d).
  - exists st'. eexists. split; [exact E2|]. split; reflexivity.
Qed.

Lemma roleResource_Update_twice plan now now' b0 st b1 j1 :
  WellFormed b0 ->
  run (roleResource.Update plan now) b0 = (Done st, (b1, j1)) ->
  exists st' j2,
    run (roleResource.Update plan now') b1 = (Done st', (b1, j2)) /\
    filter isAssign (calls j2) = [] /\ filter isUnassign (calls j2) = [].
Proof.
  intros WF E. pose proof E as HcC. apply roleResource_Update_converted in HcC.
  apply roleResource_Update_effect in E.
  destruct E as (row0 & ids & Hrow & Hids & Hb1).
  match type of Hb1 with
  | _ = with_roles _ (amend _ _ ?f _) =>
      assert (Hrow1 : named role_ID (roleResource.ID plan) (roles b1) = Some (f row0))
        by (rewrite Hb1, roles_with_roles, named_amend, Hrow; [reflexivity|];
            intros; reflexivity);
      destruct (roleResource_Update_settled plan now' b1 (ids:=ids) Hrow1 HcC)
        as (st' & E2)
  end.
  - subst b1. exact Hids.
  - subst b1. intros capability.
    exact (@reconciled_names_desired _ Capability.ID Capability.Name
             _ (unique_capabilities WF) (converted (roleResource.Capabilities plan))
             (role_capabilityIDs row0) capability).
  - subst b1. intros d Hd.
    exact (@reconciled_desired_held _ Capability.ID Capability.Name
             _ (unique_capabilities WF) (converted (roleResource.Capabilities plan))
             (role_capabilityIDs row0) d Hd (idsByNames_named _ _ _ Hids Hd)).
  - exists st'. eexists. split; [exact E2|]. split; reflexivity.
Qed.

End Twice.

Lemma Sample_remote_WellFormed : Backend.WellFormed Sample.remote.
Proof.
  split; unfold Backend.unique; simpl;
    repeat (constructor; [simpl; intuition discriminate|]); constructor.
Qed.

(** C5.  On the in-memory remote system, with identities unique within each
    table: when an update of a role, of a group or of a user has ended
    normally, the same update invoked again on the remote system the first
    left ends normally, leaves the remote system as it is, and its journal
    holds no assign call and no unassign call. *)
Theorem update_idempotent :
  forall (r : Reconciliation) (now now' : string) (b0 b1 : Backend.t)
         (result : tflist string) (j1 : list Entry),
    Backend.WellFormed b0 ->
    run (update r now) b0 = (Done result, (b1, j1)) ->
    exists result' j2,
      run (update r now') b1 = (Done result', (b1, j2)) /\
      filter isAssign (calls j2) = [] /\
      filter isUnassign (calls j2) = [].
Proof.
  intros r now now' b0 b1 result j1 WF E.
  destruct r as [plan|plan|plan|plan]; apply run_projection in E;
    destruct E as (st & E & _).
  - destruct (@roleResource_Update_twice _ _ now' _ _ _ _ WF E) as (st' & j2 & E2 & HA & HU).
    exists (roleResource.Capabilities st'), j2. split; [|now split].
    apply run_projection_intro with (f := roleResource.Capabilities) in E2. exact E2.
  - destruct (@groupResource_Update_twice _ _ now' _ _ _ _ WF E) as (st' & j2 & E2 & HA & HU).
    exists (groupResource.Roles st'), j2. split; [|now split].
    apply run_projection_intro with (f := groupResource.Roles) in E2. exact E2.
  - destruct (@groupResource_Update_twice _ _ now' _ _ _ _ WF E) as (st' & j2 & E2 & HA & HU).
    exists (groupResource.AllowedMarking st'), j2. split; [|now split].
    apply run_projection_intro with (f := groupResource.AllowedMarking) in E2. exact E2.
  - destruct (@userResource_Update_twice _ _ now' _ _ _ _ WF E) as (st' & j2 & E2 & HA & HU).
    exists (userResource.Groups st'), j2. split; [|now split].
    apply run_projection_intro with (f := userResource.Groups) in E2. exact E2.
Qed.

(** The group [soc] updated towards the roles admin and ghost and the
    markings TLP:RED and TLP:CLEAR, twice. *)
Lemma update_idempotent_witness :
  exists b1 j1 result,
    run (update (OfGroupRoles Sample.groupPlan) "now") Sample.remote
    = (Done result, (b1, j1)) /\
    List.length (filter isAssign (calls j1)) = 2 /\
    List.length (filter isUnassign (calls j1)) = 1 /\
    exists result' j2,
      run (update (OfGroupRoles Sample.groupPlan) "later") b1 = (Done result', (b1, j2)) /\
      filter isAssign (calls j2) = [] /\
      filter isUnassign (calls j2) = [].
Proof.
  eexists. eexists. eexists. split; [vm_compute; reflexivity|].
  split; [reflexivity|]. split; [reflexivity|].
  exact (@update_idempotent (OfGroupRoles Sample.groupPlan) "now" "later" Sample.remote
           _ _ _ Sample_remote_WellFormed eq_refl).
Defined.

(** ** The relations a creation leaves *)

Lemma linkAll_NoDup ids : forall acc,
  NoDup (acc ++ ids) -> linkAll ids acc = acc ++ ids.
Proof.
  unfold linkAll. induction ids as [|i ids IH]; intros acc ND; simpl.
  - now rewrite app_nil_r.
  - assert (Hi : slices_Contains acc i = false).
    { apply slices_Contains_not_In. intros Hin.
      apply NoDup_remove_2 in ND. apply ND, in_or_app. now left. }
    unfold Backend.link at 2. rewrite Hi.
    rewrite IH; rewrite <- app_assoc; [reflexivity | exact ND].
Qed.

Section CreatedRelation.
Variables (A B Elt : Type) (ident name : A -> string) (view : A -> B)
          (identB nameB : B -> string).
Hypothesis view_ident : forall x, identB (view x) = ident x.
Hypothesis view_name : forall x, nameB (view x) = name x.
Variable rendering : Elt -> string.
Variable table : list A.
Hypothesis unique_table : NoDup (map ident table).

Lemma toAssignOnCreate_view plan :
  toAssignOnCreate nameB rendering plan (map view table)
  = map view (toAssignOnCreate name rendering plan table).
Proof.
  induction plan as [|d plan IH]; simpl; [reflexivity|].
  rewrite (named_view name view nameB view_name).
  destruct (named name (rendering d) table) as [x|]; simpl; now rewrite IH.
Qed.

Lemma toAssignOnCreate_In plan x :
  In x (toAssignOnCreate name rendering plan table) ->
  In x table /\ In (name x) (map rendering plan).
Proof.
  induction plan as [|d plan IH]; simpl; [contradiction|].
  destruct (named name (rendering d) table) as [y|] eqn:En.
  - apply named_Some in En. destruct En as [Hn Hy].
    intros [<-|Hin]; [auto | apply IH in Hin; tauto].
  - intros Hin. apply IH in Hin. tauto.
Qed.

Lemma toAssignOnCreate_NoDup plan :
  NoDup (map rendering plan) ->
  NoDup (map name (toAssignOnCreate name rendering plan table)).
Proof.
  induction plan as [|d plan IH]; simpl; intros ND; [constructor|].
  inversion ND as [|? ? Hd ND']; subst.
  destruct (named name (rendering d) table) as [y|] eqn:En; [|auto].
  apply named_Some in En. destruct En as [Hn _].
  simpl. constructor; [|auto].
  intros Hin. apply in_map_iff in Hin. destruct Hin as (z & Hz & Hin).
  apply toAssignOnCreate_In in Hin. destruct Hin as [_ Hin].
  apply Hd. congruence.
Qed.

Lemma ident_injective x y :
  In x table -> In y table -> ident x = ident y -> x = y.
Proof.
  intros Hx Hy E.
  pose proof (named_unique ident table x unique_table Hx) as Nx.
  pose proof (named_unique ident table y unique_table Hy) as Ny.
  rewrite E in Nx. congruence.
Qed.

Lemma NoDup_identities l :
  (forall x, In x l -> In x table) -> NoDup (map name l) -> NoDup (map ident l).
Proof.
  induction l as [|x l IH]; simpl; intros Hl ND; [constructor|].
  inversion ND as [|? ? Hx ND']; subst. constructor; [|auto].
  intros Hin. apply in_map_iff in Hin. destruct Hin as (y & Ey & Hy).
  apply Hx. assert (y = x) by (apply ident_injective; auto). subst y.
  now apply in_map.
Qed.

Lemma join_rows l :
  (forall x, In x l -> In x table) -> Backend.join ident (map ident l) table = l.
Proof.
  unfold Backend.join. induction l as [|x l IH]; simpl; intros Hl; [reflexivity|].
  rewrite (named_unique ident table x unique_table) by auto.
  simpl. f_equal. auto.
Qed.

(** A relation that creation filled from nothing, read back. *)
Lemma join_created plan :
  NoDup (map rendering plan) ->
  map nameB
    (map view
       (Backend.join ident
          (linkAll (map identB (toAssignOnCreate nameB rendering plan (map view table))) [])
          table))
  = map nameB (toAssignOnCreate nameB rendering plan (map view table)).
Proof.
  intros ND. rewrite toAssignOnCreate_view, (map_map view identB).
  rewrite (map_ext _ _ view_ident).
  assert (Hin : forall x, In x (toAssignOnCreate name rendering plan table) -> In x table)
    by (intros x Hx; apply toAssignOnCreate_In in Hx; tauto).
  rewrite linkAll_NoDup.
  - simpl. now rewrite join_rows.
  - simpl. apply NoDup_identities; [exact Hin|]. now apply toAssignOnCreate_NoDup.
Qed.

End CreatedRelation.

(** [IDsByNames] resolves as the creation scans do. *)
Lemma idsByNames_created names table ids :
  Backend.idsByNames names table = Some ids ->
  ids = map Capability.ID (toAssignOnCreate Capability.Name (fun n => n) names table) /\
  map Capability.Name (toAssignOnCreate Capability.Name (fun n => n) names table) = names.
Proof.
  revert ids. induction names as [|n names IH]; intros ids E; simpl in E |- *.
  - inversion E. auto.
  - destruct (named Capability.Name n table) as [c|] eqn:En; [|discriminate].
    destruct (Backend.idsByNames names table) as [ids'|]; [|discriminate].
    inversion E; subst. destruct (IH _ eq_refl) as [-> Hn].
    apply named_Some in En. destruct En as [Hc _]. simpl. rewrite Hn, Hc. auto.
Qed.

(** ** The loops of the creation hooks on the in-memory remote system *)

Ltac create_loop_tac same twice :=
  let plan := fresh "plan" in
  let d := fresh "d" in
  let IH := fresh "IH" in
  let acc0 := fresh "acc0" in
  let s := fresh "s" in
  let acc := fresh "acc" in
  let s' := fresh "s'" in
  let E := fresh "E" in
  let En := fresh "En" in
  let Ec := fresh "Ec" in
  let Ex := fresh "Ex" in
  let x := fresh "x" in
  let u := fresh "u" in
  let w' := fresh "w" in
  intros plan; induction plan as [|d plan IH]; intros acc0 s acc s' E;
  [ inversion E; subst; simpl; rewrite app_nil_r; split; [reflexivity|];
    rewrite amend_id; [now rewrite same | intros []; reflexivity]
  | simpl in E |- *;
    match type of E with
    | context [find ?f ?l] =>
        match goal with
        | |- context [named ?name ?n l] =>
            change (find f l) with (named name n l) in E;
            destruct (named name n l) as [x|] eqn:En
        end
    end;
    [ unfold bind at 1 2 in E;
      match type of E with
      | context [call ?c ?onError ?s] =>
          destruct (call c onError s) as [[u| |] ?] eqn:Ec; try discriminate;
          apply call_Done_inv in Ec; destruct Ec as (w' & Ex & ->); destruct u
      end;
      apply relating_Reply in Ex; subst w';
      apply IH in E; destruct E as [-> ->]; simpl;
      split; [now rewrite <- app_assoc|];
      rewrite twice; repeat (rewrite amend_amend; [|intros; reflexivity]);
      reflexivity
    | unfold bind at 1 in E; apply IH in E; exact E ] ].

Section CreateLoops.
Context `{Fmt}.
Import Backend.

Lemma createRoles_loop gid (L : list Role.t) : forall plan acc0 (s : St Backend.t) acc s',
  for_range plan (fun rolesAssigned role =>
    match groupResource.roleNamed (strings_Trim (String_ role) dquote) L with
    | Some remoteRole =>
        bind (call (AssignRole gid (Role.ID remoteRole))
          (fun err => AddError "Error assigning role to group"
                        ("Could not create group, unexpected error: " ++ err)%string))
          (fun _ => ret (rolesAssigned ++ [Role.Name remoteRole]))
    | None => ret rolesAssigned
    end) acc0 s = (Done acc, s') ->
  acc = acc0 ++ map Role.Name (toAssignOnCreate Role.Name render plan L) /\
  fst s' = with_groups (fst s)
             (amend group_ID gid
                (setGroupRoles
                   (linkAll (map Role.ID (toAssignOnCreate Role.Name render plan L))))
                (groups (fst s))).
Proof.
  unfold groupResource.roleNamed, render. create_loop_tac with_groups_same with_groups_twice.
Qed.

Lemma createMarkings_loop gid (L : list MarkingDefinition.t) :
  forall plan acc0 (s : St Backend.t) acc s',
  for_range plan (fun markingsAssigned marking =>
    match groupResource.markingNamed (strings_Trim (String_ marking) dquote) L with
    | Some remoteMarking =>
        bind (call (AssignMarkingDefinition gid (MarkingDefinition.ID remoteMarking))
          (fun err => AddError "Error assigning marking to group"
                        ("Could not create group, unexpected error: " ++ err)%string))
          (fun _ => ret (markingsAssigned ++ [MarkingDefinition.Definition_ remoteMarking]))
    | None => ret markingsAssigned
    end) acc0 s = (Done acc, s') ->
  acc = acc0 ++ map MarkingDefinition.Definition_
                  (toAssignOnCreate MarkingDefinition.Definition_ render plan L) /\
  fst s' = with_groups (fst s)
             (amend group_ID gid
                (setGroupMarkings
                   (linkAll (map MarkingDefinition.ID
                               (toAssignOnCreate MarkingDefinition.Definition_ render plan L))))
                (groups (fst s))).
Proof.
  unfold groupResource.markingNamed, render.
  create_loop_tac with_groups_same with_groups_twice.
Qed.

Lemma createGroups_loop uid (L : list Group.t) : forall plan acc0 (s : St Backend.t) acc s',
  for_range plan (fun groupsAssigned group =>
    match userResource.groupNamed (strings_Trim (String_ group) dquote) L with
    | Some remoteGroup =>
        bind (call (AssignGroup uid (Group.ID remoteGroup))
          (fun err => AddError "Error assigning group to user" err))
          (fun _ => ret (groupsAssigned ++ [Group.Name remoteGroup]))
    | None => ret groupsAssigned
    end) acc0 s = (Done acc, s') ->
  acc = acc0 ++ map Group.Name (toAssignOnCreate Group.Name render plan L) /\
  fst s' = with_users (fst s)
             (amend user_ID uid
                (setUserGroups
                   (linkAll (map Group.ID (toAssignOnCreate Group.Name render plan L))))
                (users (fst s))).
Proof.
  unfold userResource.groupNamed, render. create_loop_tac with_users_same with_users_twice.
Qed.

End CreateLoops.

Lemma join_created_plain A Elt (ident name : A -> string) (rendering : Elt -> string)
    table plan :
  NoDup (map ident table) -> NoDup (map rendering plan) ->
  map name
    (Backend.join ident
       (linkAll (map ident (toAssignOnCreate name rendering plan table)) []) table)
  = map name (toAssignOnCreate name rendering plan table).
Proof.
  intros U ND.
  pose proof (@join_created A A Elt ident name (fun x => x) ident name
                (fun _ => eq_refl) (fun _ => eq_refl) rendering table U plan ND) as J.
  rewrite !map_id in J. exact J.
Qed.

(** ** Creation, then read, on the in-memory remote system *)

Lemma named_first A (ident : A -> string) (x : A) table :
  named ident (ident x) (x :: table) = Some x.
Proof. unfold named. simpl. now rewrite String.eqb_refl. Qed.

Ltac same_record :=
  match goal with
  | |- ret ?r _ = (Done ?st, _) =>
      let Hst := fresh "Hst" in
      assert (Hst : r = st); [|rewrite Hst; reflexivity]
  end.

Section CreateRead.
Context `{Fmt}.
Import Backend.

Lemma exec_CreateGroup_inv attributes input b group b' :
  exec (CreateGroup attributes input) b = (Reply group, b') ->
  exists row,
    group = groupView b' row /\ groups b' = row :: groups b /\
    roles b' = roles b /\ markings b' = markings b /\
    group_roleIDs row = [] /\ group_markingIDs row = [].
Proof. simpl. intros E. inversion E; subst; clear E. eexists. repeat split. Qed.

Lemma exec_CreateRole_inv attributes input b role b' :
  exec (CreateRole attributes input) b = (Reply role, b') ->
  exists row,
    role = roleView b' row /\ roles b' = row :: roles b /\
    capabilities b' = capabilities b /\ role_capabilityIDs row = [].
Proof. simpl. intros E. inversion E; subst; clear E. eexists. repeat split. Qed.

Lemma exec_CreateUser_inv attributes input b user b' :
  exec (CreateUser attributes input) b = (Reply user, b') ->
  exists row,
    user = userView b' row /\ users b' = row :: users b /\
    groups b' = groups b /\ user_groupIDs row = [] /\
    user_Name row = UserAddInput_Name input.
Proof. simpl. intros E. inversion E; subst; clear E. eexists. repeat split. Qed.

Lemma exec_ListRoles_inv attributes b L b' :
  exec (ListRoles attributes) b = (Reply L, b') ->
  b' = b /\ L = map (roleView b) (roles b).
Proof. simpl. intros E. inversion E. auto. Qed.

Lemma exec_ListMarkingDefinitions_inv attributes b L b' :
  exec (ListMarkingDefinitions attributes) b = (Reply L, b') ->
  b' = b /\ L = markings b.
Proof. simpl. intros E. inversion E. auto. Qed.

Lemma exec_ListGroups_inv attributes b L b' :
  exec (ListGroups attributes) b = (Reply L, b') ->
  b' = b /\ L = map (groupView b) (groups b).
Proof. simpl. intros E. inversion E. auto. Qed.

Lemma exec_ListUsers_inv attributes b L b' :
  exec (ListUsers attributes) b = (Reply L, b') ->
  b' = b /\ L = map (userView b) (users b).
Proof. simpl. intros E. inversion E. auto. Qed.

Lemma exec_IDsByNames_inv names b ids b' :
  exec (IDsByNames names) b = (Reply ids, b') ->
  b' = b /\ idsByNames names (capabilities b) = Some ids.
Proof.
  simpl. destruct (idsByNames names (capabilities b)); intros E; inversion E. auto.
Qed.

(** *** group *)
Lemma groupResource_Create_Read plan now b0 st b1 j1 :
  WellFormed b0 ->
  NoDup (map render (Elements (groupResource.Roles plan))) ->
  NoDup (map render (Elements (groupResource.AllowedMarking plan))) ->
  run (groupResource.Create plan now) b0 = (Done st, (b1, j1)) ->
  exists j2, run (groupResource.Read st) b1 = (Done st, (b1, j2)).
Proof.
  unfold run, groupResource.Create. intros WF NDr NDm E.
  step_Done E. call_Done E0. subst. apply exec_CreateGroup_inv in Ex.
  destruct Ex as (row & -> & Hg & Hr & Hm & Hri & Hmi).
  destruct row; cbn [group_roleIDs group_markingIDs] in Hri, Hmi; subst.
  step_Done E. call_Done E0. subst. apply exec_ListRoles_inv in Ex.
  destruct Ex as [-> ->]. cbn [fst snd] in *.
  step_Done E. apply createRoles_loop in E0. destruct E0 as [-> Hb].
  destruct s as [b2 j]. cbn [fst snd] in *. subst b2.
  step_Done E. call_Done E0. subst. apply exec_ListMarkingDefinitions_inv in Ex.
  destruct Ex as [-> ->]. cbn [fst snd] in *.
  step_Done E. apply createMarkings_loop in E0. destruct E0 as [-> Hb].
  destruct s as [b2 j']. cbn [fst snd] in *. subst b2.
  inversion E; subst; clear E.
  assert (Ur : NoDup (map role_ID (roles w))) by (rewrite Hr; apply WF).
  assert (Um : NoDup (map MarkingDefinition.ID (markings w))) by (rewrite Hm; apply WF).
  eexists. unfold groupResource.Read.
  erewrite bind_Done_eq.
  2:{ apply call_Reply, exec_ReadGroup. cbn [fst groupResource.ID groups with_groups].
      repeat (rewrite named_amend; [|intros; reflexivity]).
      rewrite Hg. match goal with |- context [named _ _ (?r :: _)] =>
                    rewrite (named_first group_ID r) end.
      reflexivity. }
  same_record. f_equal.
  - do 2 f_equal. rewrite groupView_roles.
    exact (@join_created _ _ _ role_ID role_Name (roleView w) Role.ID Role.Name
             (fun _ => eq_refl) (fun _ => eq_refl) render (roles w) Ur
             (Elements (groupResource.Roles plan)) NDr).
  - do 2 f_equal.
    exact (@join_created_plain _ _ MarkingDefinition.ID MarkingDefinition.Definition_
             render (markings w) (Elements (groupResource.AllowedMarking plan)) Um NDm).
Qed.


Lemma createCapabilities_loop rid onError : forall ids u (s : St Backend.t) u' s',
  for_range ids (fun (_ : unit) capability =>
                   call (AssignCapability rid capability) onError) u s = (Done u', s') ->
  fst s' = with_roles (fst s)
             (amend role_ID rid (setRoleCapabilities (linkAll ids)) (roles (fst s))).
Proof.
  induction ids as [|id ids IH]; intros u s u' s' E.
  - inversion E; subst. simpl.
    rewrite amend_id; [now rewrite with_roles_same | intros []; reflexivity].
  - simpl in E. step_Done E.
    apply (call_Done_inv (AssignCapability rid id)) in E0.
    destruct E0 as (w & Ex & ->). destruct a.
    apply relating_Reply in Ex. subst w.
    apply IH in E. rewrite E. cbn [fst].
    rewrite with_roles_twice, roles_with_roles.
    repeat (rewrite amend_amend; [|intros; reflexivity]).
    reflexivity.
Qed.

Lemma roleResource_Create_Read plan now b0 st b1 j1 :
  WellFormed b0 ->
  NoDup (map render (Elements (roleResource.Capabilities plan))) ->
  run (roleResource.Create plan now) b0 = (Done st, (b1, j1)) ->
  exists j2, run (roleResource.Read st) b1 = (Done st, (b1, j2)).
Proof.
  unfold run, roleResource.Create. intros WF ND E.
  step_Done E. call_Done E0. subst. apply exec_CreateRole_inv in Ex.
  destruct Ex as (row & -> & Hr & Hc & Hci).
  destruct row; cbn [role_capabilityIDs] in Hci; subst.
  step_Done E. call_Done E0. subst. apply exec_IDsByNames_inv in Ex.
  destruct Ex as [-> Hids]. cbn [fst snd] in *.
  step_Done E. apply createCapabilities_loop in E0.
  destruct s as [b2 j]. cbn [fst snd] in *. subst b2.
  inversion E; subst; clear E.
  assert (Uc : NoDup (map Capability.ID (capabilities w))) by (rewrite Hc; apply WF).
  apply idsByNames_created in Hids. destruct Hids as [-> Hnames].
  eexists. unfold roleResource.Read.
  erewrite bind_Done_eq.
  2:{ apply call_Reply, exec_ReadRole. cbn [fst roleResource.ID roles with_roles].
      repeat (rewrite named_amend; [|intros; reflexivity]).
      rewrite Hr. match goal with |- context [named _ _ (?r :: _)] =>
                    rewrite (named_first role_ID r) end.
      reflexivity. }
  same_record. do 3 f_equal.
  etransitivity; [|exact Hnames].
  assert (ND' : NoDup (map (fun n : string => n)
                         (map render (Elements (roleResource.Capabilities plan)))))
    by (rewrite map_id; exact ND).
  exact (@join_created_plain _ _ Capability.ID Capability.Name (fun n => n)
           (capabilities w) (map render (Elements (roleResource.Capabilities plan))) Uc ND').
Qed.

Lemma existingUser_rows name b :
  userResource.existingUser name (map (userView b) (users b))
  = match named user_Name name (users b) with
    | Some row => userView b row
    | None => User.zero
    end.
Proof.
  unfold userResource.existingUser.
  change (find (fun user => String.eqb name (User.Name user)) (map (userView b) (users b)))
    with (named User.Name name (map (userView b) (users b))).
  rewrite (named_view user_Name (userView b) User.Name (fun _ => eq_refl)).
  now destruct (named user_Name name (users b)).
Qed.

Lemma userResource_Create_Read plan uuid now b0 st b1 j1 :
  WellFormed b0 ->
  NoDup (map render (Elements (userResource.Groups plan))) ->
  (forall row, adopted plan b0 = Some row -> user_groupIDs row = []) ->
  run (userResource.Create plan uuid now) b0 = (Done st, (b1, j1)) ->
  exists j2, run (userResource.Read st) b1 = (Done st, (b1, j2)).
Proof.
  unfold run, userResource.Create. intros WF ND Had E.
  step_Done E. call_Done E0. subst. apply exec_ListUsers_inv in Ex.
  destruct Ex as [-> ->]. cbn [fst snd] in *.
  rewrite existingUser_rows in E. unfold adopted in Had.
  step_Done E.
  assert (Hrow : exists w row,
             fst s = w /\ a = userView w row /\ groups w = groups b0 /\
             named user_ID (user_ID row) (users w) = Some row /\
             user_groupIDs row = []).
  { destruct (named user_Name (userResource.Name plan) (users b0)) as [row|] eqn:En.
    - cbn [User.Name userView] in E0.
      destruct (String.eqb (user_Name row) EmptyString) eqn:Ee.
      + call_Done E0. subst. apply exec_CreateUser_inv in Ex.
        destruct Ex as (row' & -> & Hu & Hg & Hgi & _).
        exists w, row'. cbn [fst]. repeat split; auto.
        rewrite Hu. apply named_first.
      + inversion E0; subst. exists b0, row. cbn [fst]. repeat split; auto.
        apply named_unique; [apply WF|]. apply named_Some in En. tauto.
    - cbn [User.Name User.zero] in E0. rewrite String.eqb_refl in E0.
      call_Done E0. subst. apply exec_CreateUser_inv in Ex.
      destruct Ex as (row' & -> & Hu & Hg & Hgi & _).
      exists w, row'. cbn [fst]. repeat split; auto.
      rewrite Hu. apply named_first. }
  destruct Hrow as (w & row & Hw & -> & Hg & Hrow & Hgi). clear E0 Had.
  destruct s as [w' j0]. cbn [fst] in Hw. subst w'.
  destruct row as [uid uname uemail utoken uconf ugroups].
  cbn [user_groupIDs user_ID] in Hgi, Hrow. subst ugroups.
  step_Done E. call_Done E0. subst. apply exec_ListGroups_inv in Ex.
  destruct Ex as [-> ->]. cbn [fst snd] in *.
  step_Done E. apply createGroups_loop in E0. destruct E0 as [-> Hb].
  destruct s as [b2 j]. cbn [fst snd] in *. subst b2.
  inversion E; subst; clear E.
  assert (Ug : NoDup (map group_ID (groups w))) by (rewrite Hg; apply WF).
  eexists. unfold userResource.Read.
  erewrite bind_Done_eq.
  2:{ apply call_Reply, exec_ReadUser.
      cbn [fst userResource.ID users with_users User.ID userView].
      rewrite named_amend; [|intros; reflexivity]. rewrite Hrow. reflexivity. }
  same_record. do 3 f_equal. rewrite userView_groups.
  exact (@join_created _ _ _ group_ID group_Name (groupView w) Group.ID Group.Name
           (fun _ => eq_refl) (fun _ => eq_refl) render (groups w) Ug
           (Elements (userResource.Groups plan)) ND).
Qed.

End CreateRead.

Section CreateReadScalar.
Import Backend.

(** *** marking definition, task template, vocabulary, case template *)

Lemma markingDefinitionResource_Create_Read plan now b0 st b1 j1 :
  run (markingDefinitionResource.Create plan now) b0 = (Done st, (b1, j1)) ->
  exists j2, run (markingDefinitionResource.Read st) b1 = (Done st, (b1, j2)).
Proof.
  unfold run, markingDefinitionResource.Create. intros E.
  step_Done E. call_Done E0. subst. simpl in Ex. inversion Ex; subst; clear Ex.
  inversion E; subst; clear E.
  eexists. unfold markingDefinitionResource.Read.
  erewrite bind_Done_eq.
  2:{ apply call_Reply. simpl. unfold reading, named. simpl.
      rewrite String.eqb_refl. reflexivity. }
  reflexivity.
Qed.

Lemma taskTemplateResource_Create_Read plan now b0 st b1 j1 :
  run (taskTemplateResource.Create plan now) b0 = (Done st, (b1, j1)) ->
  exists j2, run (taskTemplateResource.Read st) b1 = (Done st, (b1, j2)).
Proof.
  unfold run, taskTemplateResource.Create. intros E.
  step_Done E. call_Done E0. subst. simpl in Ex. inversion Ex; subst; clear Ex.
  inversion E; subst; clear E.
  eexists. unfold taskTemplateResource.Read.
  erewrite bind_Done_eq.
  2:{ apply call_Reply. simpl. unfold reading, named. simpl.
      rewrite String.eqb_refl. reflexivity. }
  reflexivity.
Qed.

Lemma vocabularyResource_Create_Read plan now b0 st b1 j1 :
  run (vocabularyResource.Create plan now) b0 = (Done st, (b1, j1)) ->
  exists j2, run (vocabularyResource.Read st) b1 = (Done st, (b1, j2)).
Proof.
  unfold run, vocabularyResource.Create. intros E.
  step_Done E. call_Done E0. subst. simpl in Ex. inversion Ex; subst; clear Ex.
  inversion E; subst; clear E.
  eexists. unfold vocabularyResource.Read.
  erewrite bind_Done_eq.
  2:{ apply call_Reply. simpl. unfold reading, named. simpl.
      rewrite String.eqb_refl. reflexivity. }
  reflexivity.
Qed.

Lemma caseTemplateResource_Create_Read plan now b0 st b1 j1 :
  run (caseTemplateResource.Create plan now) b0 = (Done st, (b1, j1)) ->
  exists j2, run (caseTemplateResource.Read st) b1 = (Done st, (b1, j2)).
Proof.
  unfold run, caseTemplateResource.Create. intros E.
  step_Done E. convert_Done E0.
  step_Done E. call_Done E0. subst. simpl in Ex. inversion Ex; subst; clear Ex.
  inversion E; subst; clear E.
  eexists. unfold caseTemplateResource.Read.
  erewrite bind_Done_eq.
  2:{ apply call_Reply. simpl. unfold reading, named. simpl.
      rewrite String.eqb_refl. reflexivity. }
  reflexivity.
Qed.

(** *** status template *)

Lemma with_statusTemplates_same b : with_statusTemplates b (statusTemplates b) = b.
Proof. now destruct b. Qed.

Lemma iter_addUsage n s :
  Nat.iter n addUsage s
  = StatusTemplate.mk (StatusTemplate.ID s) (StatusTemplate.Name s)
      (StatusTemplate.Color s) (StatusTemplate.Usages s + Z.of_nat n).
Proof.
  induction n as [|n IH].
  - simpl. destruct s. simpl. now rewrite Z.add_0_r.
  - rewrite Nat.iter_succ, IH. unfold addUsage. simpl. f_equal. lia.
Qed.

Lemma setStatus_loop sid onError : forall ws acc0 (s : St Backend.t) acc s',
  for_range ws (fun workflowsValues workflow =>
    bind (call (SetStatusInWorkFlow (statusTemplateResource.Entity workflow) sid
                  (statusTemplateResource.Order workflow)) onError)
      (fun _ => ret (workflowsValues ++
                     [{| statusTemplateResource.Entity := statusTemplateResource.Entity workflow;
                         statusTemplateResource.Order := statusTemplateResource.Order workflow |}])))
    acc0 s = (Done acc, s') ->
  List.length acc = List.length acc0 + List.length ws /\
  fst s' = with_statusTemplates (fst s)
             (amend StatusTemplate.ID sid (Nat.iter (List.length ws) addUsage)
                (statusTemplates (fst s))).
Proof.
  induction ws as [|w ws IH]; intros acc0 s acc s' E.
  - inversion E; subst. simpl. split; [lia|].
    rewrite amend_id; [now rewrite with_statusTemplates_same | reflexivity].
  - simpl in E. step_Done E. step_Done E0.
    apply (call_Done_inv (SetStatusInWorkFlow _ sid _)) in E1.
    destruct E1 as (w' & Ex & ->). destruct a0.
    apply relating_Reply in Ex. subst w'. inversion E0; subst; clear E0.
    apply IH in E. destruct E as [Hlen ->]. cbn [fst].
    split; [rewrite Hlen, length_app; simpl; lia|].
    change (statusTemplates (with_statusTemplates (fst s) ?x)) with x.
    rewrite amend_amend by reflexivity.
    change (with_statusTemplates (with_statusTemplates (fst s) ?x) ?y)
      with (with_statusTemplates (fst s) y).
    f_equal. apply amend_ext. intros x. symmetry. apply Nat.iter_succ_r.
Qed.

Lemma exec_ReadStatusTemplate attributes id b row :
  named StatusTemplate.ID id (statusTemplates b) = Some row ->
  exec (ReadStatusTemplate attributes id) b = (Reply row, b).
Proof. intros E. simpl. unfold reading. now rewrite E. Qed.

Lemma exec_CreateStatusTemplate_inv attributes input b created b' :
  exec (CreateStatusTemplate attributes input) b = (Reply created, b') ->
  statusTemplates b' = created :: statusTemplates b /\
  StatusTemplate.Name created = StatusTemplateAddInput_Name input /\
  StatusTemplate.Color created = StatusTemplateAddInput_Color input /\
  StatusTemplate.Usages created = 0%Z.
Proof. simpl. intros E. inversion E; subst; clear E. repeat split. Qed.

Lemma statusTemplateResource_Create_Read plan now b0 st b1 j1 :
  run (statusTemplateResource.Create plan now) b0 = (Done st, (b1, j1)) ->
  exists j2, run (statusTemplateResource.Read st) b1 = (Done st, (b1, j2)).
Proof.
  unfold run, statusTemplateResource.Create. intros E.
  step_Done E. apply workflows_Done in E0. destruct E0 as [-> Hw].
  step_Done E. call_Done E0. subst. apply exec_CreateStatusTemplate_inv in Ex.
  destruct Ex as (Hs & Hn & Hc & Hu). cbn [StatusTemplateAddInput_Name
    StatusTemplateAddInput_Color] in Hn, Hc.
  step_Done E. apply setStatus_loop in E0. destruct E0 as [Hlen Hb].
  destruct s as [b2 j]. cbn [fst snd] in *. subst b2.
  inversion E; subst; clear E.
  eexists. unfold statusTemplateResource.Read.
  erewrite bind_Done_eq.
  2:{ apply call_Reply, exec_ReadStatusTemplate.
      cbn [fst statusTemplates with_statusTemplates statusTemplateResource.ID].
      rewrite named_amend by (intros; now rewrite iter_addUsage).
      rewrite Hs, named_first. reflexivity. }
  rewrite iter_addUsage. unfold ListValueFrom.
  cbn [StatusTemplate.Usages StatusTemplate.ID StatusTemplate.Name StatusTemplate.Color
       Elements statusTemplateResource.Workflows statusTemplateResource.LastUpdated].
  rewrite length_map, Hlen, Hu, Hn, Hc. cbn [List.length Nat.add Z.add].
  rewrite Z.eqb_refl. reflexivity.
Qed.

End CreateReadScalar.

(** C8, as the code has it.  On the in-memory remote system, with identities
    unique within each table: for each of the eight resources, when the relation
    names of the plan are rendered without repetition and a user that
    creation adopts holds no group yet, a creation that ends normally
    followed by a read of the state it wrote, on the remote system it left,
    ends normally, leaves the remote system as it is and writes the very
    state that creation wrote: scalar fields, relation lists and the
    timestamp, which a read carries over. *)
Theorem Create_then_Read :
  forall (fmt : Fmt) (plan : Model) (uuid now : string) (b0 b1 : Backend.t)
         (state : Model) (j1 : list Entry),
    Backend.WellFormed b0 ->
    Distinct plan b0 ->
    run (create plan uuid now) b0 = (Done state, (b1, j1)) ->
    exists j2, run (read state) b1 = (Done state, (b1, j2)).
Proof.
  intros fmt plan uuid now b0 b1 state j1 WF HD E.
  destruct plan as [p|p|p|p|p|p|p|p]; apply run_projection in E;
    destruct E as (st & E & ->); unfold read.
  - apply roleResource_Create_Read in E; [|exact WF|exact HD]. destruct E as (j2 & E2).
    exists j2. apply run_projection_intro with (f := RoleModel) in E2. exact E2.
  - destruct HD as [HD1 HD2].
    apply groupResource_Create_Read in E; [|exact WF|exact HD1|exact HD2].
    destruct E as (j2 & E2).
    exists j2. apply run_projection_intro with (f := GroupModel) in E2. exact E2.
  - destruct HD as [HD1 HD2].
    apply userResource_Create_Read in E; [|exact WF|exact HD1|exact HD2].
    destruct E as (j2 & E2).
    exists j2. apply run_projection_intro with (f := UserModel) in E2. exact E2.
  - apply markingDefinitionResource_Create_Read in E. destruct E as (j2 & E2).
    exists j2. apply run_projection_intro with (f := MarkingDefinitionModel) in E2.
    exact E2.
  - apply caseTemplateResource_Create_Read in E. destruct E as (j2 & E2).
    exists j2. apply run_projection_intro with (f := CaseTemplateModel) in E2. exact E2.
  - apply statusTemplateResource_Create_Read in E. destruct E as (j2 & E2).
    exists j2. apply run_projection_intro with (f := StatusTemplateModel) in E2. exact E2.
  - apply taskTemplateResource_Create_Read in E. destruct E as (j2 & E2).
    exists j2. apply run_projection_intro with (f := TaskTemplateModel) in E2. exact E2.
  - apply vocabularyResource_Create_Read in E. destruct E as (j2 & E2).
    exists j2. apply run_projection_intro with (f := VocabularyModel) in E2. exact E2.
Qed.

Lemma Sample_groupPlan_Distinct :
  @Distinct plain_Fmt (GroupModel Sample.groupPlan) Sample.remote.
Proof.
  vm_compute. split; repeat (constructor; [simpl; intuition discriminate|]); constructor.
Qed.

(** A group created with the roles admin and ghost and the markings TLP:RED
    and TLP:CLEAR: no role is named ghost, the state holds admin and the two
    markings, and the read returns that state. *)
Lemma Create_then_Read_witness :
  exists state b1 j1,
    run (@create Backend.t Backend.client plain_Fmt (GroupModel Sample.groupPlan)
           "uuid" "now") Sample.remote
    = (Done state, (b1, j1)) /\
    relationLists state
    = [ListValueFrom ["admin"]; ListValueFrom ["TLP:CLEAR"; "TLP:RED"]] /\
    exists j2, run (read state) b1 = (Done state, (b1, j2)).
Proof.
  do 3 eexists. split; [vm_compute; reflexivity|]. split; [reflexivity|].
  exact (@Create_then_Read plain_Fmt (GroupModel Sample.groupPlan) "uuid" "now"
           Sample.remote _ _ _ Sample_remote_WellFormed Sample_groupPlan_Distinct eq_refl).
Defined.

(** C8 fails for a user that creation adopts.  The remote system has the
    user alice in the group soc and the plan wants her in the group cti:
    creation adopts her, assigns cti and writes the groups it assigned; the
    read that follows, on the remote system as creation left it, returns the
    groups she holds, soc among them. *)
Lemma Create_adopted_user_Read_differs :
  exists state b1 j1 state' j2,
    run (@create Backend.t Backend.client plain_Fmt (UserModel Sample3.alicePlan)
           "uuid" "now") Sample.remote
    = (Done state, (b1, j1)) /\
    run (read state) b1 = (Done state', (b1, j2)) /\
    relationLists state = [ListValueFrom ["cti"]] /\
    relationLists state' = [ListValueFrom ["cti"; "soc"]] /\
    state' <> state.
Proof.
  do 5 eexists. split; [vm_compute; reflexivity|].
  split; [vm_compute; reflexivity|].
  split; [reflexivity|]. split; [reflexivity|]. discriminate.
Qed.

(** The relation names of the plan must not repeat: a role named twice is
    assigned twice and written twice to state, while the group holds it
    once. *)
Lemma Create_repeated_name_Read_differs :
  exists state b1 j1 state' j2,
    run (@create Backend.t Backend.client plain_Fmt (GroupModel Sample3.repeatedPlan)
           "uuid" "now") Sample.remote
    = (Done state, (b1, j1)) /\
    run (read state) b1 = (Done state', (b1, j2)) /\
    relationLists state = [ListValueFrom ["admin"; "admin"]; ListValueFrom []] /\
    relationLists state' = [ListValueFrom ["admin"]; ListValueFrom []].
Proof.
  do 5 eexists. split; [vm_compute; reflexivity|].
  split; [vm_compute; reflexivity|].
  split; reflexivity.
Qed.

(** * Further properties of the hooks *)

(** ** A hook stops at the first call that fails *)

Section Stopping.
Context {W : Type} `{OpenCTIAPIClient W}.

Lemma stopping_ret {A} ds (a : A) : stopping ds (ret a).
Proof.
  intros s out s' E. inversion E; subst. exists []. now rewrite app_nil_r.
Qed.

Lemma stopping_panic {A} ds msg : stopping ds (@panic W A msg).
Proof.
  intros s out s' E. inversion E; subst. exists []. now rewrite app_nil_r.
Qed.

Lemma stopping_orReturn {A} ds (target : A + Diagnostic) :
  incl (errorOf target) ds -> stopping ds (@orReturn W A target).
Proof.
  intros Hd s out s' E. destruct target as [a|d]; inversion E; subst;
    exists []; rewrite app_nil_r; (split; [reflexivity|]).
  - reflexivity.
  - right. split; [reflexivity|]. apply Hd. now left.
Qed.

Lemma stopping_call ds c onError :
  (forall err, diag_path (onError err) = None /\ carries (onError err) err) ->
  stopping ds (call c onError).
Proof.
  intros Hd s out s' E. unfold call in E.
  destruct (exec c (fst s)) as [[a|err] w1] eqn:Ex; inversion E; subst; simpl;
    eexists; (split; [reflexivity|]).
  - reflexivity.
  - left. exists [], c, err. destruct (Hd err) as [Hp Hc]. repeat split; auto.
Qed.

Lemma stopping_bind {A B} ds (m : M W A) (k : A -> M W B) :
  stopping ds m -> (forall a, stopping ds (k a)) -> stopping ds (bind m k).
Proof.
  intros Hm Hk s out s' E. unfold bind in E.
  destruct (m s) as [[a|d|msg] s1] eqn:Em.
  - destruct (Hm _ _ _ Em) as (d1 & E1 & S1).
    destruct (Hk a _ _ _ E) as (d2 & E2 & S2).
    exists (d1 ++ d2). split; [now rewrite E2, E1, app_assoc|].
    destruct out as [b|d|msg].
    + rewrite forallb_app, S1, S2. reflexivity.
    + destruct S2 as [(before & c & err & -> & Sb & Hp & Hc) | [S2 Hin]].
      * left. exists (d1 ++ before), c, err.
        rewrite forallb_app, S1, Sb, app_assoc. auto.
      * right. rewrite forallb_app, S1, S2. auto.
    + rewrite forallb_app, S1, S2. reflexivity.
  - inversion E; subst. exact (Hm _ _ _ Em).
  - inversion E; subst. exact (Hm _ _ _ Em).
Qed.

Lemma stopping_for_range {A B} ds (l : list A) (body : B -> A -> M W B) :
  (forall acc x, stopping ds (body acc x)) ->
  forall acc, stopping ds (for_range l body acc).
Proof.
  intros Hb. induction l as [|x l IH]; intros acc; simpl.
  - apply stopping_ret.
  - apply stopping_bind; auto.
Qed.

End Stopping.

Ltac stopping_tac :=
  unfold groupResource.removeRoles, groupResource.addRoles,
    groupResource.removeMarkings, groupResource.addMarkings,
    userResource.removeGroups, userResource.addGroups,
    roleResource.removeCapabilities, roleResource.addCapabilities;
  repeat first
    [ apply stopping_ret | apply stopping_panic
    | apply stopping_orReturn;
      first [ apply incl_refl | apply incl_appl, incl_refl | apply incl_appr, incl_refl ]
    | apply stopping_bind
    | apply stopping_for_range
    | match goal with
      | |- stopping _ (call ?c ?e) =>
          apply (stopping_call _ c e); intro; split;
          [ reflexivity
          | first [ exists EmptyString; reflexivity | eexists; reflexivity ] ]
      | |- forall _, _ => intro
      | |- stopping _ (match ?x with _ => _ end) => destruct x
      | |- stopping _ (if ?x then _ else _) => destruct x
      | |- stopping _ (let '(_, _) := ?x in _) => destruct x
      end ].

(** The diagnostics of the conversions bear the path of a value. *)
Lemma errorOf_path A at_ (v : tflist A) d :
  In d (errorOf (ElementsAs at_ v)) ->
  diag_path d <> None /\ diag_summary d = "Value Conversion Error".
Proof.
  destruct (ElementsAs at_ v) as [a|e] eqn:E; simpl; [contradiction|].
  intros [<-|[]]. eapply ElementsAs_inr; eassumption.
Qed.

Lemma conversionErrors_path (h : Hook) d :
  In d (conversionErrors h) ->
  diag_path d <> None /\ diag_summary d = "Value Conversion Error".
Proof.
  destruct h as [plan uuid now|state|c now|state]; simpl; try contradiction.
  - destruct plan; simpl; try contradiction.
    + apply errorOf_path.
    + destruct (negb _ && negb _); [apply errorOf_path | contradiction].
  - destruct c; simpl; try contradiction.
    + apply errorOf_path.
    + rewrite in_app_iff. intros [Hin|Hin]; eapply errorOf_path; eassumption.
    + apply errorOf_path.
Qed.

Section StoppingHooks.
Context {W : Type} `{OpenCTIAPIClient W} `{Fmt}.

Lemma hook_stopping (h : Hook) : stopping (conversionErrors h) (hook h).
Proof.
  destruct h as [plan uuid now|state|c now|state].
  - destruct plan; unfold hook, create, roleResource.Create, groupResource.Create,
      userResource.Create, markingDefinitionResource.Create,
      caseTemplateResource.Create, statusTemplateResource.Create,
      taskTemplateResource.Create, vocabularyResource.Create, conversionErrors;
      stopping_tac.
  - destruct state; unfold hook, read, roleResource.Read, groupResource.Read,
      userResource.Read, markingDefinitionResource.Read, caseTemplateResource.Read,
      statusTemplateResource.Read, taskTemplateResource.Read, vocabularyResource.Read;
      stopping_tac.
  - destruct c; unfold hook, change, roleResource.Update, groupResource.Update,
      userResource.Update, markingDefinitionResource.Update,
      caseTemplateResource.Update, statusTemplateResource.Update,
      taskTemplateResource.Update, vocabularyResource.Update, conversionErrors;
      stopping_tac.
  - destruct state; unfold hook, delete, roleResource.Delete, groupResource.Delete,
      userResource.Delete, markingDefinitionResource.Delete,
      caseTemplateResource.Delete, statusTemplateResource.Delete,
      taskTemplateResource.Delete, vocabularyResource.Delete; stopping_tac.
Qed.

(** A hook that ends normally converted every list it converts. *)
Lemma hook_Done_converted (h : Hook) w st s' :
  run (hook h) w = (Done st, s') -> conversionErrors h = [].
Proof.
  unfold run, hook. intros E.
  destruct h as [plan uuid now|state|c now|state]; try reflexivity.
  - step_Done E. clear E. destruct plan; try reflexivity; simpl in E0 |- *.
    + step_Done E0. clear E0. unfold caseTemplateResource.Create in E.
      step_Done E. clear E. apply orReturn_Done in E0. destruct E0 as [E0 _].
      now rewrite E0.
    + step_Done E0. clear E0. unfold statusTemplateResource.Create in E.
      step_Done E. clear E.
      destruct (negb (IsNull (statusTemplateResource.Workflows m))
                && negb (IsUnknown (statusTemplateResource.Workflows m)));
        [|reflexivity].
      apply orReturn_Done in E0. destruct E0 as [E0 _]. now rewrite E0.
  - step_Done E. clear E. destruct c; try reflexivity; simpl in E0 |- *;
      step_Done E0; clear E0.
    + apply roleResource_Update_converted in E. now rewrite E.
    + apply groupResource_Update_converted in E. destruct E as [E1 E2].
      now rewrite E1, E2.
    + apply userResource_Update_converted in E. now rewrite E.
Qed.

End StoppingHooks.

(** X1.  Given the decoded plan or state and whatever the client answers, a
    hook of any of the eight resources (create, read, update, delete) stops
    at the first call that returns an error: no call of the run but the last
    can have failed, none is retried and none follows a failure.  The hook
    reports an error in two cases only.  Either the last call failed: the diagnostic has no attribute path
    and its detail ends with the message of that error.  Or no call failed
    and a planned list the hook converts to a slice holds a null or unknown
    value (the updates of role, group and user, the creations of case
    template and status template): the diagnostic is the one of that
    conversion, a [Value Conversion Error] with the path of the value.  A
    hook that ends normally converted every list it converts. *)
Theorem hook_stops_at_first_failure :
  forall (W : Type) (client : OpenCTIAPIClient W) (fmt : Fmt) (h : Hook)
         (w w' : W) (out : outcome (option Model)) (journal : list Entry),
    run (hook h) w = (out, (w', journal)) ->
    match out with
    | Errored d =>
        (exists before c err,
            journal = before ++ [answered c (Failure err)] /\
            forallb succeeded before = true /\
            diag_path d = None /\ carries d err)
        \/ (forallb succeeded journal = true /\
            In d (conversionErrors h) /\
            diag_path d <> None /\ diag_summary d = "Value Conversion Error")
    | Done _ => forallb succeeded journal = true /\ conversionErrors h = []
    | Panicked _ => forallb succeeded journal = true
    end.
Proof.
  intros W client fmt h w w' out journal E.
  pose proof (hook_stopping h) as S0. unfold stopping in S0.
  destruct (S0 _ _ _ E) as (delta & Hj & S).
  simpl in Hj. subst delta. destruct out as [st|d|msg].
  - split; [exact S|]. eapply hook_Done_converted; eassumption.
  - destruct S as [S | [S Hin]]; [left; exact S|].
    right. split; [exact S|]. split; [exact Hin|].
    apply conversionErrors_path with (h := h). exact Hin.
  - exact S.
Qed.

(** The sample group updated towards a role list whose second element is
    null: the read succeeds, the conversion of the list fails at that
    element, and the update stops there without a failed call. *)
Lemma hook_stops_at_first_failure_witness :
  exists d w' journal,
    run (@hook Backend.t Backend.client plain_Fmt
           (AtUpdate (GroupChange Sample4.groupWithNull) "now")) Sample.remote
    = (Errored d, (w', journal)) /\
    List.length journal = 1 /\
    diag_path d = Some "[1]" /\
    ((exists before c err,
         journal = before ++ [answered c (Failure err)] /\
         forallb succeeded before = true /\
         diag_path d = None /\ carries d err)
     \/ (forallb succeeded journal = true /\
         In d (conversionErrors (AtUpdate (GroupChange Sample4.groupWithNull) "now")) /\
         diag_path d <> None /\ diag_summary d = "Value Conversion Error")).
Proof.
  do 3 eexists. split; [vm_compute; reflexivity|]. split; [reflexivity|].
  split; [reflexivity|].
  exact (@hook_stops_at_first_failure Backend.t Backend.client plain_Fmt
           (AtUpdate (GroupChange Sample4.groupWithNull) "now") Sample.remote
           _ _ _ eq_refl).
Defined.

(** ** The calls a hook issues *)

Lemma issuing_panic W `{OpenCTIAPIClient W} A P msg : issuing P (@panic W A msg).
Proof.
  intros s out s' E. inversion E; subst. exists []. now rewrite app_nil_r.
Qed.

Lemma issuing_orReturn W `{OpenCTIAPIClient W} A P (target : A + Diagnostic) :
  issuing P (@orReturn W A target).
Proof.
  destruct target; intros s out s' E; inversion E; subst; exists [];
    now rewrite app_nil_r.
Qed.

Ltac issuing_hook_tac :=
  unfold groupResource.removeRoles, groupResource.addRoles,
    groupResource.removeMarkings, groupResource.addMarkings,
    userResource.removeGroups, userResource.addGroups,
    roleResource.removeCapabilities, roleResource.addCapabilities;
  repeat first
    [ apply issuing_ret | apply issuing_panic | apply issuing_orReturn
    | apply issuing_bind
    | apply issuing_for_range
    | match goal with
      | |- issuing ?P (call ?c ?e) => exact (@issuing_call _ _ P c e eq_refl)
      | |- forall _, _ => intro
      | |- issuing _ (match ?x with _ => _ end) => destruct x
      | |- issuing _ (if ?x then _ else _) => destruct x
      | |- issuing _ (let '(_, _) := ?x in _) => destruct x
      end ].

Section AllowedCalls.
Context {W : Type} `{OpenCTIAPIClient W} `{Fmt}.

Lemma hook_issuing (h : Hook) : issuing (allowed h) (hook h).
Proof.
  destruct h as [plan uuid now|state|c now|state].
  - destruct plan; unfold hook, create, roleResource.Create, groupResource.Create,
      userResource.Create, markingDefinitionResource.Create,
      caseTemplateResource.Create, statusTemplateResource.Create,
      taskTemplateResource.Create, vocabularyResource.Create; issuing_hook_tac.
  - destruct state; unfold hook, read, roleResource.Read, groupResource.Read,
      userResource.Read, markingDefinitionResource.Read, caseTemplateResource.Read,
      statusTemplateResource.Read, taskTemplateResource.Read, vocabularyResource.Read;
      issuing_hook_tac.
  - destruct c; unfold hook, change, roleResource.Update, groupResource.Update,
      userResource.Update, markingDefinitionResource.Update,
      caseTemplateResource.Update, statusTemplateResource.Update,
      taskTemplateResource.Update, vocabularyResource.Update; issuing_hook_tac.
  - destruct state; unfold hook, delete, roleResource.Delete, groupResource.Delete,
      userResource.Delete, markingDefinitionResource.Delete,
      caseTemplateResource.Delete, statusTemplateResource.Delete,
      taskTemplateResource.Delete, vocabularyResource.Delete; issuing_hook_tac.
Qed.

End AllowedCalls.

(** X2.  Whatever the client answers and however the run ends: a creation
    hook issues no delete and no unassign call (nothing is rolled back when a
    later call fails); a read hook issues lookups only; the update hooks of
    role, group and user issue lookups, assign and unassign calls only (no
    call carries the planned name, description or confidence level); the
    update hooks of marking definition, task template and vocabulary issue
    creation calls only; those of case template and status template issue no
    call; a delete hook issues delete calls only. *)
Theorem hook_calls_allowed :
  forall (W : Type) (client : OpenCTIAPIClient W) (fmt : Fmt) (h : Hook)
         (w w' : W) (out : outcome (option Model)) (journal : list Entry),
    run (hook h) w = (out, (w', journal)) ->
    forallb (allowed h) (calls journal) = true.
Proof.
  intros W client fmt h w w' out journal E.
  pose proof (hook_issuing h) as I. unfold issuing in I.
  destruct (I _ _ _ E) as (delta & Hj & F). simpl in Hj. now subst delta.
Qed.

(** The creation of the sample group: a creation, two listings and three
    assign calls. *)
Lemma hook_calls_allowed_witness :
  exists out w' journal,
    run (@hook Backend.t Backend.client plain_Fmt
           (AtCreate (GroupModel Sample.groupPlan) "uuid" "now")) Sample.remote
    = (out, (w', journal)) /\
    List.length journal = 6 /\
    forallb (fun c => negb (isDelete c) && negb (isUnassign c)) (calls journal) = true.
Proof.
  do 3 eexists. split; [vm_compute; reflexivity|]. split; [reflexivity|].
  exact (@hook_calls_allowed Backend.t Backend.client plain_Fmt
           (AtCreate (GroupModel Sample.groupPlan) "uuid" "now") Sample.remote
           _ _ _ eq_refl).
Defined.

(** X3.  A read hook and a delete hook issue exactly one call each, on the
    identity recorded in the state, whatever the client answers; the delete
    hook ends normally exactly when that call returned no error. *)
Theorem Read_and_Delete_one_call :
  forall (W : Type) (client : OpenCTIAPIClient W) (state : Model) (w : W),
    (forall out w' journal,
        run (read state) w = (out, (w', journal)) ->
        exists c, calls journal = [c] /\ isLookup c = true /\
                  subjectID c = Some (identity state)) /\
    (forall out w' journal,
        run (delete state) w = (out, (w', journal)) ->
        exists c, calls journal = [c] /\ isDelete c = true /\
                  subjectID c = Some (identity state) /\
                  (out = Done tt <-> forallb succeeded journal = true)).
Proof.
  intros W client state w. split; intros out w' journal E.
  - destruct state; unfold run, read, roleResource.Read, groupResource.Read,
      userResource.Read, markingDefinitionResource.Read, caseTemplateResource.Read,
      statusTemplateResource.Read, taskTemplateResource.Read, vocabularyResource.Read,
      bind, call in E; simpl in E;
      match type of E with
      | context [exec ?c w] => destruct (exec c w) as [[a|err] w1]
      end; inversion E; subst; eexists; repeat split.
  - destruct state; unfold run, delete, roleResource.Delete, groupResource.Delete,
      userResource.Delete, markingDefinitionResource.Delete,
      caseTemplateResource.Delete, statusTemplateResource.Delete,
      taskTemplateResource.Delete, vocabularyResource.Delete, call in E; simpl in E;
      match type of E with
      | context [exec ?c w] => destruct (exec c w) as [[a|err] w1]
      end; inversion E; subst; eexists; repeat split;
      try reflexivity; try discriminate; try (destruct a; reflexivity).
Qed.

(** The delete of a role the remote system does not have: one call, for the
    recorded identity, and an error. *)
Lemma Read_and_Delete_one_call_witness :
  exists out w' journal c,
    run (delete (RoleModel (roleResource_ImportState "r9"))) Sample.remote
    = (out, (w', journal)) /\
    calls journal = [c] /\ isDelete c = true /\ subjectID c = Some "r9" /\
    out <> Done tt.
Proof.
  destruct (proj2 (@Read_and_Delete_one_call Backend.t Backend.client
                     (RoleModel (roleResource_ImportState "r9")) Sample.remote)
              _ _ _ eq_refl) as (c & Hc & Hd & Hs & _).
  do 3 eexists. exists c. split; [vm_compute; reflexivity|].
  repeat split; try assumption. discriminate.
Defined.

(** ** An update issues one call per element of the difference *)

Section AssignedNames.
Variables (A : Type) (name : A -> string).


End AssignedNames.

(** The entities the addition loop assigns are the first of the listing
    that bear their name. *)
Section AssignedPairs.
Variables (A : Type) (name ident : A -> string).





End AssignedPairs.








(** ** When the relation list written to state is the planned list *)







(** ** What a creation that ends normally did *)



Section CreateJournals.
Context {W : Type} `{OpenCTIAPIClient W} `{Fmt}.




Lemma createCapabilities_journal rid onError : forall ids u (s : St W) u' s',
  for_range ids (fun (_ : unit) capability =>
                   call (AssignCapability rid capability) onError) u s = (Done u', s') ->
  snd s' = snd s ++ map (fun id => ok (AssignCapability rid id) tt) ids.
Proof.
  induction ids as [|id ids IH]; intros u s u' s' E.
  - inversion E; subst. simpl. now rewrite app_nil_r.
  - simpl in E. step_Done E.
    apply (call_Done_inv (AssignCapability rid id)) in E0.
    destruct E0 as (w & _ & ->). destruct a.
    apply IH in E. rewrite E. simpl. now rewrite <- app_assoc.
Qed.

Lemma setStatus_journal sid onError : forall ws acc0 (s : St W) acc s',
  for_range ws (fun workflowsValues workflow =>
    bind (call (SetStatusInWorkFlow (statusTemplateResource.Entity workflow) sid
                  (statusTemplateResource.Order workflow)) onError)
      (fun _ => ret (workflowsValues ++
                     [{| statusTemplateResource.Entity := statusTemplateResource.Entity workflow;
                         statusTemplateResource.Order := statusTemplateResource.Order workflow |}])))
    acc0 s = (Done acc, s') ->
  acc = acc0 ++ ws /\
  snd s' = snd s ++
    map (fun workflow =>
           ok (SetStatusInWorkFlow (statusTemplateResource.Entity workflow) sid
                 (statusTemplateResource.Order workflow)) tt) ws.
Proof.
  induction ws as [|w ws IH]; intros acc0 s acc s' E.
  - inversion E; subst. simpl. now rewrite !app_nil_r.
  - simpl in E. step_Done E. step_Done E0.
    apply (call_Done_inv (SetStatusInWorkFlow _ sid _)) in E1.
    destruct E1 as (w' & _ & ->). destruct a0. inversion E0; subst; clear E0.
    apply IH in E. destruct E as [-> ->]. simpl. destruct w.
    split; now rewrite <- app_assoc.
Qed.

End CreateJournals.

(** X6.  A creation of a role that ends normally issued the creation call,
    then one [IDsByNames] call for the renderings of the planned elements,
    then one assign call per identity answered, in the order answered.  The
    rendering of an element is its [String()] trimmed of double quotes: the
    quoted form of a known name, which differs from the name when quoting
    escapes a character of it.  The state holds the sorted renderings of all
    the planned elements, as a known list, whatever was answered and
    assigned; it holds the planned names only where quoting leaves them
    unchanged. *)
Theorem roleResource_Create_Done :
  forall (W : Type) (client : OpenCTIAPIClient W) (fmt : Fmt)
         (plan st : roleResource.roleResourceModel) (now : string) (w w' : W)
         (journal : list Entry),
    run (roleResource.Create plan now) w = (Done st, (w', journal)) ->
    exists role ids,
      journal
      = [ok (CreateRole "id name" {| RoleAddInput_Name := roleResource.Name plan |}) role;
         ok (IDsByNames (map render (Elements (roleResource.Capabilities plan)))) ids]
        ++ map (fun id => ok (AssignCapability (Role.ID role) id) tt) ids /\
      roleResource.ID st = Role.ID role /\
      roleResource.Name st = Role.Name role /\
      roleResource.Capabilities st
      = ListValueFrom
          (sort_Strings (map render (Elements (roleResource.Capabilities plan)))).
Proof.
  intros W client fmt plan st now w w' journal E.
  unfold run, roleResource.Create in E.
  step_Done E. call_Done E0. subst. rename a into role.
  step_Done E. call_Done E0. subst. rename a into ids.
  step_Done E. apply createCapabilities_journal in E0.
  inversion E; subst; clear E. exists role, ids.
  simpl in E0. rewrite E0. repeat split.
Qed.

(** A role planned with a capability whose name holds one backslash, on a
    remote system whose capability bears the name with two: quoting doubles
    the backslash, the rendering resolves, and the state holds the rendering,
    not the planned name. *)
Lemma roleResource_Create_Done_witness :
  exists st w' journal role ids,
    run (@roleResource.Create Backend.t Backend.client ascii_Fmt
           Sample4.backslashRolePlan "now") Sample4.remoteWithEscaped
    = (Done st, (w', journal)) /\
    roleResource.Capabilities Sample4.backslashRolePlan = ListValueFrom ["KNOW\LEDGE"] /\
    journal
    = [ok (CreateRole "id name" {| RoleAddInput_Name := "reader" |}) role;
       ok (IDsByNames ["KNOW\\LEDGE"]) ids]
      ++ map (fun id => ok (AssignCapability (Role.ID role) id) tt) ids /\
    roleResource.ID st = Role.ID role /\
    roleResource.Name st = Role.Name role /\
    roleResource.Capabilities st = ListValueFrom ["KNOW\\LEDGE"].
Proof.
  destruct (@roleResource_Create_Done Backend.t Backend.client ascii_Fmt
              Sample4.backslashRolePlan _ "now" Sample4.remoteWithEscaped _ _ eq_refl)
    as (role & ids & Hj & Hrest).
  do 3 eexists. exists role, ids. split; [vm_compute; reflexivity|].
  split; [reflexivity|]. split; [exact Hj | exact Hrest].
Defined.


Section CreateDone.
Context {W : Type} `{OpenCTIAPIClient W} `{Fmt}.



End CreateDone.



(** X8.  A creation of a status template that ends normally issued the
    creation call and then one [SetStatusInWorkFlow] call per planned
    workflow, in the order of the plan, for the identity just created.  The
    state holds that identity, the planned name and colour (not those of the
    answer) and the planned workflows as a known list: workflows that are
    null or unknown in the plan are written as the empty list. *)
Theorem statusTemplateResource_Create_Done :
  forall (W : Type) (client : OpenCTIAPIClient W)
         (plan st : statusTemplateResource.statusTemplateResourceModel) (now : string)
         (w w' : W) (journal : list Entry),
    run (statusTemplateResource.Create plan now) w = (Done st, (w', journal)) ->
    exists created,
      Elements (statusTemplateResource.Workflows plan)
      = map (@TfKnown _) (converted (statusTemplateResource.Workflows plan)) /\
      journal
      = [ok (CreateStatusTemplate "id name color"
               {| StatusTemplateAddInput_Name := statusTemplateResource.Name plan;
                  StatusTemplateAddInput_Color := statusTemplateResource.Color plan |})
            created]
        ++ map (fun workflow =>
                  ok (SetStatusInWorkFlow (statusTemplateResource.Entity workflow)
                        (StatusTemplate.ID created)
                        (statusTemplateResource.Order workflow)) tt)
               (converted (statusTemplateResource.Workflows plan)) /\
      st = {| statusTemplateResource.ID := StatusTemplate.ID created;
              statusTemplateResource.Name := statusTemplateResource.Name plan;
              statusTemplateResource.Color := statusTemplateResource.Color plan;
              statusTemplateResource.Workflows :=
                TfKnown (Elements (statusTemplateResource.Workflows plan));
              statusTemplateResource.LastUpdated := now |}.
Proof.
  intros W client plan st now w w' journal E.
  unfold run, statusTemplateResource.Create in E.
  step_Done E. rename a into workflows.
  assert (Hw : s = (w, []) /\
               Elements (statusTemplateResource.Workflows plan)
               = map (@TfKnown _) workflows /\
               converted (statusTemplateResource.Workflows plan) = workflows).
  { destruct (statusTemplateResource.Workflows plan) as [| |l] eqn:Ev; simpl in E0.
    - inversion E0; subst. repeat split.
    - inversion E0; subst. repeat split.
    - apply orReturn_Done in E0. destruct E0 as [E0 ->].
      split; [reflexivity|]. split.
      + eapply elementsFrom_inl; eassumption.
      + apply (ElementsAs_converted AtListIndex (TfKnown l)). exact E0. }
  destruct Hw as (-> & He & Hc). clear E0.
  step_Done E. call_Done E0. subst. rename a into created.
  step_Done E. apply setStatus_journal in E0. destruct E0 as [-> J].
  inversion E; subst; clear E. exists created.
  simpl in J. rewrite J, He. repeat split.
Qed.

(** A status template planned without workflows: one call, and the empty
    list of workflows in state. *)
Lemma statusTemplateResource_Create_Done_witness :
  exists st w' journal created,
    run (statusTemplateResource.Create Sample4.statusPlanBare "now") Sample.remote
    = (Done st, (w', journal)) /\
    @Elements (tfvalue statusTemplateResource.workflowModel) TfNull
    = map (@TfKnown _) [] /\
    journal
    = [ok (CreateStatusTemplate "id name color"
             {| StatusTemplateAddInput_Name := "TRIAGED";
                StatusTemplateAddInput_Color := "#0000ff" |}) created] ++ [] /\
    st = {| statusTemplateResource.ID := StatusTemplate.ID created;
            statusTemplateResource.Name := "TRIAGED";
            statusTemplateResource.Color := "#0000ff";
            statusTemplateResource.Workflows := TfKnown [];
            statusTemplateResource.LastUpdated := "now" |}.
Proof.
  destruct (@statusTemplateResource_Create_Done Backend.t Backend.client
              Sample4.statusPlanBare _ "now" Sample.remote
              _ _ eq_refl) as (created & He & Hj & Hst).
  do 3 eexists. exists created. split; [vm_compute; reflexivity|].
  split; [exact He|]. split; [exact Hj | exact Hst].
Defined.

(** ** The confidence level of a user, sent and written back *)

Lemma overrides_sent_and_back (os : list userResource.overrideObject) :
  map (fun o => {| userResource.entity_type := ConfidenceLevelOverride.EntityType o;
                   userResource.override_max_confidence :=
                     ConfidenceLevelOverride.MaxConfidence o |})
      (map (fun o => ConfidenceLevelOverride.mk (userResource.entity_type o)
                       (userResource.override_max_confidence o)) os)
  = os.
Proof.
  induction os as [|[e m] os IH]; simpl; [reflexivity|]. now rewrite IH.
Qed.

Lemma overrides_back_and_sent (os : list ConfidenceLevelOverride.t) :
  map (fun o => ConfidenceLevelOverride.mk (userResource.entity_type o)
                  (userResource.override_max_confidence o))
      (map (fun o => {| userResource.entity_type := ConfidenceLevelOverride.EntityType o;
                        userResource.override_max_confidence :=
                          ConfidenceLevelOverride.MaxConfidence o |}) os)
  = os.
Proof.
  induction os as [|[e m] os IH]; simpl; [reflexivity|]. now rewrite IH.
Qed.

(** X9.  The confidence level [userResource.Create] sends and the object
    [convertUserConfidenceLevel] writes to state are inverse to one another:
    a planned object whose two attributes are known comes back as planned,
    and a confidence level of the remote system, written to state and
    planned again, is sent as it was.  A plan without the object sends 100
    without overrides; a planned object without [max_confidence] sends 0,
    not the default. *)
Theorem confidence_level_round_trip :
  forall (plan : userResource.userResourceModel),
    (forall m os,
        userResource.UserConfidenceLevel plan
        = TfKnown {| userResource.max_confidence := TfKnown m;
                     userResource.overrides := TfKnown os |} ->
        userResource.convertUserConfidenceLevel (userResource.plannedConfidenceLevel plan)
        = userResource.UserConfidenceLevel plan) /\
    (forall conf,
        userResource.UserConfidenceLevel plan = userResource.convertUserConfidenceLevel conf ->
        userResource.plannedConfidenceLevel plan = conf) /\
    (IsNull (userResource.UserConfidenceLevel plan)
     || IsUnknown (userResource.UserConfidenceLevel plan) = true ->
     userResource.plannedConfidenceLevel plan = ConfidenceLevel.mk 100 []) /\
    (forall o,
        userResource.UserConfidenceLevel plan = TfKnown o ->
        IsNull (userResource.max_confidence o)
        || IsUnknown (userResource.max_confidence o) = true ->
        ConfidenceLevel.MaxConfidence (userResource.plannedConfidenceLevel plan) = 0%Z).
Proof.
  intros plan. unfold userResource.plannedConfidenceLevel,
    userResource.convertUserConfidenceLevel.
  split; [|split; [|split]].
  - intros m os ->. simpl. now rewrite overrides_sent_and_back.
  - intros [m os] ->. simpl. now rewrite overrides_back_and_sent.
  - destruct (userResource.UserConfidenceLevel plan); simpl; try discriminate; reflexivity.
  - intros o -> Hm. simpl.
    destruct (userResource.max_confidence o); simpl in *; try discriminate; reflexivity.
Qed.

(** A planned confidence level of 70 with one override. *)
Lemma confidence_level_round_trip_witness :
  userResource.convertUserConfidenceLevel
    (userResource.plannedConfidenceLevel Sample4.confidentPlan)
  = userResource.UserConfidenceLevel Sample4.confidentPlan /\
  userResource.plannedConfidenceLevel Sample4.confidentPlan
  = ConfidenceLevel.mk 70 [ConfidenceLevelOverride.mk "Report" 90].
Proof.
  split; [|reflexivity].
  exact (proj1 (confidence_level_round_trip Sample4.confidentPlan) _ _ eq_refl).
Defined.

(** ** From the provider's [Configure] to the [Configure] of a resource *)

Section ConfigureOutcome.
Import openctiProvider.
Variable C : Type.
Variable Getenv : string -> string.
Variable NewOpenCTIAPIClient : string -> string -> reply C.

(** [Configure] publishes a client or reports an error, never both. *)
Lemma Configure_outcome config :
  let resp := Configure Getenv NewOpenCTIAPIClient config in
  (Diagnostics resp <> [] /\ ResourceData resp = None /\ DataSourceData resp = None) \/
  (exists u t client,
     Diagnostics resp = [] /\ constructed resp = [(u, t)] /\
     NewOpenCTIAPIClient u t = Reply client /\
     u <> EmptyString /\ t <> EmptyString /\
     ResourceData resp = Some client /\ DataSourceData resp = Some client).
Proof.
  unfold Configure, resolvedURL, resolvedToken, missingDiagnostics, unknownDiagnostics.
  destruct config as [cu ct]; destruct cu as [| |u]; destruct ct as [| |t]; simpl;
    try (left; repeat split; discriminate);
    match goal with
    | |- context [String.eqb ?u EmptyString] =>
        destruct (String.eqb u EmptyString) eqn:Eu; simpl
    end;
    try (left; repeat split; discriminate);
    match goal with
    | |- context [String.eqb ?t EmptyString] =>
        destruct (String.eqb t EmptyString) eqn:Et; simpl
    end;
    try (left; repeat split; discriminate);
    apply String.eqb_neq in Eu; apply String.eqb_neq in Et;
    match goal with
    | |- context [NewOpenCTIAPIClient ?u ?t] =>
        destruct (NewOpenCTIAPIClient u t) as [client|err] eqn:En; simpl;
        [ right; exists u, t, client; repeat split; assumption
        | left; repeat split; discriminate ]
    end.
Qed.

End ConfigureOutcome.

(** X10.  The [Configure] of a resource, given what the provider's
    [Configure] published, never reports an error of its own.  When the
    provider reported no error the resource holds the client that
    [NewOpenCTIAPIClient] returned for the two resolved, non-empty settings;
    when the provider reported an error, whether of configuration or of the
    construction of the client, it published nothing and the resource is
    left with the client it had, silently.  Only provider data of another
    type makes the resource report an error, and then too it keeps the
    client it had. *)
Theorem resource_Configure_after_provider :
  forall (C : Type) (Getenv : string -> string)
         (NewOpenCTIAPIClient : string -> string -> reply C)
         (config : openctiProvider.openctiProviderModel) (r : option C),
    let resp := openctiProvider.Configure Getenv NewOpenCTIAPIClient config in
    let configured :=
      resource_Configure r (providerData (openctiProvider.ResourceData resp)) in
    snd configured = [] /\
    (openctiProvider.Diagnostics resp = [] ->
     exists u t client,
       openctiProvider.constructed resp = [(u, t)] /\
       u <> EmptyString /\ t <> EmptyString /\
       NewOpenCTIAPIClient u t = Reply client /\
       fst configured = Some client) /\
    (openctiProvider.Diagnostics resp <> [] -> fst configured = r) /\
    (forall typeName,
        fst (resource_Configure r (OtherData typeName)) = r /\
        exists d, snd (resource_Configure r (OtherData typeName)) = [d] /\
                  diag_summary d = "Unexpected Resource Configure Type").
Proof.
  intros C Getenv New config r. cbv zeta.
  pose proof (Configure_outcome Getenv New config) as X. cbv zeta in X.
  destruct X as [(Hd & Hr & _) | (u & t & client & Hd & Hc & Hn & Hu & Ht & Hr & _)];
    rewrite Hr; simpl.
  - split; [reflexivity|]. split; [intros E; contradiction|].
    split; [reflexivity|]. intros typeName. split; [reflexivity|].
    eexists. split; reflexivity.
  - split; [reflexivity|]. split.
    + intros _. exists u, t, client. repeat split; assumption.
    + split; [intros E; contradiction|]. intros typeName. split; [reflexivity|].
      eexists. split; reflexivity.
Qed.

(** The settings of the sample environment: the resource holds the client
    constructed from them. *)
Lemma resource_Configure_after_provider_witness :
  exists u t client,
    openctiProvider.constructed
      (openctiProvider.Configure openctiProvider.sampleEnvironment
         openctiProvider.sampleClient
         {| openctiProvider.URL := TfNull; openctiProvider.Token := TfNull |})
    = [(u, t)] /\
    u <> EmptyString /\ t <> EmptyString /\
    openctiProvider.sampleClient u t = Reply client /\
    fst (resource_Configure None
           (providerData
              (openctiProvider.ResourceData
                 (openctiProvider.Configure openctiProvider.sampleEnvironment
                    openctiProvider.sampleClient
                    {| openctiProvider.URL := TfNull; openctiProvider.Token := TfNull |}))))
    = Some client.
Proof.
  exact (proj1 (proj2 (@resource_Configure_after_provider _
                         openctiProvider.sampleEnvironment openctiProvider.sampleClient
                         {| openctiProvider.URL := TfNull;
                            openctiProvider.Token := TfNull |} None))
               eq_refl).
Defined.

(** ** An update that follows a read *)

Section ReadThenUpdate.
Import Backend.

Lemma idsByNames_total table : forall names,
  (forall n, In n names -> In n (map Capability.Name table)) ->
  exists ids, idsByNames names table = Some ids.
Proof.
  induction names as [|n names IH]; intros Hall; simpl; [now exists []|].
  destruct (named Capability.Name n table) as [c|] eqn:En.
  - destruct IH as [ids ->]; [intros; apply Hall; now right|]. eauto.
  - apply named_None in En. exfalso. apply En, Hall. now left.
Qed.

Lemma groupResource_Read_Update state plan now b st b' j :
  run (groupResource.Read state) b = (Done st, (b', j)) ->
  groupResource.ID plan = groupResource.ID st ->
  groupResource.Roles plan = groupResource.Roles st ->
  groupResource.AllowedMarking plan = groupResource.AllowedMarking st ->
  b' = b /\
  exists j2,
    run (groupResource.Update plan now) b
    = (Done {| groupResource.ID := groupResource.ID plan;
               groupResource.Name := groupResource.Name plan;
               groupResource.Description := groupResource.Description plan;
               groupResource.Roles := groupResource.Roles plan;
               groupResource.AllowedMarking := groupResource.AllowedMarking plan;
               groupResource.MaxConfidenceLevel := groupResource.MaxConfidenceLevel plan;
               groupResource.AutoNewMarking := groupResource.AutoNewMarking plan;
               groupResource.DefaultAssignation := groupResource.DefaultAssignation plan;
               groupResource.LastUpdated := now |}, (b, j2)) /\
    forallb isLookup (calls j2) = true.
Proof.
  unfold run, groupResource.Read. intros E Hid Hr Hm.
  step_Done E. call_Done E0. subst. simpl in Ex. apply reading_Reply in Ex.
  destruct Ex as (-> & row & Hrow & ->). inversion E; subst; clear E.
  simpl in Hid, Hr, Hm. split; [reflexivity|].
  destruct (named_Some _ _ _ Hrow) as [Hident _]. rewrite <- Hident in Hrow.
  rewrite <- Hid in Hrow. rewrite nodes_connection_of in Hr.
  eexists. split.
  - unfold run, groupResource.Update. rewrite Hr, Hm.
    erewrite bind_Done_eq by (apply call_Reply, exec_ReadGroup, Hrow).
    erewrite bind_Done_eq by (rewrite ElementsAs_ListValueFrom; apply orReturn_inl).
    erewrite bind_Done_eq
      by (apply removeRoles_kept; intros role Hin;
          apply sort_Strings_In, in_map; rewrite groupView_roles in Hin; exact Hin).
    erewrite bind_Done_eq by (apply call_Reply; reflexivity).
    erewrite bind_Done_eq
      by (apply addRoles_held; intros d Hd _;
          apply (proj1 (sort_Strings_In _ _)) in Hd; rewrite groupView_roles; exact Hd).
    erewrite bind_Done_eq by (rewrite ElementsAs_ListValueFrom; apply orReturn_inl).
    erewrite bind_Done_eq
      by (apply removeMarkings_kept; intros marking Hin;
          apply sort_Strings_In, in_map; exact Hin).
    erewrite bind_Done_eq by (apply call_Reply; reflexivity).
    erewrite bind_Done_eq
      by (apply addMarkings_held; intros d Hd _;
          apply (proj1 (sort_Strings_In _ _)) in Hd; exact Hd).
    unfold ret. rewrite groupView_roles. simpl. reflexivity.
  - reflexivity.
Qed.

Lemma userResource_Read_Update state plan now b st b' j :
  run (userResource.Read state) b = (Done st, (b', j)) ->
  userResource.ID plan = userResource.ID st ->
  userResource.Groups plan = userResource.Groups st ->
  b' = b /\
  exists j2,
    run (userResource.Update plan now) b
    = (Done {| userResource.ID := userResource.ID plan;
               userResource.Name := userResource.Name plan;
               userResource.UserEmail := userResource.UserEmail plan;
               userResource.APIToken := userResource.APIToken plan;
               userResource.Groups := userResource.Groups plan;
               userResource.UserConfidenceLevel := userResource.UserConfidenceLevel plan;
               userResource.LastUpdated := now |}, (b, j2)) /\
    forallb isLookup (calls j2) = true.
Proof.
  unfold run, userResource.Read. intros E Hid Hg.
  step_Done E. call_Done E0. subst. simpl in Ex. apply reading_Reply in Ex.
  destruct Ex as (-> & row & Hrow & ->). inversion E; subst; clear E.
  simpl in Hid, Hg. split; [reflexivity|].
  destruct (named_Some _ _ _ Hrow) as [Hident _]. rewrite <- Hident in Hrow.
  rewrite <- Hid in Hrow. rewrite nodes_connection_of in Hg.
  eexists. split.
  - unfold run, userResource.Update. rewrite Hg.
    erewrite bind_Done_eq by (apply call_Reply, exec_ReadUser, Hrow).
    erewrite bind_Done_eq by (rewrite ElementsAs_ListValueFrom; apply orReturn_inl).
    erewrite bind_Done_eq
      by (apply removeGroups_kept; intros group Hin;
          apply sort_Strings_In, in_map; rewrite userView_groups in Hin; exact Hin).
    erewrite bind_Done_eq by (apply call_Reply; reflexivity).
    erewrite bind_Done_eq
      by (apply addGroups_held; intros d Hd _;
          apply (proj1 (sort_Strings_In _ _)) in Hd; rewrite userView_groups; exact Hd).
    unfold ret. rewrite userView_groups. simpl. reflexivity.
  - reflexivity.
Qed.

Lemma roleResource_Read_Update state plan now b st b' j :
  run (roleResource.Read state) b = (Done st, (b', j)) ->
  roleResource.ID plan = roleResource.ID st ->
  roleResource.Capabilities plan = roleResource.Capabilities st ->
  b' = b /\
  exists j2,
    run (roleResource.Update plan now) b
    = (Done {| roleResource.ID := roleResource.ID plan;
               roleResource.Name := roleResource.Name plan;
               roleResource.Capabilities := roleResource.Capabilities plan;
               roleResource.LastUpdated := now |}, (b, j2)) /\
    forallb isLookup (calls j2) = true.
Proof.
  unfold run, roleResource.Read. intros E Hid Hc.
  step_Done E. call_Done E0. subst. simpl in Ex. apply reading_Reply in Ex.
  destruct Ex as (-> & row & Hrow & ->). inversion E; subst; clear E.
  simpl in Hid, Hc. split; [reflexivity|].
  destruct (named_Some _ _ _ Hrow) as [Hident _]. rewrite <- Hident in Hrow.
  rewrite <- Hid in Hrow.
  destruct (idsByNames_total (capabilities b')
              (converted (roleResource.Capabilities plan)))
    as [ids Hids].
  { intros n Hn. rewrite Hc, converted_ListValueFrom in Hn.
    apply (proj1 (sort_Strings_In _ _)) in Hn.
    apply in_map_iff in Hn. destruct Hn as (c & <- & Hin).
    apply join_In in Hin. destruct Hin as (id & _ & Hin).
    apply named_Some in Hin. apply in_map, Hin. }
  rewrite Hc, converted_ListValueFrom in Hids.
  eexists. split.
  - unfold run, roleResource.Update. rewrite Hc.
    erewrite bind_Done_eq by (apply call_Reply, exec_ReadRole, Hrow).
    erewrite bind_Done_eq by (rewrite ElementsAs_ListValueFrom; apply orReturn_inl).
    erewrite bind_Done_eq by (apply call_Reply, exec_IDsByNames, Hids).
    erewrite bind_Done_eq
      by (apply removeCapabilities_kept; intros capability Hin;
          apply sort_Strings_In, in_map; exact Hin).
    erewrite bind_Done_eq
      by (apply addCapabilities_held; intros d Hd;
          apply (proj1 (sort_Strings_In _ _)) in Hd; exact Hd).
    unfold ret. simpl. reflexivity.
  - reflexivity.
Qed.

End ReadThenUpdate.

(** X11.  On the in-memory remote system: when a role, a group or a user has
    just been read, an update whose plan keeps the identity and the relation
    lists of the state read (whatever scalar attributes it changes: name,
    description, email, confidence level, ...) ends normally, issues nothing
    but look-ups, leaves the remote system exactly as it was, and records the
    plan with the new timestamp as the state.  So a change of scalar
    attributes alone is recorded but never reaches the remote system. *)
Theorem scalar_update_after_Read :
  forall (state st : Model) (c : Change) (now : string)
         (b b' : Backend.t) (j : list Entry),
    run (read state) b = (Done st, (b', j)) ->
    scalarChange c st ->
    b' = b /\
    exists j2,
      run (change c now) b = (Done (withLastUpdated now (planned c)), (b, j2)) /\
      forallb isLookup (calls j2) = true.
Proof.
  intros state st c now b b' j E HS.
  destruct state as [s|s|s|s|s|s|s|s]; apply run_projection in E;
    destruct E as (st0 & E & ->); destruct c; simpl in HS; try contradiction.
  - destruct HS as [Hid Hc].
    destruct (@roleResource_Read_Update _ _ now _ _ _ _ E Hid Hc) as (-> & j2 & E2 & HL).
    split; [reflexivity|]. exists j2. split; [|exact HL].
    apply run_projection_intro with (f := RoleModel) in E2. exact E2.
  - destruct HS as (Hid & Hr & Hm).
    destruct (@groupResource_Read_Update _ _ now _ _ _ _ E Hid Hr Hm) as (-> & j2 & E2 & HL).
    split; [reflexivity|]. exists j2. split; [|exact HL].
    apply run_projection_intro with (f := GroupModel) in E2. exact E2.
  - destruct HS as [Hid Hg].
    destruct (@userResource_Read_Update _ _ now _ _ _ _ E Hid Hg) as (-> & j2 & E2 & HL).
    split; [reflexivity|]. exists j2. split; [|exact HL].
    apply run_projection_intro with (f := UserModel) in E2. exact E2.
Qed.

(** The sample group, read and then renamed and described anew. *)
Lemma scalar_update_after_Read_witness :
  exists st j,
    run (read (GroupModel Sample.groupPlan)) Sample.remote
    = (Done st, (Sample.remote, j)) /\
    scalarChange (GroupChange Sample4.groupRenamed) st /\
    (Sample.remote = Sample.remote /\
     exists j2,
       run (change (GroupChange Sample4.groupRenamed) "later") Sample.remote
       = (Done (withLastUpdated "later" (planned (GroupChange Sample4.groupRenamed))),
          (Sample.remote, j2)) /\
       forallb isLookup (calls j2) = true).
Proof.
  do 2 eexists. split; [vm_compute; reflexivity|].
  split; [vm_compute; repeat split|].
  refine (@scalar_update_after_Read (GroupModel Sample.groupPlan) _
            (GroupChange Sample4.groupRenamed) "later" Sample.remote Sample.remote _ _ _).
  - vm_compute. reflexivity.
  - vm_compute. repeat split.
Defined.

(** ** A read that follows an import *)

(** X12.  A read depends on the recorded state only through its identity,
    its timestamp and, for a status template, its workflows.  So the read
    that follows an import, whose state holds the identity alone, issues the
    same call with the same answer as a read of any recorded state of that
    identity, fails or ends alike, and writes the same state but for the
    timestamp, which stays empty; for a status template the workflows come
    back null or empty, never as they were recorded. *)
Theorem Read_of_imported_state :
  forall (W : Type) (client : OpenCTIAPIClient W) (state : Model) (w : W)
         (out : outcome Model) (s' : St W),
    run (read state) w = (out, s') ->
    exists out',
      run (read (ImportState state)) w = (out', s') /\
      match out, out' with
      | Done st, Done st' =>
          match st, st' with
          | StatusTemplateModel m, StatusTemplateModel m' =>
              statusTemplateResource.ID m' = statusTemplateResource.ID m /\
              statusTemplateResource.Name m' = statusTemplateResource.Name m /\
              statusTemplateResource.Color m' = statusTemplateResource.Color m /\
              statusTemplateResource.LastUpdated m' = EmptyString /\
              (statusTemplateResource.Workflows m' = TfNull \/
               statusTemplateResource.Workflows m' = TfKnown [])
          | _, _ => st' = withLastUpdated EmptyString st
          end
      | Errored d, Errored d' => d' = d
      | Panicked msg, Panicked msg' => msg' = msg
      | _, _ => False
      end.
Proof.
  intros W client state w out s' E.
  destruct state as [s|s|s|s|s|s|s|s]; unfold run, read, ImportState in *;
    unfold roleResource.Read, groupResource.Read, userResource.Read,
      markingDefinitionResource.Read, caseTemplateResource.Read,
      statusTemplateResource.Read, taskTemplateResource.Read,
      vocabularyResource.Read in *;
    unfold bind, call, ret in *; simpl in *;
    match type of E with
    | context [exec ?c w] => destruct (exec c w) as [[a|err] w1]
    end;
    inversion E; subst; clear E; eexists; (split; [reflexivity|]);
    try reflexivity.
  simpl. repeat split.
  destruct (StatusTemplate.Usages a); simpl; auto.
Qed.

(** The recorded status template of the sample, in use by one workflow the
    state does not record. *)
Lemma Read_of_imported_state_witness :
  exists out s',
    run (read (StatusTemplateModel Sample2.statusState)) Sample.remote = (out, s') /\
    exists out',
      run (read (ImportState (StatusTemplateModel Sample2.statusState))) Sample.remote
      = (out', s') /\
      match out, out' with
      | Done st, Done st' =>
          match st, st' with
          | StatusTemplateModel m, StatusTemplateModel m' =>
              statusTemplateResource.ID m' = statusTemplateResource.ID m /\
              statusTemplateResource.Name m' = statusTemplateResource.Name m /\
              statusTemplateResource.Color m' = statusTemplateResource.Color m /\
              statusTemplateResource.LastUpdated m' = EmptyString /\
              (statusTemplateResource.Workflows m' = TfNull \/
               statusTemplateResource.Workflows m' = TfKnown [])
          | _, _ => st' = withLastUpdated EmptyString st
          end
      | Errored d, Errored d' => d' = d
      | Panicked msg, Panicked msg' => msg' = msg
      | _, _ => False
      end.
Proof.
  do 2 eexists. split; [vm_compute; reflexivity|].
  apply (@Read_of_imported_state _ _ (StatusTemplateModel Sample2.statusState)
           Sample.remote).
  vm_compute. reflexivity.
Defined.
